(** * The SXWL endpoint client of runpod-python, embedded in Rocq

    Source: [src/runpod/endpoint/sxwl.py].  The module is a thin client of a
    remote inference and fine-tuning platform: it builds a configuration from
    process-wide credentials, sends HTTP requests, walks the JSON answers and
    polls until a remote job reaches a final status.

    The embedding is shallow.  Python values that travel through the client
    are JSON-shaped and are modelled by [value]; Python exceptions by [exn];
    every method is a function in a state-and-exception monad [M] over the
    [World] (process globals, the cleanup registry, and the trace of requests
    and sleeps), or over a pair of the receiver object and the [World] for the
    methods that assign to [self].  The remote server is the [net] field of the
    [World]: an arbitrary function from the position of a request in the run
    and the request itself to what the [requests] library observes.

    Not modelled: what [print] writes (it never changes control flow; the one
    call whose argument can raise, [len(models)], is kept), floating point
    JSON numbers, [BaseException]s that are not [Exception]s, and an
    operating system that refuses a sleep whose length [time.sleep] itself
    accepts. *)

From Stdlib Require Import ZArith Ascii String List Bool Lia.
From Stdlib Require Import Strings.Byte.
From stdpp Require Import gmap strings list.

Local Set Warnings "-register-all".
Local Open Scope Z_scope.

(** ** Python values *)

Module Py.

(** What [response.json()], [json.loads] and the caller's dictionaries hold.
    A [dict] is an association list with string keys, each key bound once;
    [assoc] reads the first binding. *)
Inductive value : Type :=
  | VNone
  | VBool (b : bool)
  | VInt (n : Z)
  | VStr (s : string)
  | VList (items : list value)
  | VDict (entries : list (string * value)).

(** The exceptions the module can meet; the payload is the message or the
    datum Python attaches. *)
Inductive exn : Type :=
  | ConnectionError (reason : string)   (* requests.request could not answer  *)
  | HTTPError (status : Z)              (* response.raise_for_status()        *)
  | JSONDecodeError                     (* response.json() / json.loads       *)
  | UnicodeDecodeError                  (* bytes.decode('utf-8')              *)
  | KeyError (key : string)
  | TypeError
  | AttributeError
  | ValueError (msg : string)
  | OverflowError                       (* time.sleep: a length out of range  *)
  | RuntimeError (msg : string)
  | TimeoutError (msg : string).

Inductive result (A : Type) : Type :=
  | Ok (a : A)
  | Raise (e : exn).
Arguments Ok {A} a.
Arguments Raise {A} e.

Fixpoint assoc (k : string) (d : list (string * value)) : option value :=
  match d with
  | [] => None
  | (k', v) :: d' => if String.eqb k' k then Some v else assoc k d'
  end.

(** [bool(v)]. *)
Definition truthy (v : value) : bool :=
  match v with
  | VNone => false
  | VBool b => b
  | VInt n => negb (n =? 0)
  | VStr s => negb (String.eqb s "")
  | VList l => match l with [] => false | _ => true end
  | VDict d => match d with [] => false | _ => true end
  end.

(** [a == b].  [bool] is a subclass of [int], so [True == 1]; lists compare
    element by element; dictionaries compare as finite maps. *)
Fixpoint py_eq (a b : value) {struct a} : bool :=
  match a, b with
  | VNone, VNone => true
  | VBool x, VBool y => Bool.eqb x y
  | VBool x, VInt y => Z.b2z x =? y
  | VInt x, VBool y => x =? Z.b2z y
  | VInt x, VInt y => x =? y
  | VStr x, VStr y => String.eqb x y
  | VList xs, VList ys =>
      (fix all2 (xs ys : list value) {struct xs} : bool :=
         match xs, ys with
         | [], [] => true
         | x :: xs', y :: ys' => py_eq x y && all2 xs' ys'
         | _, _ => false
         end) xs ys
  | VDict d, VDict e =>
      (length d =? length e)%nat &&
      (fix sub (d : list (string * value)) {struct d} : bool :=
         match d with
         | [] => true
         | (k, v) :: d' =>
             match assoc k e with
             | Some w => py_eq v w
             | None => false
             end && sub d'
         end) d
  | _, _ => false
  end.

(** [obj[key]] with a string key: only a [dict] can answer. *)
Definition getitem (obj : value) (key : string) : result value :=
  match obj with
  | VDict d => match assoc key d with Some v => Ok v | None => Raise (KeyError key) end
  | _ => Raise TypeError
  end.

(** [obj.get(key, default)]: only a [dict] has the method. *)
Definition dict_get (obj : value) (key : string) (default : value) : result value :=
  match obj with
  | VDict d => Ok (match assoc key d with Some v => v | None => default end)
  | _ => Raise AttributeError
  end.

(** The items a [for] loop draws from [v].  A [dict] yields its keys and a
    [str] its characters (cut per byte here; each one is a [str] either way). *)
Definition iter (v : value) : result (list value) :=
  match v with
  | VList l => Ok l
  | VDict d => Ok (map (fun kv => VStr (fst kv)) d)
  | VStr s => Ok (map (fun c => VStr (String c EmptyString)) (list_ascii_of_string s))
  | _ => Raise TypeError
  end.

(** [a + b]. *)
Definition add (a b : value) : result value :=
  match a, b with
  | VList x, VList y => Ok (VList (x ++ y))
  | VStr x, VStr y => Ok (VStr (x +:+ y))
  | VInt x, VInt y => Ok (VInt (x + y))
  | VInt x, VBool y => Ok (VInt (x + Z.b2z y))
  | VBool x, VInt y => Ok (VInt (Z.b2z x + y))
  | VBool x, VBool y => Ok (VInt (Z.b2z x + Z.b2z y))
  | _, _ => Raise TypeError
  end.

(** [len(v)]; a [str] is counted in code points of its UTF-8 bytes. *)
Definition len (v : value) : result Z :=
  match v with
  | VList l => Ok (Z.of_nat (length l))
  | VDict d => Ok (Z.of_nat (length d))
  | VStr s =>
      Ok (Z.of_nat (length (List.filter
            (fun c => negb (Z.land (Z.of_nat (nat_of_ascii c)) 192 =? 128))
            (list_ascii_of_string s))))
  | _ => Raise TypeError
  end.

(** Members of a Python [set]: the hashable values.  [True] and [1] hash and
    compare alike, so they are one member; lists and dictionaries are not
    hashable. *)
Inductive hashable : Type :=
  | HNone
  | HInt (n : Z)
  | HStr (s : string).

Definition to_hashable (v : value) : option hashable :=
  match v with
  | VNone => Some HNone
  | VBool b => Some (HInt (Z.b2z b))
  | VInt n => Some (HInt n)
  | VStr s => Some (HStr s)
  | VList _ | VDict _ => None
  end.

End Py.
Export Py.

#[global] Instance hashable_eq_dec : EqDecision hashable.
Proof. solve_decision. Defined.

#[global] Instance hashable_countable : Countable hashable.
Proof.
  refine (inj_countable'
    (fun h => match h with
              | HNone => inl tt
              | HInt n => inr (inl n)
              | HStr s => inr (inr s)
              end)
    (fun x => match x with
              | inl _ => HNone
              | inr (inl n) => HInt n
              | inr (inr s) => HStr s
              end) _).
  by intros [].
Defined.

(** [s.add(v)] and [s.discard(v)] on a Python set. *)
Definition set_add (v : value) (s : gset hashable) : result (gset hashable) :=
  match to_hashable v with
  | Some h => Ok (s ∪ {[ h ]})
  | None => Raise TypeError
  end.

Definition set_discard (v : value) (s : gset hashable) : result (gset hashable) :=
  match to_hashable v with
  | Some h => Ok (s ∖ {[ h ]})
  | None => Raise TypeError
  end.

(** ** The monad of the client: state and exceptions *)

Definition M (S A : Type) : Type := S -> result A * S.

Definition ret {S A} (a : A) : M S A := fun s => (Ok a, s).

Definition raise {S A} (e : exn) : M S A := fun s => (Raise e, s).

Definition bind {S A B} (m : M S A) (k : A -> M S B) : M S B :=
  fun s => match m s with
           | (Ok a, s') => k a s'
           | (Raise e, s') => (Raise e, s')
           end.

(** A pure step that may raise. *)
Definition lift {S A} (r : result A) : M S A := fun s => (r, s).

(** [try: m  except <caught>: handler].  What [m] did to the state before it
    raised stays done. *)
Definition try_except {S A} (m : M S A) (caught : exn -> bool) (handler : exn -> M S A)
  : M S A :=
  fun s => match m s with
           | (Ok a, s') => (Ok a, s')
           | (Raise e, s') => if caught e then handler e s' else (Raise e, s')
           end.

(** [except Exception]: every modelled exception derives from it. *)
Definition is_Exception (e : exn) : bool := true.

Definition is_JSONDecodeError (e : exn) : bool :=
  match e with JSONDecodeError => true | _ => false end.

Notation "x <- m ;; k" := (bind m (fun x => k))
  (at level 100, m at next level, right associativity).
Notation "m ;;; k" := (bind m (fun _ => k))
  (at level 100, right associativity).

(** ** Text: bytes, UTF-8 and the pieces of f-strings *)

(** A Python [str] is kept as the [string] of its UTF-8 bytes, so
    [bytes.decode('utf-8')] is the identity on well-formed input and raises
    on the rest.  [utf8_valid] follows the table of well-formed byte
    sequences of the Unicode standard, which CPython's decoder enforces. *)
Definition byte_in (lo hi : Z) (b : byte) : bool :=
  let n := Z.of_N (Byte.to_N b) in (lo <=? n) && (n <=? hi).

Fixpoint utf8_valid (bs : list byte) : bool :=
  match bs with
  | [] => true
  | b0 :: r0 =>
      let n := Z.of_N (Byte.to_N b0) in
      if n <? 128 then utf8_valid r0
      else if (194 <=? n) && (n <=? 223) then
        match r0 with
        | b1 :: r1 => byte_in 128 191 b1 && utf8_valid r1
        | _ => false
        end
      else if (224 <=? n) && (n <=? 239) then
        match r0 with
        | b1 :: b2 :: r2 =>
            byte_in (if n =? 224 then 160 else 128) (if n =? 237 then 159 else 191) b1
            && byte_in 128 191 b2 && utf8_valid r2
        | _ => false
        end
      else if (240 <=? n) && (n <=? 244) then
        match r0 with
        | b1 :: b2 :: b3 :: r3 =>
            byte_in (if n =? 240 then 144 else 128) (if n =? 244 then 143 else 191) b1
            && byte_in 128 191 b2 && byte_in 128 191 b3 && utf8_valid r3
        | _ => false
        end
      else false
  end.

Definition bytes_decode_utf8 (bs : list byte) : result string :=
  if utf8_valid bs then Ok (string_of_list_byte bs) else Raise UnicodeDecodeError.

Definition dquote : string := String "034"%char EmptyString.

Definition hex_digit (n : Z) : string :=
  String.substring (Z.to_nat n) 1 "0123456789abcdef".

(** [repr(b)] of a [bytes] object, as an f-string prints it. *)
Definition bytes_repr (b : list byte) : string :=
  let has c := existsb (Byte.eqb c) b in
  let double := has Byte.x27 && negb (has Byte.x22) in
  let quote := if double then Byte.x22 else Byte.x27 in
  let show c := String (ascii_of_byte c) EmptyString in
  let esc c :=
    let n := Z.of_N (Byte.to_N c) in
    if Byte.eqb c quote || Byte.eqb c Byte.x5c then "\" +:+ show c
    else if n =? 9 then "\t"
    else if n =? 10 then "\n"
    else if n =? 13 then "\r"
    else if (32 <=? n) && (n <? 127) then show c
    else "\x" +:+ hex_digit (n / 16) +:+ hex_digit (n mod 16) in
  "b" +:+ show quote +:+ String.concat "" (map esc b) +:+ show quote.

(** ** Process state and the network *)

(** [runpod.api_key]: unset, text, or raw bytes. *)
Inductive credential : Type :=
  | KeyNone
  | KeyStr (s : string)
  | KeyBytes (b : list byte).

(** [f'{token}']. *)
Definition format_credential (c : credential) : string :=
  match c with
  | KeyNone => "None"
  | KeyStr s => s
  | KeyBytes b => bytes_repr b
  end.

Record Request := {
  req_method : string;
  req_url : string;
  req_headers : list (string * string);
  req_kwargs : list (string * value)   (* params=, json= *)
}.

(** A [requests.Response] as the client reads it: the status line and what
    [.json()] gives ([None] when the body is not JSON). *)
Record Response := {
  status_code : Z;
  payload : option value
}.

Inductive Reply : Type :=
  | NoAnswer (reason : string)
  | Answer (r : Response).

Inductive Event : Type :=
  | Sent (r : Request)
  | Slept (seconds : Z).

(** The module-level dictionary [resources_to_cleanup]. *)
Record Registry := {
  inference_services : gset hashable;
  finetune_jobs : gset hashable
}.

Record World := {
  api_key : credential;              (* runpod.api_key           *)
  endpoint_url_base : string;        (* runpod.endpoint_url_base *)
  resources_to_cleanup : Registry;
  trace : list Event;                (* oldest first             *)
  net : nat -> Request -> Reply      (* the server               *)
}.

Definition is_sent (e : Event) : bool :=
  match e with Sent _ => true | Slept _ => false end.

Definition is_slept (e : Event) : bool :=
  match e with Sent _ => false | Slept _ => true end.

(** How many requests have left the process so far. *)
Definition sent_count (w : World) : nat := length (List.filter is_sent (trace w)).

Definition slept_count (w : World) : nat := length (List.filter is_slept (trace w)).

(** The world after the events [es] happened, and after the single event [e]. *)
Definition logged (es : list Event) (w : World) : World :=
  {| api_key := api_key w;
     endpoint_url_base := endpoint_url_base w;
     resources_to_cleanup := resources_to_cleanup w;
     trace := trace w ++ es;
     net := net w |}.

Definition log (e : Event) (w : World) : World := logged [e] w.

Definition set_registry (r : Registry) (w : World) : World :=
  {| api_key := api_key w;
     endpoint_url_base := endpoint_url_base w;
     resources_to_cleanup := r;
     trace := trace w;
     net := net w |}.

(** [requests.request(method, url, headers=..., **kwargs)]. *)
Definition requests_request (req : Request) : M World Response :=
  fun w =>
    match net w (sent_count w) req with
    | NoAnswer reason => (Raise (ConnectionError reason), log (Sent req) w)
    | Answer r => (Ok r, log (Sent req) w)
    end.

(** [response.raise_for_status()]. *)
Definition raise_for_status (r : Response) : result unit :=
  if (400 <=? status_code r) && (status_code r <? 600)
  then Raise (HTTPError (status_code r))
  else Ok tt.

(** [response.json()]. *)
Definition json (r : Response) : result value :=
  match payload r with
  | Some v => Ok v
  | None => Raise JSONDecodeError
  end.

(** The longest sleep [time.sleep] takes, in seconds: CPython keeps the
    length as a number of nanoseconds in a signed 64-bit integer, so this is
    [(2 ^ 63 - 1) / 10 ^ 9]. *)
Definition sleep_max : Z := 9223372036.

(** [time.sleep(seconds)] for an [int].  The length is turned into
    nanoseconds first, which raises [OverflowError] when it does not fit;
    a length that fits and is negative raises [ValueError]; any other length
    is slept through (the operating system is taken to accept every length
    that CPython hands to it). *)
Definition sleep (seconds : Z) : M World unit :=
  fun w =>
    if (seconds <? - sleep_max) || (sleep_max <? seconds)
    then (Raise OverflowError, w)
    else if seconds <? 0
    then (Raise (ValueError "sleep length must be non-negative"), w)
    else (Ok tt, log (Slept seconds) w).

(** [resources_to_cleanup['inference_services'].<op>(...)] and the same on
    ['finetune_jobs']: the set is replaced by the outcome of the operation,
    and left as it was when the operation raises. *)
Definition on_inference_services (op : gset hashable -> result (gset hashable))
  : M World unit :=
  fun w =>
    let r := resources_to_cleanup w in
    match op (inference_services r) with
    | Ok s => (Ok tt, set_registry {| inference_services := s;
                                      finetune_jobs := finetune_jobs r |} w)
    | Raise e => (Raise e, w)
    end.

Definition on_finetune_jobs (op : gset hashable -> result (gset hashable))
  : M World unit :=
  fun w =>
    let r := resources_to_cleanup w in
    match op (finetune_jobs r) with
    | Ok s => (Ok tt, set_registry {| inference_services := inference_services r;
                                      finetune_jobs := s |} w)
    | Raise e => (Raise e, w)
    end.

(** ** [APIConfig] *)

Module APIConfig.

Record t := {
  base_url : string;
  token : credential;
  headers : list (string * string)
}.

Definition create_default : M World t :=
  fun w =>
    let token := api_key w in
    let decoded :=
      match token with
      | KeyBytes ((_ :: _) as raw) =>
          match bytes_decode_utf8 raw with
          | Ok s => Ok (KeyStr s)
          | Raise e => Raise e
          end
      | _ => Ok token
      end in
    match decoded with
    | Raise e => (Raise e, w)
    | Ok token =>
        let headers :=
          [ ("Accept", "application/json, text/plain, */*");
            ("Authorization", "Bearer " +:+ format_credential token);
            ("Content-Type", "application/json");
            ("Origin", endpoint_url_base w);
            ("Connection", "keep-alive");
            ("User-Agent", "github-actions") ] in
        (Ok {| base_url := endpoint_url_base w; token := token; headers := headers |}, w)
    end.

End APIConfig.

(** ** [SXWLClient] *)

Module SXWLClient.

Record t := { config : APIConfig.t }.

Definition _make_request (self : t) (method endpoint : string)
    (kwargs : list (string * value)) : M World Response :=
  let url := APIConfig.base_url (config self) +:+ "/api" +:+ endpoint in
  response <- requests_request
                {| req_method := method; req_url := url;
                   req_headers := APIConfig.headers (config self);
                   req_kwargs := kwargs |} ;;
  lift (raise_for_status response) ;;;
  ret response.

Definition get_models (self : t) : M World value :=
  try_except
    (response <- _make_request self "GET" "/resource/models" [] ;;
     data <- lift (json response) ;;
     public_list <- lift (dict_get data "public_list" (VList [])) ;;
     user_list <- lift (dict_get data "user_list" (VList [])) ;;
     models <- lift (add public_list user_list) ;;
     _ <- lift (len models) ;;
     ret models)
    is_Exception
    (fun _ => ret (VList [])).

Definition delete_inference_service (self : t) (service_name : value) : M World unit :=
  try_except
    (_ <- _make_request self "DELETE" "/job/inference"
            [("params", VDict [("service_name", service_name)])] ;;
     on_inference_services (set_discard service_name))
    is_Exception
    (fun _ => ret tt).

Definition delete_finetune_job (self : t) (finetune_id : value) : M World unit :=
  try_except
    (_ <- _make_request self "POST" "/userJob/job_del"
            [("json", VDict [("job_id", finetune_id)])] ;;
     on_finetune_jobs (set_discard finetune_id))
    is_Exception
    (fun _ => ret tt).

End SXWLClient.

(** ** Methods that assign to [self]

    Such a method runs on the pair of its receiver and the [World]. *)

Definition in_world {Self A} (m : M World A) : M (Self * World) A :=
  fun s => let (r, w') := m (snd s) in (r, (fst s, w')).

Definition this {Self} : M (Self * World) Self :=
  fun s => (Ok (fst s), s).

Definition assign {Self} (f : Self -> Self) : M (Self * World) unit :=
  fun s => (Ok tt, (f (fst s), snd s)).

(** Calling [m] on the object [obj]: the outcome together with the object as
    the call left it.  When [m] raises, the caller of this module's code holds
    no other reference to [obj]. *)
Definition on_object {Self A} (obj : Self) (m : M (Self * World) A) : M World (A * Self) :=
  fun w =>
    match m (obj, w) with
    | (Ok a, s') => (Ok (a, fst s'), snd s')
    | (Raise e, s') => (Raise e, snd s')
    end.

(** How the body of a [for] loop leaves one pass. *)
Inductive flow : Type :=
  | Next        (* fell through, or the list is exhausted *)
  | Break
  | Return.

(** ** [InferenceService] *)

Module InferenceService.

Record t := {
  client : SXWLClient.t;
  service_name : value;     (* Optional[str], None at first *)
  api_endpoint : value
}.

Definition init (client : SXWLClient.t) : t :=
  {| client := client; service_name := VNone; api_endpoint := VNone |}.

Definition set_service_name (v : value) (self : t) : t :=
  {| client := client self; service_name := v; api_endpoint := api_endpoint self |}.

Definition set_api_endpoint (v : value) (self : t) : t :=
  {| client := client self; service_name := service_name self; api_endpoint := v |}.

(** Returns [self]: the receiver left in the state. *)
Definition deploy (model_config : value) : M (t * World) unit :=
  self <- this ;;
  response <- in_world (SXWLClient._make_request (client self) "POST" "/job/inference"
                          [("json", model_config)]) ;;
  body <- lift (json response) ;;
  name <- lift (getitem body "service_name") ;;
  assign (set_service_name name) ;;;
  in_world (on_inference_services (set_add name)).

Fixpoint status_scan (self : t) (items : list value) : result value :=
  match items with
  | [] => Ok (VStr "unknown")
  | item :: rest =>
      match getitem item "service_name" with
      | Raise e => Raise e
      | Ok name =>
          if py_eq name (service_name self)
          then getitem item "status"
          else status_scan self rest
      end
  end.

Definition status : M (t * World) value :=
  self <- this ;;
  response <- in_world (SXWLClient._make_request (client self) "GET" "/job/inference" []) ;;
  status_json <- lift (json response) ;;
  data <- lift (dict_get status_json "data" (VList [])) ;;
  items <- lift (iter data) ;;
  lift (status_scan self items).

Fixpoint output_scan (self : t) (items : list value) : result value :=
  match items with
  | [] => Ok (VDict [("status", VStr "unknown")])
  | item :: rest =>
      match getitem item "service_name" with
      | Raise e => Raise e
      | Ok name =>
          if py_eq name (service_name self) then
            match getitem item "status" with
            | Raise e => Raise e
            | Ok st =>
                if py_eq st (VStr "running") then
                  match getitem item "api" with
                  | Raise e => Raise e
                  | Ok api => Ok (VDict [("chat_url", api)])
                  end
                else
                  match getitem item "status" with
                  | Raise e => Raise e
                  | Ok st' => Ok (VDict [("status", st')])
                  end
            end
          else output_scan self rest
      end
  end.

Definition output : M (t * World) value :=
  self <- this ;;
  response <- in_world (SXWLClient._make_request (client self) "GET" "/job/inference" []) ;;
  status_json <- lift (json response) ;;
  data <- lift (dict_get status_json "data" (VList [])) ;;
  items <- lift (iter data) ;;
  lift (output_scan self items).

(** The inner [for item in ...] of [_wait_for_ready]. *)
Fixpoint ready_scan (items : list value) : M (t * World) flow :=
  match items with
  | [] => ret Next
  | item :: rest =>
      self <- this ;;
      name <- lift (getitem item "service_name") ;;
      if py_eq name (service_name self) then
        st <- lift (getitem item "status") ;;
        if py_eq st (VStr "running") then
          api <- lift (getitem item "api") ;;
          assign (set_api_endpoint api) ;;;
          ret Return
        else ret Break
      else ready_scan rest
  end.

(** [for attempt in range(n): ...] followed by the [raise]. *)
Fixpoint ready_loop (n : nat) (retry_interval : Z) : M (t * World) unit :=
  match n with
  | O => raise (TimeoutError "服务启动超时")
  | S n' =>
      self <- this ;;
      response <- in_world (SXWLClient._make_request (client self) "GET" "/job/inference" []) ;;
      status_json <- lift (json response) ;;
      data <- lift (dict_get status_json "data" (VList [])) ;;
      items <- lift (iter data) ;;
      f <- ready_scan items ;;
      match f with
      | Return => ret tt
      | _ =>
          in_world (sleep retry_interval) ;;;
          ready_loop n' retry_interval
      end
  end.

Definition _wait_for_ready (max_retries retry_interval : Z) : M (t * World) unit :=
  ready_loop (Z.to_nat max_retries) retry_interval.

Definition wait_until_complete : M (t * World) value :=
  _wait_for_ready 60 30 ;;;
  self <- this ;;
  ret (VDict [ ("service_name", service_name self);
               ("api_endpoint", api_endpoint self);
               ("status", VStr "running") ]).

Section Chat.

(** [str(x)], which [requests] applies to a URL that is not text already. *)
Variable py_str : value -> string.

Definition url_text (url : value) : string :=
  match url with
  | VStr s => s
  | other => py_str other
  end.

(** [chat] talks to the service itself, not to the platform: the request is
    [requests.post(chat_url, headers=headers, json=data)], built here and not
    by [_make_request]. *)
Definition chat (messages : value) : M (t * World) value :=
  self <- this ;;
  if negb (truthy (api_endpoint self)) then raise (RuntimeError "服务尚未就绪")
  else
    let chat_url := api_endpoint self in
    let headers := [("accept", "application/json"); ("Content-Type", "application/json")] in
    let data := VDict [("model", VStr "/mnt/models"); ("messages", messages)] in
    response <- in_world (requests_request
                            {| req_method := "POST"; req_url := url_text chat_url;
                               req_headers := headers;
                               req_kwargs := [("json", data)] |}) ;;
    lift (raise_for_status response) ;;;
    lift (json response).

End Chat.

End InferenceService.

(** ** [FinetuneJob] *)

Module FinetuneJob.

Record t := {
  client : SXWLClient.t;
  job_id : value;          (* Optional[str], None at first *)
  adapter_id : value
}.

Definition init (client : SXWLClient.t) : t :=
  {| client := client; job_id := VNone; adapter_id := VNone |}.

Definition set_job_id (v : value) (self : t) : t :=
  {| client := client self; job_id := v; adapter_id := adapter_id self |}.

Definition set_adapter_id (v : value) (self : t) : t :=
  {| client := client self; job_id := job_id self; adapter_id := v |}.

Definition start (finetune_config : value) : M (t * World) unit :=
  self <- this ;;
  response <- in_world (SXWLClient._make_request (client self) "POST" "/job/finetune"
                          [("json", finetune_config)]) ;;
  body <- lift (json response) ;;
  id <- lift (getitem body "job_id") ;;
  assign (set_job_id id) ;;;
  in_world (on_finetune_jobs (set_add id)).

(** The inner [for job in ...] of [_wait_for_completion]. *)
Fixpoint completion_scan (self : t) (jobs : list value) : result flow :=
  match jobs with
  | [] => Ok Next
  | job :: rest =>
      match getitem job "jobName" with
      | Raise e => Raise e
      | Ok name =>
          if py_eq name (job_id self) then
            match getitem job "status" with
            | Raise e => Raise e
            | Ok status =>
                if py_eq status (VStr "succeeded") then Ok Return
                else if py_eq status (VStr "failed") || py_eq status (VStr "error")
                then Raise (RuntimeError "微调任务失败")
                else Ok Break
            end
          else completion_scan self rest
      end
  end.

Fixpoint completion_loop (n : nat) (retry_interval : Z) : M (t * World) unit :=
  match n with
  | O => raise (TimeoutError "微调任务超时")
  | S n' =>
      self <- this ;;
      response <- in_world (SXWLClient._make_request (client self) "GET" "/job/training"
                              [("params", VDict [("current", VInt 1); ("size", VInt 1000)])]) ;;
      _ <- lift (json response) ;;                            (* the f-string of the print *)
      body <- lift (json response) ;;
      content <- lift (dict_get body "content" (VList [])) ;;
      jobs <- lift (iter content) ;;
      f <- lift (completion_scan self jobs) ;;
      match f with
      | Return => ret tt
      | _ =>
          in_world (sleep retry_interval) ;;;
          completion_loop n' retry_interval
      end
  end.

Definition _wait_for_completion (max_retries retry_interval : Z) : M (t * World) unit :=
  completion_loop (Z.to_nat max_retries) retry_interval.

Section Adapters.

(** [json.loads] on a [str]: the parsed value, or [None] for
    [json.JSONDecodeError]. *)
Variable json_loads : string -> option value.

(** [json.loads(x)] for any [x] the listing can hold. *)
Definition loads (x : value) : result value :=
  match x with
  | VStr s => match json_loads s with Some v => Ok v | None => Raise JSONDecodeError end
  | _ => Raise TypeError
  end.

(** The body of the [try] for one adapter: [Return] when it matched and
    [adapter_id] is assigned. *)
Definition adapter_try (adapter : value) : M (t * World) flow :=
  self <- this ;;
  text <- lift (dict_get adapter "meta" (VStr "{}")) ;;
  meta <- lift (loads text) ;;
  finetune_id <- lift (dict_get meta "finetune_id" VNone) ;;
  if py_eq finetune_id (job_id self) then
    id <- lift (getitem adapter "id") ;;
    assign (set_adapter_id id) ;;;
    ret Return
  else ret Next.

Fixpoint adapter_scan (adapters : list value) : M (t * World) unit :=
  match adapters with
  | [] => raise (ValueError "未找到对应的适配器")
  | adapter :: rest =>
      f <- try_except (adapter_try adapter) is_JSONDecodeError (fun _ => ret Next) ;;
      match f with
      | Return => ret tt
      | _ => adapter_scan rest
      end
  end.

Definition _get_adapter_id : M (t * World) unit :=
  self <- this ;;
  response <- in_world (SXWLClient._make_request (client self) "GET" "/resource/adapters" []) ;;
  body <- lift (json response) ;;
  user_list <- lift (dict_get body "user_list" (VList [])) ;;
  adapters <- lift (iter user_list) ;;
  adapter_scan adapters.

Definition wait_until_complete : M (t * World) value :=
  _wait_for_completion 60 30 ;;;
  _get_adapter_id ;;;
  self <- this ;;
  ret (VDict [ ("job_id", job_id self);
               ("adapter_id", adapter_id self);
               ("status", VStr "succeeded") ]).

End Adapters.

End FinetuneJob.

(** ** [Endpoint] *)

Module Endpoint.

Record t := {
  endpoint_id : string;
  rp_client : SXWLClient.t
}.

Definition init (endpoint_id : string) : M World t :=
  config <- APIConfig.create_default ;;
  ret {| endpoint_id := endpoint_id; rp_client := {| SXWLClient.config := config |} |}.

Definition run (self : t) (request_input : value) : M World InferenceService.t :=
  given <- lift (dict_get request_input "input" VNone) ;;
  let request_input :=
    if negb (truthy given) then VDict [("input", request_input)] else request_input in
  let inference := InferenceService.init (rp_client self) in
  r <- on_object inference (InferenceService.deploy request_input) ;;
  ret (snd r).

Definition run_sync (self : t) (request_input : value) (timeout : Z) : M World value :=
  given <- lift (dict_get request_input "input" VNone) ;;
  let request_input :=
    if negb (truthy given) then VDict [("input", request_input)] else request_input in
  config <- APIConfig.create_default ;;
  let client := {| SXWLClient.config := config |} in
  let inference := InferenceService.init client in
  r <- on_object inference
         (InferenceService.deploy request_input ;;;
          InferenceService.wait_until_complete) ;;
  ret (fst r).

Section BestEffort.

(** [str(e)] for a caught exception. *)
Variable exn_message : exn -> string.

Definition health (self : t) (timeout : Z) : M World value :=
  config <- APIConfig.create_default ;;
  let client := {| SXWLClient.config := config |} in
  try_except
    (response <- SXWLClient._make_request client "GET" "/job/health"
                   [("timeout", VInt timeout)] ;;
     lift (json response))
    is_Exception
    (fun e => ret (VDict [("status", VStr "error"); ("message", VStr (exn_message e))])).

Definition purge_queue (self : t) (timeout : Z) : M World value :=
  config <- APIConfig.create_default ;;
  let client := {| SXWLClient.config := config |} in
  try_except
    (response <- SXWLClient._make_request client "POST" "/job/purge-queue"
                   [("timeout", VInt timeout)] ;;
     lift (json response))
    is_Exception
    (fun e => ret (VDict [("status", VStr "error"); ("message", VStr (exn_message e))])).

End BestEffort.

End Endpoint.

(** ** A JSON reader

    [FinetuneJob] is parametric in [json.loads].  The reader below is the
    instance the examples run on: objects, arrays, strings with the
    one-character escapes, integers and the three literals, with blanks
    allowed where JSON allows them.  Fractions, exponents and [\u] escapes
    are refused.  A key met twice keeps its last value, as in a [dict]. *)

Module Json.

Local Open Scope char_scope.

Definition is_ws (c : ascii) : bool :=
  Ascii.eqb c " " || Ascii.eqb c "009" || Ascii.eqb c "010" || Ascii.eqb c "013".

Fixpoint skip_ws (s : list ascii) : list ascii :=
  match s with
  | c :: r => if is_ws c then skip_ws r else s
  | [] => []
  end.

Definition digit (c : ascii) : option Z :=
  let n := Z.of_nat (nat_of_ascii c) in
  if ((48 <=? n) && (n <=? 57))%Z then Some (n - 48) else None.

Fixpoint read_digits (s : list ascii) (acc : Z) : Z * list ascii :=
  match s with
  | c :: r => match digit c with
              | Some d => read_digits r (10 * acc + d)
              | None => (acc, s)
              end
  | [] => (acc, [])
  end.

(** An integer: an optional sign, then [0] or a digit string without a
    leading zero; nothing that would make it a fraction may follow. *)
Definition read_int (s : list ascii) : option (Z * list ascii) :=
  let (neg, body) := match s with "-" :: r => (true, r) | _ => (false, s) end in
  match body with
  | c :: r =>
      match digit c with
      | Some d =>
          let (n, rest) := if (d =? 0)%Z then (0, r) else read_digits r d in
          match rest with
          | "." :: _ | "e" :: _ | "E" :: _ => None
          | c' :: _ =>
              match digit c' with
              | Some _ => None
              | None => Some (if neg then - n else n, rest)
              end
          | [] => Some (if neg then - n else n, rest)
          end
      | None => None
      end
  | [] => None
  end.

(** The characters of a string after its opening quote. *)
Fixpoint read_string (s : list ascii) (acc : list ascii) : option (string * list ascii) :=
  match s with
  | [] => None
  | c :: r =>
      if Ascii.eqb c "034" then Some (string_of_list_ascii (rev acc), r)
      else if Ascii.eqb c "\" then
        match r with
        | e :: r' =>
            let plain x := read_string r' (x :: acc) in
            if Ascii.eqb e "034" then plain "034"
            else if Ascii.eqb e "\" then plain "\"
            else if Ascii.eqb e "/" then plain "/"
            else if Ascii.eqb e "b" then plain "008"
            else if Ascii.eqb e "f" then plain "012"
            else if Ascii.eqb e "n" then plain "010"
            else if Ascii.eqb e "r" then plain "013"
            else if Ascii.eqb e "t" then plain "009"
            else None
        | [] => None
        end
      else if (nat_of_ascii c <? 32)%nat then None
      else read_string r (c :: acc)
  end.

Fixpoint dict_set (k : string) (v : value) (d : list (string * value))
  : list (string * value) :=
  match d with
  | [] => [(k, v)]
  | (k', v') :: d' => if String.eqb k' k then (k, v) :: d' else (k', v') :: dict_set k v d'
  end.

Fixpoint read_value (fuel : nat) (s : list ascii) : option (value * list ascii) :=
  match fuel with
  | O => None
  | S fuel' =>
      match skip_ws s with
      | "n" :: "u" :: "l" :: "l" :: r => Some (VNone, r)
      | "t" :: "r" :: "u" :: "e" :: r => Some (VBool true, r)
      | "f" :: "a" :: "l" :: "s" :: "e" :: r => Some (VBool false, r)
      | "034" :: r =>
          match read_string r [] with
          | Some (str, r') => Some (VStr str, r')
          | None => None
          end
      | "[" :: r =>
          match skip_ws r with
          | "]" :: r' => Some (VList [], r')
          | _ => read_items fuel' r []
          end
      | "{" :: r =>
          match skip_ws r with
          | "}" :: r' => Some (VDict [], r')
          | _ => read_members fuel' r []
          end
      | other =>
          match read_int other with
          | Some (n, r) => Some (VInt n, r)
          | None => None
          end
      end
  end
with read_items (fuel : nat) (s : list ascii) (acc : list value)
  : option (value * list ascii) :=
  match fuel with
  | O => None
  | S fuel' =>
      match read_value fuel' s with
      | Some (v, r) =>
          match skip_ws r with
          | "," :: r' => read_items fuel' r' (v :: acc)
          | "]" :: r' => Some (VList (rev (v :: acc)), r')
          | _ => None
          end
      | None => None
      end
  end
with read_members (fuel : nat) (s : list ascii) (acc : list (string * value))
  : option (value * list ascii) :=
  match fuel with
  | O => None
  | S fuel' =>
      match skip_ws s with
      | "034" :: r =>
          match read_string r [] with
          | Some (k, r1) =>
              match skip_ws r1 with
              | ":" :: r2 =>
                  match read_value fuel' r2 with
                  | Some (v, r3) =>
                      match skip_ws r3 with
                      | "," :: r4 => read_members fuel' r4 (dict_set k v acc)
                      | "}" :: r4 => Some (VDict (dict_set k v acc), r4)
                      | _ => None
                      end
                  | None => None
                  end
              | _ => None
              end
          | None => None
          end
      | _ => None
      end
  end.

Definition loads (text : string) : option value :=
  let s := list_ascii_of_string text in
  match read_value (2 * length s + 2) s with
  | Some (v, r) => match skip_ws r with [] => Some v | _ => None end
  | None => None
  end.

(** [quoted s] is [s] between double quotes. *)
Definition quoted (s : string) : string := dquote +:+ s +:+ dquote.

End Json.

(** ** Vocabulary of the statements *)

(** The request [_make_request] hands to the [requests] library. *)
Definition request_of (c : SXWLClient.t) (method endpoint : string)
    (kwargs : list (string * value)) : Request :=
  {| req_method := method;
     req_url := APIConfig.base_url (SXWLClient.config c) +:+ "/api" +:+ endpoint;
     req_headers := APIConfig.headers (SXWLClient.config c);
     req_kwargs := kwargs |}.

(** The reply is a successful response whose JSON body is [body]. *)
Definition delivers (r : Reply) (body : value) : Prop :=
  exists code,
    r = Answer {| status_code := code; payload := Some body |}
    /\ (code < 400 \/ 600 <= code).

(** The reply makes [_make_request] raise: no answer, or an error status. *)
Definition refused (r : Reply) : Prop :=
  (exists reason, r = NoAnswer reason)
  \/ (exists resp, r = Answer resp /\ 400 <= status_code resp < 600).

(** The reply is a JSON object whose list under [key] is [items]; a missing
    [key] stands for the empty list. *)
Definition lists (key : string) (r : Reply) (items : list value) : Prop :=
  exists fields,
    delivers r (VDict fields)
    /\ (assoc key fields = Some (VList items)
        \/ (assoc key fields = None /\ items = [])).

(** [item] is a record about something else than [id]. *)
Definition other_record (name_key : string) (id item : value) : Prop :=
  exists fields name,
    item = VDict fields /\ assoc name_key fields = Some name /\ py_eq name id = false.

(** No record of [items] is about [id]. *)
Definition absent (name_key : string) (id : value) (items : list value) : Prop :=
  Forall (other_record name_key id) items.

(** The record about [id] in [items] is the object [fields]. *)
Definition record_in (name_key : string) (id : value) (items : list value)
    (fields : list (string * value)) : Prop :=
  exists pre post name,
    items = pre ++ VDict fields :: post
    /\ absent name_key id pre
    /\ assoc name_key fields = Some name /\ py_eq name id = true.

(** The reply lets [_make_request] return: an answer without error status. *)
Definition accepted (r : Reply) : Prop :=
  exists resp, r = Answer resp /\ (status_code resp < 400 \/ 600 <= status_code resp).

(** The set [s] once [v] is not in it any more. *)
Definition without (v : value) (s : gset hashable) : gset hashable :=
  match to_hashable v with
  | Some h => s ∖ {[ h ]}
  | None => s
  end.

(** The set [s] once [v] is in it. *)
Definition including (v : value) (s : gset hashable) : gset hashable :=
  match to_hashable v with
  | Some h => s ∪ {[ h ]}
  | None => s
  end.

(** The process-wide key is absent or empty. *)
Definition missing_key (k : credential) : bool :=
  match k with
  | KeyNone => true
  | KeyStr s => String.eqb s ""
  | KeyBytes b => match b with [] => true | _ => false end
  end.

(** The headers [create_default] builds around a token and a base URL. *)
Definition default_headers (token : credential) (base : string) : list (string * string) :=
  [ ("Accept", "application/json, text/plain, */*");
    ("Authorization", "Bearer " +:+ format_credential token);
    ("Content-Type", "application/json");
    ("Origin", base);
    ("Connection", "keep-alive");
    ("User-Agent", "github-actions") ].

(** A poll of the list under [list_key] in which nothing is about [id]. *)
Definition unlisted (list_key name_key : string) (id : value) (r : Reply) : Prop :=
  exists items, lists list_key r items /\ absent name_key id items.

(** A poll of the list under [list_key] whose record about [id] is [fields]. *)
Definition reported (list_key name_key : string) (id : value) (r : Reply)
    (fields : list (string * value)) : Prop :=
  exists items, lists list_key r items /\ record_in name_key id items fields.

(** A poll after which [_wait_for_ready] goes on: the service is not listed,
    or listed with a status other than ["running"]. *)
Definition still_starting (name : value) (r : Reply) : Prop :=
  unlisted "data" "service_name" name r
  \/ exists fields st,
       reported "data" "service_name" name r fields
       /\ assoc "status" fields = Some st /\ st <> VStr "running".

(** A poll after which [_wait_for_completion] goes on: the job is not
    listed, or listed with a status that is none of the final ones. *)
Definition still_training (id : value) (r : Reply) : Prop :=
  unlisted "content" "jobName" id r
  \/ exists fields st,
       reported "content" "jobName" id r fields
       /\ assoc "status" fields = Some st
       /\ st <> VStr "succeeded" /\ st <> VStr "failed" /\ st <> VStr "error".

(** [item] is a record of the status list: an object with a name and a status. *)
Definition status_record (item : value) : Prop :=
  exists fields name st,
    item = VDict fields
    /\ assoc "service_name" fields = Some name /\ assoc "status" fields = Some st.

(** [item] is a record about [name] that says ["running"]. *)
Definition running_entry (name item : value) : Prop :=
  exists fields nm,
    item = VDict fields
    /\ assoc "service_name" fields = Some nm /\ py_eq nm name = true
    /\ assoc "status" fields = Some (VStr "running").

(** The adapters of a listing, as [_get_adapter_id] reads them with a given
    [json.loads]. *)
Section AdapterVocabulary.

Variable json_loads : string -> option value.

(** The metadata text of an adapter: its [meta] field, ["{}"] without one. *)
Definition meta_of (fields : list (string * value)) : value :=
  match assoc "meta" fields with
  | Some v => v
  | None => VStr "{}"
  end.

(** The metadata is text that [json.loads] refuses. *)
Definition malformed (adapter : value) : Prop :=
  exists fields text,
    adapter = VDict fields /\ meta_of fields = VStr text /\ json_loads text = None.

(** The parsed metadata has a [finetune_id] equal to [job]. *)
Definition refers_to (job adapter : value) : Prop :=
  exists fields text meta fid,
    adapter = VDict fields /\ meta_of fields = VStr text
    /\ json_loads text = Some (VDict meta)
    /\ assoc "finetune_id" meta = Some fid /\ py_eq fid job = true.

(** The metadata parses to an object that is not about [job]. *)
Definition unrelated (job adapter : value) : Prop :=
  exists fields text meta,
    adapter = VDict fields /\ meta_of fields = VStr text
    /\ json_loads text = Some (VDict meta)
    /\ forall fid, assoc "finetune_id" meta = Some fid -> py_eq fid job = false.

(** What the scan passes over: [json.JSONDecodeError] is the one exception
    its [try] catches. *)
Definition passed_over (job adapter : value) : Prop :=
  malformed adapter \/ unrelated job adapter.



End AdapterVocabulary.

(** [w'] is [w] after some more events. *)
Definition extends (w w' : World) : Prop :=
  exists later, trace w' = trace w ++ later.

(** The request [chat] sends: to the service, with headers of its own. *)
Definition chat_request (url : string) (messages : value) : Request :=
  {| req_method := "POST"; req_url := url;
     req_headers := [("accept", "application/json"); ("Content-Type", "application/json")];
     req_kwargs := [("json", VDict [("model", VStr "/mnt/models");
                                    ("messages", messages)])] |}.

(** What [health] and [purge_queue] return in place of an exception. *)
Definition error_payload (message : string) : value :=
  VDict [("status", VStr "error"); ("message", VStr message)].

(** [n] rounds of a polling loop that goes on: a request, then a sleep. *)
Fixpoint rounds (req : Request) (interval : Z) (n : nat) : list Event :=
  match n with
  | O => []
  | S n' => Sent req :: Slept interval :: rounds req interval n'
  end.

(** *** Fixtures *)

(** A server that answers the [n]-th request of the run with the [n]-th reply
    of a script, and nothing once the script is over. *)
Definition scripted (script : list Reply) : nat -> Request -> Reply :=
  fun n _ => nth n script (NoAnswer "connection refused").

Definition ok_json (body : value) : Reply :=
  Answer {| status_code := 200; payload := Some body |}.

Definition fresh_world (key : credential) (script : list Reply) : World :=
  {| api_key := key;
     endpoint_url_base := "https://api.runpod.ai/v2";
     resources_to_cleanup := {| inference_services := ∅; finetune_jobs := ∅ |};
     trace := [];
     net := scripted script |}.

Definition demo_client : SXWLClient.t :=
  {| SXWLClient.config :=
       {| APIConfig.base_url := "https://api.runpod.ai/v2";
          APIConfig.token := KeyStr "k";
          APIConfig.headers := [("Authorization", "Bearer k")] |} |}.

Definition demo_service : InferenceService.t :=
  {| InferenceService.client := demo_client;
     InferenceService.service_name := VStr "svc-1";
     InferenceService.api_endpoint := VNone |}.

Definition demo_job : FinetuneJob.t :=
  {| FinetuneJob.client := demo_client;
     FinetuneJob.job_id := VStr "ft-7";
     FinetuneJob.adapter_id := VNone |}.

Definition demo_endpoint : Endpoint.t :=
  {| Endpoint.endpoint_id := "INFERENCE"; Endpoint.rp_client := demo_client |}.

Definition service_record (name status api : string) : list (string * value) :=
  [("service_name", VStr name); ("status", VStr status); ("api", VStr api)].

Definition status_list (records : list (list (string * value))) : Reply :=
  ok_json (VDict [("data", VList (map VDict records))]).

Definition job_record (name status : string) : list (string * value) :=
  [("jobName", VStr name); ("status", VStr status)].

Definition training_list (records : list (list (string * value))) : Reply :=
  ok_json (VDict [("content", VList (map VDict records))]).

(** Two polls that find [svc-1] pending, then one that finds it running
    behind another service. *)
Definition pending_pending_running : list Reply :=
  [ status_list [service_record "svc-1" "pending" ""];
    status_list [service_record "svc-1" "pending" ""];
    status_list [service_record "svc-2" "running" "http://10.0.0.2/v1/chat";
                 service_record "svc-1" "running" "http://10.0.0.1/v1/chat"] ].

(** A poll that does not list [ft-7] yet, then one that reports it failed. *)
Definition unlisted_then_failed : list Reply :=
  [ training_list [job_record "ft-6" "succeeded"];
    training_list [job_record "ft-6" "succeeded"; job_record "ft-7" "failed"] ].

Definition meta_about (job : string) : string :=
  "{" +:+ Json.quoted "finetune_id" +:+ ": " +:+ Json.quoted job +:+ "}".

Definition adapter_record (id meta : string) : list (string * value) :=
  [("id", VStr id); ("meta", VStr meta)].

(** An adapter with broken metadata, one about another job, and two about
    [ft-7]. *)
Definition adapter_listing : Reply :=
  ok_json (VDict [("user_list",
                   VList [ VDict (adapter_record "a-0" "{not json");
                           VDict (adapter_record "a-1" (meta_about "ft-0"));
                           VDict (adapter_record "a-2" (meta_about "ft-7"));
                           VDict (adapter_record "a-3" (meta_about "ft-7")) ])]).

(** * Properties *)

(** ** The monad and the transport *)

Lemma bind_ok {S A B} (m : M S A) (k : A -> M S B) s a s' :
  m s = (Ok a, s') -> bind m k s = k a s'.
Proof. intros H. unfold bind. now rewrite H. Qed.

Lemma bind_raise {S A B} (m : M S A) (k : A -> M S B) s e s' :
  m s = (Raise e, s') -> bind m k s = (Raise e, s').
Proof. intros H. unfold bind. now rewrite H. Qed.

Lemma sent_count_logged es w :
  sent_count (logged es w) = (sent_count w + length (List.filter is_sent es))%nat.
Proof. unfold sent_count. cbn [trace logged]. now rewrite List.filter_app, List.length_app. Qed.

Lemma sent_count_log_sent req w : sent_count (log (Sent req) w) = S (sent_count w).
Proof. unfold log. rewrite sent_count_logged. simpl. lia. Qed.

Lemma sent_count_log_slept z w : sent_count (log (Slept z) w) = sent_count w.
Proof. unfold log. rewrite sent_count_logged. simpl. lia. Qed.

Lemma logged_logged es1 es2 w : logged es2 (logged es1 w) = logged (es1 ++ es2) w.
Proof. unfold logged. simpl. now rewrite app_assoc. Qed.

Lemma make_request_delivers c method endpoint kwargs w body :
  delivers (net w (sent_count w) (request_of c method endpoint kwargs)) body ->
  exists resp,
    SXWLClient._make_request c method endpoint kwargs w
      = (Ok resp, log (Sent (request_of c method endpoint kwargs)) w)
    /\ json resp = Ok body.
Proof.
  intros (code & Hr & Hcode).
  exists {| status_code := code; payload := Some body |}. split; [|reflexivity].
  unfold SXWLClient._make_request, bind, requests_request, lift, ret.
  fold (request_of c method endpoint kwargs). rewrite Hr.
  unfold raise_for_status. cbn [status_code].
  destruct ((400 <=? code) && (code <? 600)) eqn:E; [|reflexivity].
  apply andb_true_iff in E as [E1 E2]. lia.
Qed.

Lemma make_request_refused c method endpoint kwargs w :
  refused (net w (sent_count w) (request_of c method endpoint kwargs)) ->
  exists e,
    SXWLClient._make_request c method endpoint kwargs w
      = (Raise e, log (Sent (request_of c method endpoint kwargs)) w).
Proof.
  intros [(reason & Hr) | (resp & Hr & Hcode)];
    unfold SXWLClient._make_request, bind, requests_request, lift, ret;
    fold (request_of c method endpoint kwargs); rewrite Hr.
  - eexists. reflexivity.
  - exists (HTTPError (status_code resp)). unfold raise_for_status.
    destruct ((400 <=? status_code resp) && (status_code resp <? 600)) eqn:E; [reflexivity|].
    apply andb_false_iff in E as [E | E]; lia.
Qed.

Lemma make_request_answer c method endpoint kwargs w resp :
  net w (sent_count w) (request_of c method endpoint kwargs) = Answer resp ->
  SXWLClient._make_request c method endpoint kwargs w
  = (match raise_for_status resp with Ok _ => Ok resp | Raise e => Raise e end,
     log (Sent (request_of c method endpoint kwargs)) w).
Proof.
  intros Hr. unfold SXWLClient._make_request, bind, requests_request, lift, ret.
  fold (request_of c method endpoint kwargs). rewrite Hr.
  destruct (raise_for_status resp); reflexivity.
Qed.

(** Whatever the server does, a request leaves exactly one [Sent] event. *)
Lemma make_request_logs c method endpoint kwargs w :
  snd (SXWLClient._make_request c method endpoint kwargs w)
  = log (Sent (request_of c method endpoint kwargs)) w.
Proof.
  unfold SXWLClient._make_request, bind, requests_request, lift, ret.
  fold (request_of c method endpoint kwargs).
  destruct (net w _ _); [reflexivity|].
  destruct (raise_for_status r); reflexivity.
Qed.

Lemma py_eq_str x s : py_eq x (VStr s) = true <-> x = VStr s.
Proof.
  destruct x; simpl; try (split; [discriminate | intros H; discriminate H]).
  rewrite String.eqb_eq. split; [now intros -> | now intros [= ->]].
Qed.

Lemma lists_delivers key r items :
  lists key r items ->
  exists fields,
    delivers r (VDict fields)
    /\ dict_get (VDict fields) key (VList []) = Ok (VList items).
Proof.
  intros (fields & Hd & [H | [H ->]]); exists fields; (split; [exact Hd|]);
    unfold dict_get; now rewrite H.
Qed.

(** ** [InferenceService.status] and [InferenceService.output] *)

Lemma status_scan_absent self items :
  absent "service_name" (InferenceService.service_name self) items ->
  InferenceService.status_scan self items = Ok (VStr "unknown").
Proof.
  induction 1 as [| item items (fields & name & -> & Hname & Hne) _ IH]; [reflexivity|].
  cbn [InferenceService.status_scan getitem]. now rewrite Hname, Hne.
Qed.

Lemma output_scan_absent self items :
  absent "service_name" (InferenceService.service_name self) items ->
  InferenceService.output_scan self items = Ok (VDict [("status", VStr "unknown")]).
Proof.
  induction 1 as [| item items (fields & name & -> & Hname & Hne) _ IH]; [reflexivity|].
  cbn [InferenceService.output_scan getitem]. now rewrite Hname, Hne.
Qed.

(** C8.  When the status list holds no record whose [service_name] equals
    the controller's, [status()] returns the string ["unknown"] and
    [output()] returns [{'status': 'unknown'}]; neither raises, and each
    costs one GET of [/job/inference]. *)
Theorem status_and_output_unknown_when_absent :
  forall (self : InferenceService.t) (w : World) (items : list value),
    let req := request_of (InferenceService.client self) "GET" "/job/inference" [] in
    lists "data" (net w (sent_count w) req) items ->
    absent "service_name" (InferenceService.service_name self) items ->
    InferenceService.status (self, w)
      = (Ok (VStr "unknown"), (self, log (Sent req) w))
    /\ InferenceService.output (self, w)
      = (Ok (VDict [("status", VStr "unknown")]), (self, log (Sent req) w)).
Proof.
  intros self w items req Hlist Habs.
  destruct (lists_delivers _ _ _ Hlist) as (fields & Hd & Hget).
  destruct (make_request_delivers _ _ _ _ _ _ Hd) as (resp & Hreq & Hjson).
  split.
  - unfold InferenceService.status, bind, this, in_world, lift. cbn [fst snd].
    rewrite Hreq, Hjson, Hget. cbn [iter].
    now rewrite (status_scan_absent _ _ Habs).
  - unfold InferenceService.output, bind, this, in_world, lift. cbn [fst snd].
    rewrite Hreq, Hjson, Hget. cbn [iter].
    now rewrite (output_scan_absent _ _ Habs).
Qed.

(** ** [SXWLClient]: the best-effort calls *)

Lemma raise_for_status_accepts resp :
  status_code resp < 400 \/ 600 <= status_code resp -> raise_for_status resp = Ok tt.
Proof.
  intros H. unfold raise_for_status.
  destruct ((400 <=? status_code resp) && (status_code resp <? 600)) eqn:E; [|reflexivity].
  apply andb_true_iff in E as [E1 E2]. lia.
Qed.

Lemma raise_for_status_refuses resp :
  400 <= status_code resp < 600 -> raise_for_status resp = Raise (HTTPError (status_code resp)).
Proof.
  intros H. unfold raise_for_status.
  destruct ((400 <=? status_code resp) && (status_code resp <? 600)) eqn:E; [reflexivity|].
  apply andb_false_iff in E as [E | E]; lia.
Qed.

Lemma delivers_accepted r body : delivers r body -> accepted r.
Proof. intros (code & -> & H). eexists. split; [reflexivity | exact H]. Qed.

(** Case analysis on the innermost scrutinee first. *)
Ltac crush_try :=
  repeat match goal with
         | |- context [match ?x with _ => _ end] =>
             lazymatch x with
             | context [match _ with _ => _ end] => fail
             | _ => destruct x eqn:?
             end
         end.

(** C7.  [get_models] never raises and sends one GET of [/resource/models].
    When the answer is a JSON object it returns the public list followed by
    the user list (a missing list is empty); when the request raises (no
    answer, or an error status), or the body is not JSON, or the JSON is not
    an object, it returns the empty list. *)
Theorem get_models_merges_or_returns_empty :
  forall (self : SXWLClient.t) (w : World),
    let req := request_of self "GET" "/resource/models" [] in
    let r := net w (sent_count w) req in
    (exists models, SXWLClient.get_models self w = (Ok models, log (Sent req) w))
    /\ (forall fields public user,
          delivers r (VDict fields) ->
          (assoc "public_list" fields = Some (VList public)
           \/ assoc "public_list" fields = None /\ public = []) ->
          (assoc "user_list" fields = Some (VList user)
           \/ assoc "user_list" fields = None /\ user = []) ->
          SXWLClient.get_models self w = (Ok (VList (public ++ user)), log (Sent req) w))
    /\ (refused r
        \/ (exists resp, r = Answer resp /\ payload resp = None)
        \/ (exists body, delivers r body /\ forall fields, body <> VDict fields) ->
        SXWLClient.get_models self w = (Ok (VList []), log (Sent req) w)).
Proof.
  intros self w req r. split; [|split].
  - unfold SXWLClient.get_models, try_except.
    pose proof (make_request_logs self "GET" "/resource/models" [] w) as Hlog.
    fold req in Hlog. unfold bind at 1.
    destruct (SXWLClient._make_request self "GET" "/resource/models" [] w) as [[resp|e] w1];
      cbn [snd] in Hlog; subst w1; cbn [is_Exception ret].
    + unfold bind, lift, ret. crush_try; eauto.
    + eauto.
  - intros fields public user Hd Hp Hu.
    destruct (make_request_delivers _ _ _ _ _ _ Hd) as (resp & Hreq & Hjson).
    unfold SXWLClient.get_models, try_except, bind, lift, ret.
    rewrite Hreq, Hjson. cbn [dict_get].
    destruct Hp as [-> | [-> ->]], Hu as [-> | [-> ->]]; reflexivity.
  - intros [Href | [(resp & Hr & Hnone) | (body & Hd & Hnot)]].
    + destruct (make_request_refused _ _ _ _ _ Href) as (e & Hreq).
      unfold SXWLClient.get_models, try_except, bind. now rewrite Hreq.
    + unfold SXWLClient.get_models, try_except, bind.
      rewrite (make_request_answer _ _ _ _ _ _ Hr).
      destruct (raise_for_status resp); [|reflexivity].
      unfold lift, json. now rewrite Hnone.
    + destruct (make_request_delivers _ _ _ _ _ _ Hd) as (resp & Hreq & Hjson).
      unfold SXWLClient.get_models, try_except, bind, lift, ret.
      rewrite Hreq, Hjson.
      destruct body; try reflexivity. now destruct (Hnot entries).
Qed.

Lemma make_request_no_answer c method endpoint kwargs w reason :
  net w (sent_count w) (request_of c method endpoint kwargs) = NoAnswer reason ->
  SXWLClient._make_request c method endpoint kwargs w
  = (Raise (ConnectionError reason), log (Sent (request_of c method endpoint kwargs)) w).
Proof.
  intros Hr. unfold SXWLClient._make_request, bind, requests_request, lift, ret.
  fold (request_of c method endpoint kwargs). now rewrite Hr.
Qed.

(** The three ways a deletion can go: no answer, an error status, or an
    accepted request followed by [discard]. *)
Ltac delete_cases req :=
  unfold try_except, bind;
  let Hr := fresh "Hr" in
  let Hs := fresh "Hs" in
  destruct (net _ _ req) as [reason | resp] eqn:Hr;
  [ rewrite (make_request_no_answer _ _ _ _ _ _ Hr); cbn [is_Exception ret];
    eexists; split; [reflexivity|]; cbn; repeat split; try reflexivity;
    intros (resp & [=] & _)
  | rewrite (make_request_answer _ _ _ _ _ _ Hr);
    destruct (raise_for_status resp) eqn:Hs;
    [ unfold on_inference_services, on_finetune_jobs, set_discard, without;
      cbn [resources_to_cleanup log logged];
      destruct (to_hashable _); cbn [is_Exception ret];
      (eexists; split; [reflexivity|]); cbn; repeat split; try reflexivity;
      intros [(reason & [=]) | (resp' & [= <-] & Hc)];
      rewrite (raise_for_status_refuses _ Hc) in Hs; discriminate
    | cbn [is_Exception ret]; eexists; split; [reflexivity|]; cbn;
      repeat split; try reflexivity;
      intros (resp' & [= <-] & Hc);
      rewrite (raise_for_status_accepts _ Hc) in Hs; discriminate ] ].

(** C9.  [delete_inference_service] and [delete_finetune_job] never raise and
    send one request each.  When that request is accepted the identifier is
    discarded from its set of the cleanup registry; when it raises the
    registry is left as it was.  The other set is never touched. *)
Theorem delete_discards_only_on_success :
  forall (self : SXWLClient.t) (id : value) (w : World),
    let del_service :=
      request_of self "DELETE" "/job/inference" [("params", VDict [("service_name", id)])] in
    let del_job :=
      request_of self "POST" "/userJob/job_del" [("json", VDict [("job_id", id)])] in
    let reg := resources_to_cleanup w in
    (exists w',
        SXWLClient.delete_inference_service self id w = (Ok tt, w')
        /\ trace w' = trace w ++ [Sent del_service]
        /\ finetune_jobs (resources_to_cleanup w') = finetune_jobs reg
        /\ (accepted (net w (sent_count w) del_service) ->
            inference_services (resources_to_cleanup w')
              = without id (inference_services reg))
        /\ (refused (net w (sent_count w) del_service) ->
            resources_to_cleanup w' = reg))
    /\ (exists w',
        SXWLClient.delete_finetune_job self id w = (Ok tt, w')
        /\ trace w' = trace w ++ [Sent del_job]
        /\ inference_services (resources_to_cleanup w') = inference_services reg
        /\ (accepted (net w (sent_count w) del_job) ->
            finetune_jobs (resources_to_cleanup w')
              = without id (finetune_jobs reg))
        /\ (refused (net w (sent_count w) del_job) ->
            resources_to_cleanup w' = reg)).
Proof.
  intros self id w del_service del_job reg. split.
  - unfold SXWLClient.delete_inference_service. delete_cases del_service.
  - unfold SXWLClient.delete_finetune_job. delete_cases del_job.
Qed.

(** ** [APIConfig.create_default] *)

(** The only way [create_default] can fail: a key given as non-empty bytes
    that are not UTF-8. *)
Lemma create_default_only_failure w e w' :
  APIConfig.create_default w = (Raise e, w') ->
  exists raw, api_key w = KeyBytes raw /\ utf8_valid raw = false /\ e = UnicodeDecodeError.
Proof.
  unfold APIConfig.create_default, bytes_decode_utf8.
  destruct (api_key w) as [| s | [| b raw]]; try discriminate.
  destruct (utf8_valid (b :: raw)) eqn:E; [discriminate|].
  intros [= <- _]. now exists (b :: raw).
Qed.

(** C1, as the code has it.  [create_default] does not look at whether the
    key is there: with the key absent ([None]) or empty it returns a
    configuration whose token is the key as found and whose [Authorization]
    header is ["Bearer "] followed by the key as an f-string prints it
    (["Bearer None"] for an absent key).  The world is left as it was. *)
Theorem create_default_builds_without_key :
  forall w : World,
    missing_key (api_key w) = true ->
    APIConfig.create_default w
    = (Ok {| APIConfig.base_url := endpoint_url_base w;
             APIConfig.token := api_key w;
             APIConfig.headers := default_headers (api_key w) (endpoint_url_base w) |}, w).
Proof.
  intros w. unfold APIConfig.create_default, default_headers.
  destruct (api_key w) as [| s | [| b raw]]; intros H; try reflexivity.
  discriminate H.
Qed.

Lemma create_default_builds_without_key_witness :
  APIConfig.create_default (fresh_world (KeyStr "") [])
  = (Ok {| APIConfig.base_url := "https://api.runpod.ai/v2";
           APIConfig.token := KeyStr "";
           APIConfig.headers := default_headers (KeyStr "") "https://api.runpod.ai/v2" |},
     fresh_world (KeyStr "") []).
Proof. apply (create_default_builds_without_key (fresh_world (KeyStr "") [])). reflexivity. Defined.

(** C1 as the claim has it fails: with no key at all a configuration comes
    back, carrying the header [Authorization: Bearer None]. *)
Lemma create_default_returns_config_without_key :
  APIConfig.create_default (fresh_world KeyNone [])
  = (Ok {| APIConfig.base_url := "https://api.runpod.ai/v2";
           APIConfig.token := KeyNone;
           APIConfig.headers :=
             [ ("Accept", "application/json, text/plain, */*");
               ("Authorization", "Bearer None");
               ("Content-Type", "application/json");
               ("Origin", "https://api.runpod.ai/v2");
               ("Connection", "keep-alive");
               ("User-Agent", "github-actions") ] |},
     fresh_world KeyNone []).
Proof. reflexivity. Qed.

(** ** [InferenceService.deploy] and the facade *)

Lemma in_world_eq {Self A} (m : M World A) (o : Self) w r w' :
  m w = (r, w') -> in_world m (o, w) = (r, (o, w')).
Proof. intros H. unfold in_world. cbn [fst snd]. now rewrite H. Qed.

(** [deploy] posts what it is given, as it is given. *)
Lemma deploy_trace cfg self w :
  trace (snd (snd (InferenceService.deploy cfg (self, w))))
  = trace w ++ [Sent (request_of (InferenceService.client self) "POST" "/job/inference"
                        [("json", cfg)])].
Proof.
  unfold InferenceService.deploy, bind, this, in_world. cbn [fst snd].
  pose proof (make_request_logs (InferenceService.client self) "POST" "/job/inference"
                [("json", cfg)] w) as Hlog.
  destruct (SXWLClient._make_request _ _ _ _ w) as [[resp | e] w1];
    cbn [snd] in Hlog; subst w1; [|reflexivity].
  unfold lift, assign, on_inference_services, set_add. cbn [fst snd].
  crush_try; reflexivity.
Qed.

Lemma deploy_registers cfg self w fields name :
  delivers (net w (sent_count w)
              (request_of (InferenceService.client self) "POST" "/job/inference"
                 [("json", cfg)])) (VDict fields) ->
  assoc "service_name" fields = Some name ->
  to_hashable name <> None ->
  InferenceService.deploy cfg (self, w)
  = (Ok tt,
     (InferenceService.set_service_name name self,
      set_registry
        {| inference_services := including name (inference_services (resources_to_cleanup w));
           finetune_jobs := finetune_jobs (resources_to_cleanup w) |}
        (log (Sent (request_of (InferenceService.client self) "POST" "/job/inference"
                      [("json", cfg)])) w))).
Proof.
  intros Hd Hname Hh.
  destruct (make_request_delivers _ _ _ _ _ _ Hd) as (resp & Hreq & Hjson).
  unfold InferenceService.deploy, bind, this, in_world, lift, assign. cbn [fst snd].
  rewrite Hreq, Hjson. cbn [getitem]. rewrite Hname.
  unfold on_inference_services, set_add, including.
  destruct (to_hashable name); [reflexivity | contradiction].
Qed.


(** What [run] and [run_sync] hand to [deploy] for a dictionary. *)
Lemma run_unfold self config w :
  Endpoint.run self (VDict config) w
  = (r <- on_object (InferenceService.init (Endpoint.rp_client self))
            (InferenceService.deploy
               (if match assoc "input" config with Some v => truthy v | None => false end
                then VDict config else VDict [("input", VDict config)])) ;;
     ret (snd r)) w.
Proof.
  unfold Endpoint.run. unfold bind at 1. unfold lift. cbn [dict_get].
  destruct (assoc "input" config) as [v|]; cbn [truthy negb];
    [destruct (truthy v)|]; reflexivity.
Qed.

(** [run] sends one request, the POST of what it hands to [deploy]. *)
Lemma run_sends_one_post self config w :
  exists outcome w',
    Endpoint.run self (VDict config) w = (outcome, w')
    /\ trace w'
       = trace w
         ++ [Sent (request_of (Endpoint.rp_client self) "POST" "/job/inference"
                     [("json",
                       if match assoc "input" config with
                          | Some v => truthy v
                          | None => false
                          end
                       then VDict config else VDict [("input", VDict config)])])].
Proof.
  rewrite run_unfold.
  pose proof (deploy_trace
                (if match assoc "input" config with Some v => truthy v | None => false end
                 then VDict config else VDict [("input", VDict config)])
                (InferenceService.init (Endpoint.rp_client self)) w) as Ht.
  unfold bind, on_object, ret.
  destruct (InferenceService.deploy _ _) as [[[] | e] [o w1]];
    cbn [fst snd] in *; eexists; eexists; (split; [reflexivity | exact Ht]).
Qed.




(** ** The polling loops *)

Lemma logged_nil w : logged [] w = w.
Proof. destruct w. unfold logged. cbn. now rewrite app_nil_r. Qed.

Lemma sent_count_rounds req interval n w :
  sent_count (logged (rounds req interval n) w) = (sent_count w + n)%nat.
Proof.
  rewrite sent_count_logged. f_equal.
  induction n as [| n IH]; [reflexivity|].
  cbn [rounds List.filter is_sent length]. now rewrite IH.
Qed.

Lemma py_eq_str_false x s : x <> VStr s -> py_eq x (VStr s) = false.
Proof.
  intros H. destruct (py_eq x (VStr s)) eqn:E; [|reflexivity].
  apply py_eq_str in E. contradiction.
Qed.

(** [sleep_max] seconds are the most whose nanoseconds fit 64 bits. *)
Lemma sleep_max_fits_64_bits :
  sleep_max = (2 ^ 63 - 1) / 10 ^ 9
  /\ sleep_max * 10 ^ 9 <= 2 ^ 63 - 1 < (sleep_max + 1) * 10 ^ 9
  /\ - 2 ^ 63 <= - sleep_max * 10 ^ 9 /\ (- sleep_max - 1) * 10 ^ 9 < - 2 ^ 63.
Proof. unfold sleep_max. repeat split; try reflexivity; lia. Qed.

(** The interval [wait_until_complete] polls at is one [time.sleep] takes. *)
Lemma thirty_seconds_fit : 0 <= 30 <= sleep_max.
Proof. unfold sleep_max. lia. Qed.

Lemma sleep_ok interval w :
  0 <= interval <= sleep_max -> sleep interval w = (Ok tt, log (Slept interval) w).
Proof.
  intros H. unfold sleep.
  destruct (interval <? - sleep_max) eqn:E1; [lia|].
  destruct (sleep_max <? interval) eqn:E2; [lia|].
  destruct (interval <? 0) eqn:E3; [lia | reflexivity].
Qed.

(** Outside that range [sleep] raises and leaves the world as it was. *)
Lemma sleep_cases interval w :
  (exists e, sleep interval w = (Raise e, w))
  \/ sleep interval w = (Ok tt, log (Slept interval) w).
Proof.
  unfold sleep.
  destruct ((interval <? - sleep_max) || (sleep_max <? interval));
    [left; eexists; reflexivity|].
  destruct (interval <? 0); [left; eexists; reflexivity | right; reflexivity].
Qed.

(** *** [_wait_for_ready] *)

Section ReadyLoop.

Variable self : InferenceService.t.
Variable retry_interval : Z.
Hypothesis interval_ok : 0 <= retry_interval <= sleep_max.

Let name := InferenceService.service_name self.
Let req := request_of (InferenceService.client self) "GET" "/job/inference" [].

Lemma ready_scan_absent items w :
  absent "service_name" name items ->
  InferenceService.ready_scan items (self, w) = (Ok Next, (self, w)).
Proof.
  induction 1 as [| item items (fields & nm & -> & Hnm & Hne) _ IH]; [reflexivity|].
  cbn [InferenceService.ready_scan]. unfold bind, this, lift. cbn [fst snd getitem].
  rewrite Hnm. fold name. now rewrite Hne.
Qed.

Lemma ready_scan_prefix pre rest w :
  absent "service_name" name pre ->
  InferenceService.ready_scan (pre ++ rest) (self, w)
  = InferenceService.ready_scan rest (self, w).
Proof.
  induction 1 as [| item items (fields & nm & -> & Hnm & Hne) _ IH]; [reflexivity|].
  cbn [app InferenceService.ready_scan]. unfold bind at 1, this at 1. unfold bind at 1, lift at 1.
  cbn [fst snd getitem]. rewrite Hnm. fold name. now rewrite Hne.
Qed.

Lemma ready_scan_other_status items fields st w :
  record_in "service_name" name items fields ->
  assoc "status" fields = Some st -> st <> VStr "running" ->
  InferenceService.ready_scan items (self, w) = (Ok Break, (self, w)).
Proof.
  intros (pre & post & nm & -> & Hpre & Hnm & Heq) Hst Hne.
  rewrite (ready_scan_prefix _ _ _ Hpre).
  cbn [InferenceService.ready_scan]. unfold bind, this, lift. cbn [fst snd getitem].
  rewrite Hnm. fold name. rewrite Heq, Hst. now rewrite (py_eq_str_false _ _ Hne).
Qed.

Lemma ready_scan_running items fields api w :
  record_in "service_name" name items fields ->
  assoc "status" fields = Some (VStr "running") ->
  assoc "api" fields = Some api ->
  InferenceService.ready_scan items (self, w)
  = (Ok Return, (InferenceService.set_api_endpoint api self, w)).
Proof.
  intros (pre & post & nm & -> & Hpre & Hnm & Heq) Hst Hapi.
  rewrite (ready_scan_prefix _ _ _ Hpre).
  cbn [InferenceService.ready_scan]. unfold bind, this, lift, assign, ret.
  cbn [fst snd getitem].
  rewrite Hnm. fold name. rewrite Heq, Hst. cbn [py_eq String.eqb].
  rewrite Hapi. reflexivity.
Qed.

(** One round that goes on. *)
Lemma ready_loop_goes_on n w :
  still_starting name (net w (sent_count w) req) ->
  InferenceService.ready_loop (S n) retry_interval (self, w)
  = InferenceService.ready_loop n retry_interval
      (self, logged [Sent req; Slept retry_interval] w).
Proof.
  intros Hpoll.
  assert (exists items f,
             lists "data" (net w (sent_count w) req) items
             /\ InferenceService.ready_scan items (self, log (Sent req) w)
                = (Ok f, (self, log (Sent req) w))
             /\ f <> Return) as (items & f & Hlist & Hscan & Hf).
  { destruct Hpoll as [(items & Hl & Habs) | (fields & st & (items & Hl & Hrec) & Hst & Hne)].
    - exists items, Next. split; [exact Hl|]. split; [|discriminate].
      now apply ready_scan_absent.
    - exists items, Break. split; [exact Hl|]. split; [|discriminate].
      now apply ready_scan_other_status with fields st. }
  destruct (lists_delivers _ _ _ Hlist) as (body & Hd & Hget).
  destruct (make_request_delivers _ _ _ _ _ _ Hd) as (resp & Hreq & Hjson).
  cbn [InferenceService.ready_loop].
  unfold bind at 1, this at 1. cbn [fst].
  unfold bind at 1. rewrite (in_world_eq _ _ _ _ _ Hreq).
  unfold bind at 1, lift at 1. rewrite Hjson.
  unfold bind at 1, lift at 1. rewrite Hget.
  unfold bind at 1, lift at 1. cbn [iter].
  unfold bind at 1. fold req. rewrite Hscan.
  assert (Hsleep :
            in_world (Self := InferenceService.t) (sleep retry_interval)
              (self, log (Sent req) w)
            = (Ok tt, (self, logged [Sent req; Slept retry_interval] w))).
  { apply in_world_eq. rewrite (sleep_ok _ _ interval_ok).
    unfold log. now rewrite logged_logged. }
  destruct f; [| | contradiction]; unfold bind; now rewrite Hsleep.
Qed.

(** The round that finds the service running. *)
Lemma ready_loop_returns n w fields api :
  reported "data" "service_name" name (net w (sent_count w) req) fields ->
  assoc "status" fields = Some (VStr "running") ->
  assoc "api" fields = Some api ->
  InferenceService.ready_loop (S n) retry_interval (self, w)
  = (Ok tt, (InferenceService.set_api_endpoint api self, logged [Sent req] w)).
Proof.
  intros (items & Hlist & Hrec) Hst Hapi.
  destruct (lists_delivers _ _ _ Hlist) as (body & Hd & Hget).
  destruct (make_request_delivers _ _ _ _ _ _ Hd) as (resp & Hreq & Hjson).
  cbn [InferenceService.ready_loop].
  unfold bind at 1, this at 1. cbn [fst].
  unfold bind at 1. rewrite (in_world_eq _ _ _ _ _ Hreq).
  unfold bind at 1, lift at 1. rewrite Hjson.
  unfold bind at 1, lift at 1. rewrite Hget.
  unfold bind at 1, lift at 1. cbn [iter].
  unfold bind at 1. fold req.
  now rewrite (ready_scan_running _ _ _ _ Hrec Hst Hapi).
Qed.

(** [j] rounds that go on. *)
Lemma ready_loop_skips j : forall n w,
  (forall i, (i < j)%nat -> still_starting name (net w (sent_count w + i) req)) ->
  InferenceService.ready_loop (j + n) retry_interval (self, w)
  = InferenceService.ready_loop n retry_interval
      (self, logged (rounds req retry_interval j) w).
Proof.
  induction j as [| j IH]; intros n w Hpolls.
  - cbn [rounds Nat.add]. now rewrite logged_nil.
  - cbn [Nat.add]. rewrite ready_loop_goes_on.
    + rewrite IH.
      * now rewrite logged_logged.
      * intros i Hi. rewrite sent_count_logged. cbn [List.filter is_sent length net logged].
        replace (sent_count w + 1 + i)%nat with (sent_count w + S i)%nat by lia.
        apply Hpolls. lia.
    + specialize (Hpolls O ltac:(lia)). now rewrite Nat.add_0_r in Hpolls.
Qed.

Lemma ready_loop_times_out n w :
  (forall i, (i < n)%nat -> still_starting name (net w (sent_count w + i) req)) ->
  InferenceService.ready_loop n retry_interval (self, w)
  = (Raise (TimeoutError "服务启动超时"),
     (self, logged (rounds req retry_interval n) w)).
Proof.
  intros Hpolls. rewrite <- (Nat.add_0_r n) at 1.
  now rewrite (ready_loop_skips n 0 w Hpolls).
Qed.

End ReadyLoop.

(** *** [_wait_for_completion] *)

Section CompletionLoop.

Variable self : FinetuneJob.t.
Variable retry_interval : Z.
Hypothesis interval_ok : 0 <= retry_interval <= sleep_max.

Let id := FinetuneJob.job_id self.
Let req := request_of (FinetuneJob.client self) "GET" "/job/training"
             [("params", VDict [("current", VInt 1); ("size", VInt 1000)])].

Lemma completion_scan_absent jobs :
  absent "jobName" id jobs -> FinetuneJob.completion_scan self jobs = Ok Next.
Proof.
  induction 1 as [| job jobs (fields & nm & -> & Hnm & Hne) _ IH]; [reflexivity|].
  cbn [FinetuneJob.completion_scan getitem]. rewrite Hnm. fold id. now rewrite Hne.
Qed.

Lemma completion_scan_prefix pre rest :
  absent "jobName" id pre ->
  FinetuneJob.completion_scan self (pre ++ rest) = FinetuneJob.completion_scan self rest.
Proof.
  induction 1 as [| job jobs (fields & nm & -> & Hnm & Hne) _ IH]; [reflexivity|].
  cbn [app FinetuneJob.completion_scan getitem]. rewrite Hnm. fold id. now rewrite Hne.
Qed.

(** What the scan makes of the record about the job, by its status. *)
Lemma completion_scan_record jobs fields st :
  record_in "jobName" id jobs fields ->
  assoc "status" fields = Some st ->
  FinetuneJob.completion_scan self jobs
  = if py_eq st (VStr "succeeded") then Ok Return
    else if py_eq st (VStr "failed") || py_eq st (VStr "error")
         then Raise (RuntimeError "微调任务失败")
         else Ok Break.
Proof.
  intros (pre & post & nm & -> & Hpre & Hnm & Heq) Hst.
  rewrite (completion_scan_prefix _ _ Hpre).
  cbn [FinetuneJob.completion_scan getitem]. rewrite Hnm. fold id. now rewrite Heq, Hst.
Qed.

(** The part of a round up to the scan of the answer. *)
Lemma completion_loop_round n w jobs :
  lists "content" (net w (sent_count w) req) jobs ->
  FinetuneJob.completion_loop (S n) retry_interval (self, w)
  = match FinetuneJob.completion_scan self jobs with
    | Raise e => (Raise e, (self, logged [Sent req] w))
    | Ok Return => (Ok tt, (self, logged [Sent req] w))
    | Ok _ =>
        FinetuneJob.completion_loop n retry_interval
          (self, logged [Sent req; Slept retry_interval] w)
    end.
Proof.
  intros Hlist.
  destruct (lists_delivers _ _ _ Hlist) as (body & Hd & Hget).
  destruct (make_request_delivers _ _ _ _ _ _ Hd) as (resp & Hreq & Hjson).
  cbn [FinetuneJob.completion_loop].
  unfold bind at 1, this at 1. cbn [fst].
  unfold bind at 1. rewrite (in_world_eq _ _ _ _ _ Hreq).
  unfold bind at 1, lift at 1. rewrite Hjson.
  unfold bind at 1, lift at 1.
  unfold bind at 1, lift at 1. rewrite Hget.
  unfold bind at 1, lift at 1. cbn [iter].
  unfold bind at 1, lift at 1. fold req.
  assert (Hsleep :
            in_world (Self := FinetuneJob.t) (sleep retry_interval)
              (self, log (Sent req) w)
            = (Ok tt, (self, logged [Sent req; Slept retry_interval] w))).
  { apply in_world_eq. rewrite (sleep_ok _ _ interval_ok).
    unfold log. now rewrite logged_logged. }
  destruct (FinetuneJob.completion_scan self jobs) as [[| |] | e];
    try reflexivity; unfold bind; now rewrite Hsleep.
Qed.

Lemma completion_loop_goes_on n w :
  still_training id (net w (sent_count w) req) ->
  FinetuneJob.completion_loop (S n) retry_interval (self, w)
  = FinetuneJob.completion_loop n retry_interval
      (self, logged [Sent req; Slept retry_interval] w).
Proof.
  intros [(jobs & Hl & Habs)
         | (fields & st & (jobs & Hl & Hrec) & Hst & Hn1 & Hn2 & Hn3)];
    rewrite (completion_loop_round _ _ _ Hl).
  - now rewrite (completion_scan_absent _ Habs).
  - rewrite (completion_scan_record _ _ _ Hrec Hst).
    now rewrite !py_eq_str_false.
Qed.

Lemma completion_loop_skips j : forall n w,
  (forall i, (i < j)%nat -> still_training id (net w (sent_count w + i) req)) ->
  FinetuneJob.completion_loop (j + n) retry_interval (self, w)
  = FinetuneJob.completion_loop n retry_interval
      (self, logged (rounds req retry_interval j) w).
Proof.
  induction j as [| j IH]; intros n w Hpolls.
  - cbn [rounds Nat.add]. now rewrite logged_nil.
  - cbn [Nat.add]. rewrite completion_loop_goes_on.
    + rewrite IH.
      * now rewrite logged_logged.
      * intros i Hi. rewrite sent_count_logged. cbn [List.filter is_sent length net logged].
        replace (sent_count w + 1 + i)%nat with (sent_count w + S i)%nat by lia.
        apply Hpolls. lia.
    + specialize (Hpolls O ltac:(lia)). now rewrite Nat.add_0_r in Hpolls.
Qed.

Lemma completion_loop_times_out n w :
  (forall i, (i < n)%nat -> still_training id (net w (sent_count w + i) req)) ->
  FinetuneJob.completion_loop n retry_interval (self, w)
  = (Raise (TimeoutError "微调任务超时"),
     (self, logged (rounds req retry_interval n) w)).
Proof.
  intros Hpolls. rewrite <- (Nat.add_0_r n) at 1.
  now rewrite (completion_loop_skips n 0 w Hpolls).
Qed.

End CompletionLoop.

(** How the polls of the statements relate to "a response that contains an
    entry for the service with status running": a list of records either has
    no record about [id] or has a first one. *)
Lemma first_record name_key id items :
  Forall (fun item => exists fields nm,
              item = VDict fields /\ assoc name_key fields = Some nm) items ->
  absent name_key id items \/ exists fields, record_in name_key id items fields.
Proof.
  induction 1 as [| item items (fields & nm & -> & Hnm) _ [IH | (fields' & IH)]].
  - left. constructor.
  - destruct (py_eq nm id) eqn:E.
    + right. exists fields, [], items, nm. repeat split; [constructor | exact Hnm | exact E].
    + left. constructor; [|exact IH]. now exists fields, nm.
  - destruct (py_eq nm id) eqn:E.
    + right. exists fields, [], items, nm. repeat split; [constructor | exact Hnm | exact E].
    + right. exists fields'.
      destruct IH as (pre & post & nm' & -> & Hpre & Hnm' & E').
      exists (VDict fields :: pre), post, nm'. repeat split; try assumption.
      constructor; [|exact Hpre]. now exists fields, nm.
Qed.

(** A response of well-formed records none of which says that the service is
    running lets the loop go on. *)
Lemma no_running_entry_goes_on name r items :
  lists "data" r items ->
  Forall status_record items ->
  Forall (fun item => ~ running_entry name item) items ->
  still_starting name r.
Proof.
  intros Hlist Htyped Hnone.
  destruct (first_record "service_name" name items) as [Habs | (fields & Hrec)].
  - eapply Forall_impl; [exact Htyped|].
    intros item (fields & nm & st & -> & Hnm & _). now exists fields, nm.
  - left. now exists items.
  - right.
    pose proof Hrec as (pre & post & nm & -> & _ & Hnm & E).
    apply Forall_app in Htyped as [_ Htyped]. apply Forall_cons_iff in Htyped as [Ht _].
    apply Forall_app in Hnone as [_ Hnone]. apply Forall_cons_iff in Hnone as [Hn _].
    destruct Ht as (fields' & nm' & st & [= <-] & _ & Hst).
    exists fields, st. split; [now exists (pre ++ VDict fields :: post)|].
    split; [exact Hst|].
    intros ->. apply Hn. now exists fields, nm.
Qed.

(** In a response of well-formed records that lists the service, and in
    which whatever is listed about the service says running (as when it is
    listed once), the record the loop reads says running. *)
Lemma running_entries_are_reported name r items :
  lists "data" r items ->
  Forall status_record items ->
  Exists (running_entry name) items ->
  Forall (fun item => other_record "service_name" name item \/ running_entry name item)
    items ->
  exists fields,
    reported "data" "service_name" name r fields
    /\ assoc "status" fields = Some (VStr "running").
Proof.
  intros Hlist Htyped Hex Hall.
  destruct (first_record "service_name" name items) as [Habs | (fields & Hrec)].
  - eapply Forall_impl; [exact Htyped|].
    intros item (fields & nm & st & -> & Hnm & _). now exists fields, nm.
  - exfalso. apply List.Exists_exists in Hex as (item & Hin & (fields & nm & -> & Hnm & E & _)).
    pose proof (proj1 (List.Forall_forall _ _) Habs _ Hin) as (fields' & nm' & [= <-] & Hnm' & E').
    congruence.
  - exists fields. split; [now exists items|].
    destruct Hrec as (pre & post & nm & -> & _ & Hnm & E).
    apply Forall_app in Hall as [_ Hall]. apply Forall_cons_iff in Hall as [Hthis _].
    destruct Hthis as [(fields' & nm' & [= <-] & Hnm' & E')
                      | (fields' & nm' & [= <-] & _ & _ & Hst)]; [congruence | exact Hst].
Qed.

(** C3.  Let the [k]-th poll ([k] at most [max_retries]) be the first whose
    record for [service_name] has status ["running"], every earlier poll
    leaving the service unlisted or listed with another status, and let
    [retry_interval] be a length [time.sleep] takes (from 0 to [sleep_max]).
    Then [_wait_for_ready] returns, the service object is as before but for
    its [api_endpoint], which now is the [api] field of that record, and
    what happened is [k - 1] rounds of request and sleep followed by one
    last request: [k] requests in all, and none after the answer that says
    ["running"]. *)
Theorem wait_for_ready_returns_at_first_running :
  forall (self : InferenceService.t) (w : World) (max_retries retry_interval : Z)
         (k : nat) (fields : list (string * value)) (api : value),
    let req := request_of (InferenceService.client self) "GET" "/job/inference" [] in
    let name := InferenceService.service_name self in
    let w' := logged (rounds req retry_interval (k - 1) ++ [Sent req]) w in
    (1 <= k)%nat ->
    Z.of_nat k <= max_retries ->
    0 <= retry_interval ->
    retry_interval <= sleep_max ->
    (forall i, (i < k - 1)%nat -> still_starting name (net w (sent_count w + i) req)) ->
    reported "data" "service_name" name (net w (sent_count w + (k - 1)) req) fields ->
    assoc "status" fields = Some (VStr "running") ->
    assoc "api" fields = Some api ->
    InferenceService._wait_for_ready max_retries retry_interval (self, w)
    = (Ok tt,
       ({| InferenceService.client := InferenceService.client self;
           InferenceService.service_name := name;
           InferenceService.api_endpoint := api |}, w'))
    /\ sent_count w' = (sent_count w + k)%nat.
Proof.
  intros self w max_retries retry_interval k fields api req name w' Hk Hmax Hint Hfit
    Hbefore Hrun Hst Hapi.
  split.
  - unfold InferenceService._wait_for_ready.
    replace (Z.to_nat max_retries)
      with ((k - 1) + S (Z.to_nat max_retries - k))%nat by lia.
    rewrite (ready_loop_skips self retry_interval (conj Hint Hfit) (k - 1) _ w Hbefore).
    rewrite (ready_loop_returns self retry_interval _ _ fields api).
    + now rewrite logged_logged.
    + now rewrite sent_count_rounds.
    + exact Hst.
    + exact Hapi.
  - unfold w'. rewrite <- logged_logged, sent_count_logged, sent_count_rounds.
    cbn [List.filter is_sent length]. lia.
Qed.

Lemma slept_count_logged es w :
  slept_count (logged es w) = (slept_count w + length (List.filter is_slept es))%nat.
Proof. unfold slept_count. cbn [trace logged]. now rewrite List.filter_app, List.length_app. Qed.

Lemma slept_count_rounds req interval n w :
  slept_count (logged (rounds req interval n) w) = (slept_count w + n)%nat.
Proof.
  rewrite slept_count_logged. f_equal.
  induction n as [| n IH]; [reflexivity|].
  cbn [rounds List.filter is_slept length]. now rewrite IH.
Qed.

Lemma rounds_last req interval k :
  (1 <= k)%nat ->
  rounds req interval k = rounds req interval (k - 1) ++ [Sent req; Slept interval].
Proof.
  destruct k as [| k]; [lia|]. intros _. cbn [Nat.sub]. rewrite Nat.sub_0_r.
  induction k as [| k IH]; [reflexivity|].
  cbn [rounds app] in *. now rewrite <- IH.
Qed.

(** C4.  Let the [k]-th poll ([k] at most [max_retries]) be the first whose
    record for [job_id] has a final status, every earlier poll leaving the
    job unlisted or listed with another status, and let [retry_interval] be
    a length [time.sleep] takes (from 0 to [sleep_max]).  On ["succeeded"]
    [_wait_for_completion] returns; on ["failed"] or ["error"] it raises
    [RuntimeError].  Either way what happened is [k - 1] rounds of request
    and sleep followed by one last request: no sleep follows the final
    answer and no further attempt is made. *)
Theorem wait_for_completion_ends_on_final_status :
  forall (self : FinetuneJob.t) (w : World) (max_retries retry_interval : Z)
         (k : nat) (fields : list (string * value)) (st : value),
    let req := request_of (FinetuneJob.client self) "GET" "/job/training"
                 [("params", VDict [("current", VInt 1); ("size", VInt 1000)])] in
    let id := FinetuneJob.job_id self in
    let w' := logged (rounds req retry_interval (k - 1) ++ [Sent req]) w in
    (1 <= k)%nat ->
    Z.of_nat k <= max_retries ->
    0 <= retry_interval ->
    retry_interval <= sleep_max ->
    (forall i, (i < k - 1)%nat -> still_training id (net w (sent_count w + i) req)) ->
    reported "content" "jobName" id (net w (sent_count w + (k - 1)) req) fields ->
    assoc "status" fields = Some st ->
    (st = VStr "succeeded" ->
     FinetuneJob._wait_for_completion max_retries retry_interval (self, w)
     = (Ok tt, (self, w')))
    /\ (st = VStr "failed" \/ st = VStr "error" ->
        FinetuneJob._wait_for_completion max_retries retry_interval (self, w)
        = (Raise (RuntimeError "微调任务失败"), (self, w')))
    /\ sent_count w' = (sent_count w + k)%nat
    /\ slept_count w' = (slept_count w + (k - 1))%nat.
Proof.
  intros self w max_retries retry_interval k fields st req id w' Hk Hmax Hint Hfit
    Hbefore (jobs & Hlist & Hrec) Hst.
  remember (Z.to_nat max_retries - k)%nat as left_over eqn:Eleft.
  assert (Hloop :
            FinetuneJob._wait_for_completion max_retries retry_interval (self, w)
            = match FinetuneJob.completion_scan self jobs with
              | Raise e => (Raise e, (self, w'))
              | Ok Return => (Ok tt, (self, w'))
              | Ok _ =>
                  FinetuneJob.completion_loop left_over retry_interval
                    (self, logged (rounds req retry_interval k) w)
              end).
  { unfold FinetuneJob._wait_for_completion.
    replace (Z.to_nat max_retries) with ((k - 1) + S left_over)%nat by lia.
    rewrite (completion_loop_skips self retry_interval (conj Hint Hfit) (k - 1) _ w Hbefore).
    rewrite (completion_loop_round self retry_interval (conj Hint Hfit) _ _ jobs).
    - rewrite !logged_logged. unfold w'.
      now rewrite (rounds_last req retry_interval k Hk).
    - now rewrite sent_count_rounds. }
  rewrite (completion_scan_record self jobs fields st Hrec Hst) in Hloop.
  split; [|split; [|split]].
  - intros ->. exact Hloop.
  - intros [-> | ->]; exact Hloop.
  - unfold w'. rewrite <- logged_logged, sent_count_logged, sent_count_rounds.
    cbn [List.filter is_sent length]. lia.
  - unfold w'. rewrite <- logged_logged, slept_count_logged, slept_count_rounds.
    cbn [List.filter is_slept length]. lia.
Qed.

(** C5.  Both polling loops take a poll that does not list the service (the
    job) as one more poll without a final status, and once [max_retries]
    such polls are spent they raise [TimeoutError], having sent exactly
    [max_retries] requests and slept after each; [retry_interval] is a
    length [time.sleep] takes (from 0 to [sleep_max]).  Called without
    arguments, as [wait_until_complete] does, the budget is 60 polls 30
    seconds apart. *)
Theorem polling_times_out_after_max_retries :
  forall (json_loads : string -> option value),
    (forall (self : InferenceService.t) (w : World) (max_retries retry_interval : Z),
        let req := request_of (InferenceService.client self) "GET" "/job/inference" [] in
        0 <= retry_interval ->
        retry_interval <= sleep_max ->
        (forall i, (i < Z.to_nat max_retries)%nat ->
                   still_starting (InferenceService.service_name self)
                     (net w (sent_count w + i) req)) ->
        InferenceService._wait_for_ready max_retries retry_interval (self, w)
        = (Raise (TimeoutError "服务启动超时"),
           (self, logged (rounds req retry_interval (Z.to_nat max_retries)) w)))
    /\ (forall (self : FinetuneJob.t) (w : World) (max_retries retry_interval : Z),
        let req := request_of (FinetuneJob.client self) "GET" "/job/training"
                     [("params", VDict [("current", VInt 1); ("size", VInt 1000)])] in
        0 <= retry_interval ->
        retry_interval <= sleep_max ->
        (forall i, (i < Z.to_nat max_retries)%nat ->
                   still_training (FinetuneJob.job_id self)
                     (net w (sent_count w + i) req)) ->
        FinetuneJob._wait_for_completion max_retries retry_interval (self, w)
        = (Raise (TimeoutError "微调任务超时"),
           (self, logged (rounds req retry_interval (Z.to_nat max_retries)) w)))
    /\ (forall (self : InferenceService.t) (w : World),
        let req := request_of (InferenceService.client self) "GET" "/job/inference" [] in
        (forall i, (i < 60)%nat ->
                   still_starting (InferenceService.service_name self)
                     (net w (sent_count w + i) req)) ->
        InferenceService.wait_until_complete (self, w)
        = (Raise (TimeoutError "服务启动超时"), (self, logged (rounds req 30 60) w)))
    /\ (forall (self : FinetuneJob.t) (w : World),
        let req := request_of (FinetuneJob.client self) "GET" "/job/training"
                     [("params", VDict [("current", VInt 1); ("size", VInt 1000)])] in
        (forall i, (i < 60)%nat ->
                   still_training (FinetuneJob.job_id self)
                     (net w (sent_count w + i) req)) ->
        FinetuneJob.wait_until_complete json_loads (self, w)
        = (Raise (TimeoutError "微调任务超时"), (self, logged (rounds req 30 60) w))).
Proof.
  intros json_loads. split; [|split; [|split]].
  - intros self w max_retries retry_interval req Hint Hfit Hpolls.
    unfold InferenceService._wait_for_ready.
    now apply ready_loop_times_out.
  - intros self w max_retries retry_interval req Hint Hfit Hpolls.
    unfold FinetuneJob._wait_for_completion.
    now apply completion_loop_times_out.
  - intros self w req Hpolls.
    unfold InferenceService.wait_until_complete, InferenceService._wait_for_ready.
    apply bind_raise.
    change (Z.to_nat 60) with 60%nat.
    apply ready_loop_times_out; [exact thirty_seconds_fit | exact Hpolls].
  - intros self w req Hpolls.
    unfold FinetuneJob.wait_until_complete, FinetuneJob._wait_for_completion.
    apply bind_raise.
    change (Z.to_nat 60) with 60%nat.
    apply completion_loop_times_out; [exact thirty_seconds_fit | exact Hpolls].
Qed.

(** ** [FinetuneJob._get_adapter_id] *)

Section AdapterScan.

Variable json_loads : string -> option value.
Variable self : FinetuneJob.t.

Let job := FinetuneJob.job_id self.

Hypothesis job_known : job <> VNone.

Lemma none_is_not_job : py_eq VNone job = false.
Proof. destruct job eqn:E; try reflexivity. now destruct job_known. Qed.

Lemma dict_get_meta fields :
  dict_get (VDict fields) "meta" (VStr "{}") = Ok (meta_of fields).
Proof. reflexivity. Qed.

(** An adapter that is passed over leaves everything as it was. *)
Lemma adapter_try_passed_over adapter w :
  passed_over json_loads job adapter ->
  try_except (FinetuneJob.adapter_try json_loads adapter) is_JSONDecodeError
    (fun _ => ret Next) (self, w)
  = (Ok Next, (self, w)).
Proof.
  intros [(fields & text & -> & Hmeta & Hload)
         | (fields & text & meta & -> & Hmeta & Hload & Hfid)];
    unfold try_except, FinetuneJob.adapter_try, bind, this, lift;
    cbn [fst snd]; rewrite dict_get_meta, Hmeta; cbn [FinetuneJob.loads];
    rewrite Hload; [reflexivity|].
  cbn [dict_get]. fold job.
  destruct (assoc "finetune_id" meta) as [fid|] eqn:E.
  - now rewrite (Hfid fid eq_refl).
  - now rewrite none_is_not_job.
Qed.

Lemma adapter_scan_prefix pre rest w :
  Forall (passed_over json_loads job) pre ->
  FinetuneJob.adapter_scan json_loads (pre ++ rest) (self, w)
  = FinetuneJob.adapter_scan json_loads rest (self, w).
Proof.
  induction 1 as [| adapter pre Hp _ IH]; [reflexivity|].
  cbn [app FinetuneJob.adapter_scan]. unfold bind at 1.
  now rewrite (adapter_try_passed_over _ _ Hp).
Qed.

(** An adapter that refers to the job ends the scan: with its [id] when it
    has one, with [KeyError] otherwise. *)
Lemma adapter_scan_match fields rest w :
  refers_to json_loads job (VDict fields) ->
  FinetuneJob.adapter_scan json_loads (VDict fields :: rest) (self, w)
  = match assoc "id" fields with
    | Some id => (Ok tt, (FinetuneJob.set_adapter_id id self, w))
    | None => (Raise (KeyError "id"), (self, w))
    end.
Proof.
  intros (fields' & text & meta & fid & [= <-] & Hmeta & Hload & Hfid & Heq).
  cbn [FinetuneJob.adapter_scan].
  unfold bind, try_except, FinetuneJob.adapter_try, bind, this, lift, assign, ret.
  cbn [fst snd]. rewrite dict_get_meta, Hmeta. cbn [FinetuneJob.loads].
  rewrite Hload. cbn [dict_get]. rewrite Hfid. fold job. rewrite Heq.
  cbn [getitem]. destruct (assoc "id" fields); reflexivity.
Qed.




End AdapterScan.


(** ** The facade decides by truthiness *)

Lemma extends_refl w : extends w w.
Proof. exists []. now rewrite app_nil_r. Qed.

Lemma extends_trans w1 w2 w3 : extends w1 w2 -> extends w2 w3 -> extends w1 w3.
Proof.
  intros (l1 & H1) (l2 & H2). exists (l1 ++ l2). now rewrite H2, H1, app_assoc.
Qed.

Lemma extends_logged es w : extends w (logged es w).
Proof. now exists es. Qed.

Lemma ready_scan_extends items : forall self w,
  extends w (snd (snd (InferenceService.ready_scan items (self, w)))).
Proof.
  induction items as [| item rest IH]; intros self w; [apply extends_refl|].
  cbn [InferenceService.ready_scan]. unfold bind at 1, this at 1. cbn [fst].
  unfold bind at 1, lift at 1.
  destruct (getitem item "service_name") as [nm | e]; [|apply extends_refl].
  destruct (py_eq nm (InferenceService.service_name self)); [|apply IH].
  unfold bind, lift, assign, ret. cbn [fst snd].
  crush_try; apply extends_refl.
Qed.

Lemma ready_loop_extends interval n : forall self w,
  extends w (snd (snd (InferenceService.ready_loop n interval (self, w)))).
Proof.
  induction n as [| n IH]; intros self w; [apply extends_refl|].
  cbn [InferenceService.ready_loop]. unfold bind at 1, this at 1. cbn [fst].
  unfold bind at 1, in_world at 1. cbn [fst snd].
  pose proof (make_request_logs (InferenceService.client self) "GET" "/job/inference" [] w)
    as Hlog.
  destruct (SXWLClient._make_request _ _ _ _ w) as [[resp | e] w1];
    cbn [snd] in Hlog; subst w1; [|apply extends_logged].
  apply extends_trans with (log (Sent (request_of (InferenceService.client self)
                                         "GET" "/job/inference" [])) w);
    [apply extends_logged|].
  generalize (log (Sent (request_of (InferenceService.client self)
                           "GET" "/job/inference" [])) w) as w1.
  intros w1.
  unfold bind at 1, lift at 1. destruct (json resp) as [body | e]; [|apply extends_refl].
  unfold bind at 1, lift at 1.
  destruct (dict_get body "data" (VList [])) as [data | e]; [|apply extends_refl].
  unfold bind at 1, lift at 1.
  destruct (iter data) as [items | e]; [|apply extends_refl].
  unfold bind at 1.
  pose proof (ready_scan_extends items self w1) as Hscan.
  destruct (InferenceService.ready_scan items (self, w1)) as [[f | e] [self' w2]];
    cbn [snd] in Hscan; [|exact Hscan].
  assert (Hgo : extends w1
                  (snd (snd ((in_world (sleep interval) ;;;
                              InferenceService.ready_loop n interval) (self', w2))))).
  { unfold bind, in_world. cbn [fst snd].
    destruct (sleep_cases interval w2) as [(e & ->) | ->]; [exact Hscan|].
    eapply extends_trans; [exact Hscan|].
    eapply extends_trans; [apply (extends_logged [Slept interval])|apply IH]. }
  destruct f; [exact Hgo | exact Hgo | exact Hscan].
Qed.

Lemma wait_until_complete_extends self w :
  extends w (snd (snd (InferenceService.wait_until_complete (self, w)))).
Proof.
  unfold InferenceService.wait_until_complete, InferenceService._wait_for_ready.
  unfold bind at 1.
  pose proof (ready_loop_extends 30 (Z.to_nat 60) self w) as H.
  destruct (InferenceService.ready_loop _ _ _) as [[[] | e] [self' w1]];
    cbn [snd] in H; exact H.
Qed.

Lemma deploy_then_wait_trace body self w :
  exists later,
    trace (snd (snd ((InferenceService.deploy body ;;;
                      InferenceService.wait_until_complete) (self, w))))
    = trace w ++ Sent (request_of (InferenceService.client self) "POST" "/job/inference"
                         [("json", body)]) :: later.
Proof.
  pose proof (deploy_trace body self w) as Hdep.
  unfold bind at 1.
  destruct (InferenceService.deploy body (self, w)) as [[[] | e] [self1 w1]];
    cbn [snd] in Hdep.
  - destruct (wait_until_complete_extends self1 w1) as (later & Hlater).
    exists later. rewrite Hlater, Hdep. now rewrite <- app_assoc.
  - exists []. exact Hdep.
Qed.

(** C10.  [run] and [run_sync] look at the truth value of
    [request_input.get("input")], not at whether the key is there.  The
    POST that starts the deployment carries [request_input] unchanged when
    that value is true, and [request_input] wrapped under ["input"] in every
    other case: when the key is missing and also when it holds a false
    value, so that [{"input": v}] with [v] false goes out as
    [{"input": {"input": v}}].  ([run_sync] first rebuilds the
    configuration; the statement is for a world in which that succeeds.) *)
Theorem facade_wraps_by_truthiness :
  forall (self : Endpoint.t) (request_input : list (string * value)) (timeout : Z)
         (w : World) (config : APIConfig.t),
    let passes :=
      match assoc "input" request_input with Some v => truthy v | None => false end in
    let body :=
      if passes then VDict request_input else VDict [("input", VDict request_input)] in
    APIConfig.create_default w = (Ok config, w) ->
    (exists outcome w',
        Endpoint.run self (VDict request_input) w = (outcome, w')
        /\ trace w' = trace w ++ [Sent (request_of (Endpoint.rp_client self)
                                          "POST" "/job/inference" [("json", body)])])
    /\ (exists outcome w' later,
        Endpoint.run_sync self (VDict request_input) timeout w = (outcome, w')
        /\ trace w' = trace w ++ Sent (request_of {| SXWLClient.config := config |}
                                         "POST" "/job/inference" [("json", body)]) :: later)
    /\ (forall v, assoc "input" request_input = Some v -> truthy v = false ->
                  body = VDict [("input", VDict request_input)])
    /\ (forall v, assoc "input" request_input = Some v -> truthy v = true ->
                  body = VDict request_input)
    /\ (forall v, truthy v = false -> request_input = [("input", v)] ->
                  body = VDict [("input", VDict [("input", v)])]).
Proof.
  intros self request_input timeout w config passes body Hcfg.
  split; [|split; [|split; [|split]]].
  - exact (run_sends_one_post self request_input w).
  - unfold Endpoint.run_sync. unfold bind at 1, lift at 1. cbn [dict_get].
    assert (Hbody :
              (if negb (truthy (match assoc "input" request_input with
                                | Some v => v
                                | None => VNone
                                end))
               then VDict [("input", VDict request_input)]
               else VDict request_input) = body).
    { unfold body, passes. destruct (assoc "input" request_input) as [v|];
        [destruct (truthy v)|]; reflexivity. }
    rewrite Hbody. unfold bind at 1. rewrite Hcfg.
    destruct (deploy_then_wait_trace body
                (InferenceService.init {| SXWLClient.config := config |}) w)
      as (later & Hlater).
    unfold bind at 1, on_object.
    destruct ((InferenceService.deploy body ;;; InferenceService.wait_until_complete) _)
      as [[v | e] [self1 w1]]; cbn [fst snd] in *;
      eexists; eexists; exists later; (split; [reflexivity | exact Hlater]).
  - intros v Hv Hfalse. unfold body, passes. now rewrite Hv, Hfalse.
  - intros v Hv Htrue. unfold body, passes. now rewrite Hv, Htrue.
  - intros v Hfalse ->. unfold body, passes. cbn [assoc String.eqb Ascii.eqb Bool.eqb].
    now rewrite Hfalse.
Qed.

(** * Worked examples *)

Ltac by_200 := exists 200; split; [reflexivity | lia].

Ltac is_listing :=
  eexists; split; [by_200 | first [left; reflexivity | right; split; reflexivity]].

Ltac is_other := eexists; eexists; split; [reflexivity | split; reflexivity].

(** The scenario of the specification: ["pending"], ["pending"],
    ["running"] costs three requests, not sixty. *)
Lemma wait_for_ready_returns_at_first_running_witness :
  let req := request_of demo_client "GET" "/job/inference" [] in
  let w := fresh_world (KeyStr "k") pending_pending_running in
  InferenceService._wait_for_ready 60 30 (demo_service, w)
  = (Ok tt,
     ({| InferenceService.client := demo_client;
         InferenceService.service_name := VStr "svc-1";
         InferenceService.api_endpoint := VStr "http://10.0.0.1/v1/chat" |},
      logged [Sent req; Slept 30; Sent req; Slept 30; Sent req] w))
  /\ sent_count (logged [Sent req; Slept 30; Sent req; Slept 30; Sent req] w) = 3%nat.
Proof.
  apply (wait_for_ready_returns_at_first_running demo_service
           (fresh_world (KeyStr "k") pending_pending_running) 60 30 3
           (service_record "svc-1" "running" "http://10.0.0.1/v1/chat")
           (VStr "http://10.0.0.1/v1/chat")).
  - lia.
  - lia.
  - lia.
  - unfold sleep_max. lia.
  - intros i Hi.
    assert (i = 0 \/ i = 1)%nat as [-> | ->] by lia;
      right; exists (service_record "svc-1" "pending" ""), (VStr "pending");
      (split; [|split; [reflexivity | discriminate]]);
      eexists; (split; [is_listing|]);
      exists [], [], (VStr "svc-1"); repeat split; constructor.
  - eexists. split; [is_listing|].
    exists [VDict (service_record "svc-2" "running" "http://10.0.0.2/v1/chat")], [],
      (VStr "svc-1").
    split; [reflexivity|]. split; [|split; reflexivity].
    constructor; [is_other | constructor].
  - reflexivity.
  - reflexivity.
Defined.

(** A job reported ["failed"] on the second poll: one sleep, two requests,
    and the error. *)
Lemma wait_for_completion_ends_on_final_status_witness :
  let req := request_of demo_client "GET" "/job/training"
               [("params", VDict [("current", VInt 1); ("size", VInt 1000)])] in
  let w := fresh_world (KeyStr "k") unlisted_then_failed in
  FinetuneJob._wait_for_completion 60 30 (demo_job, w)
  = (Raise (RuntimeError "微调任务失败"),
     (demo_job, logged [Sent req; Slept 30; Sent req] w)).
Proof.
  refine (proj1 (proj2 (wait_for_completion_ends_on_final_status demo_job
           (fresh_world (KeyStr "k") unlisted_then_failed) 60 30 2
           (job_record "ft-7" "failed") (VStr "failed") _ _ _ _ _ _ _)) _).
  - lia.
  - lia.
  - lia.
  - unfold sleep_max. lia.
  - intros i Hi. assert (i = 0)%nat as -> by lia.
    left. eexists. split; [is_listing|]. constructor; [is_other | constructor].
  - eexists. split; [is_listing|].
    exists [VDict (job_record "ft-6" "succeeded")], [], (VStr "ft-7").
    split; [reflexivity|]. split; [|split; reflexivity].
    constructor; [is_other | constructor].
  - reflexivity.
  - left. reflexivity.
Defined.



(** A status list that omits [svc-1]. *)
Lemma status_and_output_unknown_when_absent_witness :
  let req := request_of demo_client "GET" "/job/inference" [] in
  let w := fresh_world (KeyStr "k")
             [status_list [service_record "svc-2" "running" "http://10.0.0.2/v1/chat"]] in
  InferenceService.status (demo_service, w)
    = (Ok (VStr "unknown"), (demo_service, log (Sent req) w))
  /\ InferenceService.output (demo_service, w)
    = (Ok (VDict [("status", VStr "unknown")]), (demo_service, log (Sent req) w)).
Proof.
  apply (status_and_output_unknown_when_absent demo_service
           (fresh_world (KeyStr "k")
              [status_list [service_record "svc-2" "running" "http://10.0.0.2/v1/chat"]])
           [VDict (service_record "svc-2" "running" "http://10.0.0.2/v1/chat")]).
  - is_listing.
  - constructor; [is_other | constructor].
Defined.

(** [{"input": {}}] goes out as [{"input": {"input": {}}}], from [run] and
    from [run_sync]. *)
Lemma facade_wraps_by_truthiness_witness :
  let w := fresh_world (KeyStr "k") [] in
  let body := VDict [("input", VDict [("input", VDict [])])] in
  (exists outcome w',
      Endpoint.run demo_endpoint (VDict [("input", VDict [])]) w = (outcome, w')
      /\ trace w' = [Sent (request_of demo_client "POST" "/job/inference" [("json", body)])])
  /\ (exists outcome w' later,
      Endpoint.run_sync demo_endpoint (VDict [("input", VDict [])]) 86400 w = (outcome, w')
      /\ trace w'
         = Sent (request_of
                   {| SXWLClient.config :=
                        {| APIConfig.base_url := "https://api.runpod.ai/v2";
                           APIConfig.token := KeyStr "k";
                           APIConfig.headers :=
                             default_headers (KeyStr "k") "https://api.runpod.ai/v2" |} |}
                   "POST" "/job/inference" [("json", body)]) :: later).
Proof.
  pose proof (facade_wraps_by_truthiness demo_endpoint [("input", VDict [])] 86400
                (fresh_world (KeyStr "k") [])
                {| APIConfig.base_url := "https://api.runpod.ai/v2";
                   APIConfig.token := KeyStr "k";
                   APIConfig.headers :=
                     default_headers (KeyStr "k") "https://api.runpod.ai/v2" |}
                eq_refl) as (Hrun & Hsync & _).
  split; [exact Hrun | exact Hsync].
Defined.

(** ** The model, run on small inputs *)

Example loads_object :
  Json.loads ("{ " +:+ Json.quoted "finetune_id" +:+ ": " +:+ Json.quoted "ft-7"
              +:+ ", " +:+ Json.quoted "n" +:+ ": [1, -20, true, null] }")
  = Some (VDict [("finetune_id", VStr "ft-7");
                 ("n", VList [VInt 1; VInt (-20); VBool true; VNone])]).
Proof. vm_compute. reflexivity. Qed.

Example loads_refuses_broken_text :
  Json.loads "{not json" = None /\ Json.loads "" = None /\ Json.loads "[1, 2" = None.
Proof. vm_compute. repeat split. Qed.

Example utf8_valid_examples :
  utf8_valid [Byte.x6b; Byte.xc3; Byte.xa9] = true       (* "k", e acute      *)
  /\ utf8_valid [Byte.xff] = false
  /\ utf8_valid [Byte.xc0; Byte.x80] = false             (* overlong           *)
  /\ utf8_valid [Byte.xed; Byte.xa0; Byte.x80] = false   (* a surrogate        *)
  /\ utf8_valid [Byte.xe4; Byte.xb8] = false.            (* cut short          *)
Proof. vm_compute. repeat split. Qed.

Example bytes_repr_empty : bytes_repr [] = "b''".
Proof. reflexivity. Qed.

(** A key given as bytes is decoded; bytes that are not UTF-8 are the one
    thing [create_default] refuses. *)
Example create_default_decodes_bytes :
  fst (APIConfig.create_default (fresh_world (KeyBytes [Byte.x6b; Byte.x31]) []))
  = Ok {| APIConfig.base_url := "https://api.runpod.ai/v2";
          APIConfig.token := KeyStr "k1";
          APIConfig.headers := default_headers (KeyStr "k1") "https://api.runpod.ai/v2" |}
  /\ fst (APIConfig.create_default (fresh_world (KeyBytes [Byte.xff]) []))
     = Raise UnicodeDecodeError.
Proof. split; reflexivity. Qed.

(** [run] on a bare configuration: wrapped, posted, named and registered. *)
Example run_on_bare_config :
  let w := fresh_world (KeyStr "k") [ok_json (VDict [("service_name", VStr "svc-9")])] in
  let posted := request_of demo_client "POST" "/job/inference"
                  [("json", VDict [("input", VDict [("gpu_count", VInt 1)])])] in
  let outcome := Endpoint.run demo_endpoint (VDict [("gpu_count", VInt 1)]) w in
  fst outcome
  = Ok {| InferenceService.client := demo_client;
          InferenceService.service_name := VStr "svc-9";
          InferenceService.api_endpoint := VNone |}
  /\ trace (snd outcome) = [Sent posted]
  /\ inference_services (resources_to_cleanup (snd outcome)) = {[ HStr "svc-9" ]}.
Proof. vm_compute. repeat split. Qed.

(** An answer without [service_name]. *)
Example run_without_service_name :
  fst (Endpoint.run demo_endpoint (VDict [("gpu_count", VInt 1)])
         (fresh_world (KeyStr "k") [ok_json (VDict [("message", VStr "queued")])]))
  = Raise (KeyError "service_name").
Proof. reflexivity. Qed.

(** When a name is listed twice, the first record is the one that counts. *)
Example ready_scan_reads_first_record :
  InferenceService.ready_scan
    [VDict (service_record "svc-1" "pending" "");
     VDict (service_record "svc-1" "running" "http://10.0.0.1/v1/chat")]
    (demo_service, fresh_world (KeyStr "k") [])
  = (Ok Break, (demo_service, fresh_world (KeyStr "k") [])).
Proof. reflexivity. Qed.

(** Two polls allowed, two polls that do not list the service. *)
Example wait_for_ready_gives_up :
  let req := request_of demo_client "GET" "/job/inference" [] in
  let w := fresh_world (KeyStr "k") [status_list []; status_list []; status_list []] in
  InferenceService._wait_for_ready 2 30 (demo_service, w)
  = (Raise (TimeoutError "服务启动超时"),
     (demo_service, logged [Sent req; Slept 30; Sent req; Slept 30] w)).
Proof. reflexivity. Qed.

(** An interval beyond what [time.sleep] takes: [OverflowError] after the
    first poll, whatever the polls left; one more second than [sleep_max]
    is already too long, and a length that fits and is negative is refused
    as such. *)
Example wait_for_ready_interval_out_of_range :
  let req := request_of demo_client "GET" "/job/inference" [] in
  let w := fresh_world (KeyStr "k") pending_pending_running in
  InferenceService._wait_for_ready 60 (10 ^ 20) (demo_service, w)
  = (Raise OverflowError, (demo_service, logged [Sent req] w))
  /\ fst (sleep (sleep_max + 1) w) = Raise OverflowError
  /\ fst (sleep (- sleep_max - 1) w) = Raise OverflowError
  /\ fst (sleep (-1) w) = Raise (ValueError "sleep length must be non-negative")
  /\ sleep sleep_max w = (Ok tt, log (Slept sleep_max) w).
Proof. repeat split; reflexivity. Qed.

(** An error status on a poll is not retried: it leaves the loop at once. *)
Example wait_for_ready_propagates_http_error :
  fst (InferenceService._wait_for_ready 60 30
         (demo_service,
          fresh_world (KeyStr "k") [Answer {| status_code := 503; payload := None |}]))
  = Raise (HTTPError 503).
Proof. reflexivity. Qed.

(** The server is down: no models, no exception. *)
Example get_models_server_down :
  fst (SXWLClient.get_models demo_client (fresh_world (KeyStr "k") [])) = Ok (VList []).
Proof. reflexivity. Qed.

Example get_models_merges :
  fst (SXWLClient.get_models demo_client
         (fresh_world (KeyStr "k")
            [ok_json (VDict [("public_list", VList [VStr "gemma"]);
                             ("user_list", VList [VStr "mine"])])]))
  = Ok (VList [VStr "gemma"; VStr "mine"]).
Proof. reflexivity. Qed.

(** A deletion the server refuses leaves the name in the registry. *)
Example delete_refused_keeps_name :
  let w :=
    set_registry {| inference_services := {[ HStr "svc-1" ]}; finetune_jobs := ∅ |}
      (fresh_world (KeyStr "k") [Answer {| status_code := 500; payload := None |}]) in
  let outcome := SXWLClient.delete_inference_service demo_client (VStr "svc-1") w in
  fst outcome = Ok tt
  /\ inference_services (resources_to_cleanup (snd outcome)) = {[ HStr "svc-1" ]}.
Proof. vm_compute. repeat split. Qed.

Example delete_accepted_drops_name :
  let w :=
    set_registry {| inference_services := {[ HStr "svc-1" ]}; finetune_jobs := ∅ |}
      (fresh_world (KeyStr "k") [Answer {| status_code := 204; payload := None |}]) in
  let outcome := SXWLClient.delete_inference_service demo_client (VStr "svc-1") w in
  fst outcome = Ok tt
  /\ inference_services (resources_to_cleanup (snd outcome)) = ∅.
Proof. vm_compute. repeat split. Qed.

(** Python's [==] on the values of a listing. *)
Example py_eq_examples :
  py_eq (VStr "svc-1") (VStr "svc-1") = true
  /\ py_eq (VStr "svc-1") (VStr "svc-2") = false
  /\ py_eq (VBool true) (VInt 1) = true
  /\ py_eq VNone (VStr "") = false
  /\ py_eq (VDict [("a", VInt 1); ("b", VNone)]) (VDict [("b", VNone); ("a", VInt 1)]) = true
  /\ py_eq (VList [VInt 1]) (VList [VInt 1; VInt 2]) = false.
Proof. repeat split. Qed.

(** The job is never listed: the loop spends its two polls and gives up. *)
Example wait_for_completion_gives_up :
  let req := request_of demo_client "GET" "/job/training"
               [("params", VDict [("current", VInt 1); ("size", VInt 1000)])] in
  let w := fresh_world (KeyStr "k")
             [training_list []; training_list [job_record "ft-6" "failed"]] in
  FinetuneJob._wait_for_completion 2 30 (demo_job, w)
  = (Raise (TimeoutError "微调任务超时"),
     (demo_job, logged [Sent req; Slept 30; Sent req; Slept 30] w)).
Proof. reflexivity. Qed.

(** The job is running, then done: two requests and one sleep. *)
Example wait_for_completion_succeeds :
  let req := request_of demo_client "GET" "/job/training"
               [("params", VDict [("current", VInt 1); ("size", VInt 1000)])] in
  let w := fresh_world (KeyStr "k")
             [training_list [job_record "ft-7" "running"];
              training_list [job_record "ft-7" "succeeded"]] in
  FinetuneJob._wait_for_completion 60 30 (demo_job, w)
  = (Ok tt, (demo_job, logged [Sent req; Slept 30; Sent req] w)).
Proof. reflexivity. Qed.

(** No adapter is about the job: [ValueError], after the whole listing. *)
Example get_adapter_id_not_found :
  fst (FinetuneJob._get_adapter_id Json.loads
         (demo_job,
          fresh_world (KeyStr "k")
            [ok_json (VDict [("user_list",
                              VList [VDict (adapter_record "a-0" "{not json");
                                     VDict (adapter_record "a-1" (meta_about "ft-0"));
                                     VDict [("id", VStr "a-2")]])])]))
  = Raise (ValueError "未找到对应的适配器").
Proof. vm_compute. reflexivity. Qed.

(** [run_sync] from start to finish: the deployment, one poll that finds the
    service starting, one that finds it running. *)
Example run_sync_end_to_end :
  fst (Endpoint.run_sync demo_endpoint (VDict [("input", VDict [("gpu_count", VInt 1)])])
         86400
         (fresh_world (KeyStr "k")
            [ok_json (VDict [("service_name", VStr "svc-1")]);
             status_list [service_record "svc-1" "deploying" ""];
             status_list [service_record "svc-1" "running" "http://10.0.0.1/v1/chat"]]))
  = Ok (VDict [("service_name", VStr "svc-1");
               ("api_endpoint", VStr "http://10.0.0.1/v1/chat");
               ("status", VStr "running")]).
Proof. vm_compute. reflexivity. Qed.

(** Only [json.JSONDecodeError] is caught.  Metadata that parses, but not to
    an object, is not passed over: the [AttributeError] of [meta.get] leaves
    the scan, here with a match behind it. *)
Example get_adapter_id_metadata_not_an_object :
  fst (FinetuneJob._get_adapter_id Json.loads
         (demo_job,
          fresh_world (KeyStr "k")
            [ok_json (VDict [("user_list",
                              VList [VDict (adapter_record "a-0" "null");
                                     VDict (adapter_record "a-2" (meta_about "ft-7"))])])]))
  = Raise AttributeError.
Proof. vm_compute. reflexivity. Qed.

Example loads_empty_object : Json.loads "{}" = Some (VDict []).
Proof. vm_compute. reflexivity. Qed.

(** * Further properties of the client *)

(** ** [InferenceService]: what is listed, and when [chat] may be used *)

(** [status] and [output] only read: whatever the server does, the service
    object is the one they were called on. *)
Lemma status_keeps_self self w : fst (snd (InferenceService.status (self, w))) = self.
Proof.
  unfold InferenceService.status, bind, this, in_world, lift. cbn [fst snd].
  destruct (SXWLClient._make_request _ _ _ _ w) as [[resp | e] w1]; [|reflexivity].
  crush_try; reflexivity.
Qed.

Lemma output_keeps_self self w : fst (snd (InferenceService.output (self, w))) = self.
Proof.
  unfold InferenceService.output, bind, this, in_world, lift. cbn [fst snd].
  destruct (SXWLClient._make_request _ _ _ _ w) as [[resp | e] w1]; [|reflexivity].
  crush_try; reflexivity.
Qed.

Lemma deploy_keeps_api_endpoint cfg self w :
  InferenceService.api_endpoint (fst (snd (InferenceService.deploy cfg (self, w))))
  = InferenceService.api_endpoint self.
Proof.
  unfold InferenceService.deploy, bind, this, in_world, lift, assign. cbn [fst snd].
  destruct (SXWLClient._make_request _ _ _ _ w) as [[resp | e] w1]; [|reflexivity].
  unfold on_inference_services. cbn [fst snd].
  crush_try; reflexivity.
Qed.

Lemma chat_not_ready py_str messages s :
  truthy (InferenceService.api_endpoint (fst s)) = false ->
  InferenceService.chat py_str messages s = (Raise (RuntimeError "服务尚未就绪"), s).
Proof.
  intros H. unfold InferenceService.chat, bind, this. now rewrite H.
Qed.

(** X1.  [api_endpoint] is assigned by [_wait_for_ready] alone.  For a
    service without one, [chat] still raises [RuntimeError], sends nothing
    and changes nothing after [deploy], after [status] and after [output],
    whatever these returned: [output] reporting the chat URL does not make
    the service usable for [chat]. *)
Theorem chat_needs_wait_for_ready :
  forall (py_str : value -> string) (self : InferenceService.t) (w : World)
         (model_config messages : value),
    truthy (InferenceService.api_endpoint self) = false ->
    let not_ready s :=
      InferenceService.chat py_str messages s = (Raise (RuntimeError "服务尚未就绪"), s) in
    not_ready (snd (InferenceService.deploy model_config (self, w)))
    /\ not_ready (snd (InferenceService.status (self, w)))
    /\ not_ready (snd (InferenceService.output (self, w))).
Proof.
  intros py_str self w model_config messages Hnot not_ready. unfold not_ready.
  split; [|split]; apply chat_not_ready.
  - now rewrite deploy_keeps_api_endpoint.
  - now rewrite status_keeps_self.
  - now rewrite output_keeps_self.
Qed.

Lemma chat_needs_wait_for_ready_witness :
  let w := fresh_world (KeyStr "k")
             [status_list [service_record "svc-1" "running" "http://10.0.0.1/v1/chat"]] in
  InferenceService.chat (fun _ => "") (VList [])
    (snd (InferenceService.output (demo_service, w)))
  = (Raise (RuntimeError "服务尚未就绪"), snd (InferenceService.output (demo_service, w))).
Proof.
  refine (proj2 (proj2 (chat_needs_wait_for_ready (fun _ => "") demo_service
           (fresh_world (KeyStr "k")
              [status_list [service_record "svc-1" "running" "http://10.0.0.1/v1/chat"]])
           VNone (VList []) _))).
  reflexivity.
Defined.

(** The request [chat] sends to the service at [url]. *)
Lemma chat_run py_str self w messages url :
  InferenceService.api_endpoint self = VStr url ->
  url <> "" ->
  InferenceService.chat py_str messages (self, w)
  = let req := chat_request url messages in
    (match net w (sent_count w) req with
     | NoAnswer reason => Raise (ConnectionError reason)
     | Answer resp =>
         match raise_for_status resp with
         | Ok _ => json resp
         | Raise e => Raise e
         end
     end, (self, log (Sent req) w)).
Proof.
  intros Hurl Hne.
  unfold InferenceService.chat, bind, this, in_world, requests_request, lift.
  cbn [fst snd]. rewrite Hurl. cbn [truthy InferenceService.url_text].
  destruct (String.eqb url "") eqn:E; [apply String.eqb_eq in E; contradiction|].
  cbn [negb]. fold (chat_request url messages). cbn [fst snd].
  destruct (net w (sent_count w) (chat_request url messages)) as [reason | resp];
    [reflexivity|].
  destruct (raise_for_status resp); reflexivity.
Qed.

(** X2.  [chat] on a service whose [api_endpoint] is the URL [url] sends
    exactly one request: a POST to [url] itself (not to the platform's
    [base_url]), with the two headers [accept] and [Content-Type] and no
    [Authorization], carrying the model ["/mnt/models"] and the messages.  It
    returns the JSON of the answer; an error status or an unanswered request
    is raised to the caller, not swallowed.  The service object and the
    cleanup registry are left as they were. *)
Theorem chat_posts_to_the_service :
  forall (py_str : value -> string) (self : InferenceService.t) (w : World)
         (messages : value) (url : string),
    InferenceService.api_endpoint self = VStr url ->
    url <> "" ->
    let req :=
      {| req_method := "POST"; req_url := url;
         req_headers := [("accept", "application/json"); ("Content-Type", "application/json")];
         req_kwargs := [("json", VDict [("model", VStr "/mnt/models");
                                        ("messages", messages)])] |} in
    let reply := net w (sent_count w) req in
    (exists outcome,
        InferenceService.chat py_str messages (self, w) = (outcome, (self, log (Sent req) w)))
    /\ (forall body, delivers reply body ->
          InferenceService.chat py_str messages (self, w)
          = (Ok body, (self, log (Sent req) w)))
    /\ (forall resp, reply = Answer resp -> 400 <= status_code resp < 600 ->
          InferenceService.chat py_str messages (self, w)
          = (Raise (HTTPError (status_code resp)), (self, log (Sent req) w)))
    /\ (forall reason, reply = NoAnswer reason ->
          InferenceService.chat py_str messages (self, w)
          = (Raise (ConnectionError reason), (self, log (Sent req) w))).
Proof.
  intros py_str self w messages url Hurl Hne req reply.
  rewrite (chat_run py_str self w messages url Hurl Hne).
  change (chat_request url messages) with req. cbv zeta. fold reply.
  split; [|split; [|split]].
  - eexists. reflexivity.
  - intros body (code & -> & Hcode).
    rewrite raise_for_status_accepts by exact Hcode. reflexivity.
  - intros resp -> Hcode. now rewrite (raise_for_status_refuses _ Hcode).
  - intros reason ->. reflexivity.
Qed.

Lemma chat_posts_to_the_service_witness :
  let self := InferenceService.set_api_endpoint (VStr "http://10.0.0.1/v1/chat") demo_service in
  let w := fresh_world (KeyStr "k") [ok_json (VDict [("choices", VList [])])] in
  InferenceService.chat (fun _ => "") (VList []) (self, w)
  = (Ok (VDict [("choices", VList [])]),
     (self, log (Sent (chat_request "http://10.0.0.1/v1/chat" (VList []))) w)).
Proof.
  refine (proj1 (proj2 (chat_posts_to_the_service (fun _ => "")
           (InferenceService.set_api_endpoint (VStr "http://10.0.0.1/v1/chat") demo_service)
           (fresh_world (KeyStr "k") [ok_json (VDict [("choices", VList [])])])
           (VList []) "http://10.0.0.1/v1/chat" _ _)) (VDict [("choices", VList [])]) _).
  - reflexivity.
  - discriminate.
  - by_200.
Defined.

(** The run of [_wait_for_ready] that ends on the [k]-th poll. *)
Lemma wait_for_ready_run self w max_retries retry_interval k fields api :
  (1 <= k)%nat ->
  Z.of_nat k <= max_retries ->
  0 <= retry_interval <= sleep_max ->
  (forall i, (i < k - 1)%nat ->
             still_starting (InferenceService.service_name self)
               (net w (sent_count w + i)
                  (request_of (InferenceService.client self) "GET" "/job/inference" []))) ->
  reported "data" "service_name" (InferenceService.service_name self)
    (net w (sent_count w + (k - 1))
       (request_of (InferenceService.client self) "GET" "/job/inference" [])) fields ->
  assoc "status" fields = Some (VStr "running") ->
  assoc "api" fields = Some api ->
  InferenceService._wait_for_ready max_retries retry_interval (self, w)
  = (Ok tt,
     (InferenceService.set_api_endpoint api self,
      logged (rounds (request_of (InferenceService.client self) "GET" "/job/inference" [])
                retry_interval (k - 1)
              ++ [Sent (request_of (InferenceService.client self) "GET" "/job/inference" [])])
        w)).
Proof.
  intros Hk Hmax Hint Hbefore Hrun Hst Hapi.
  unfold InferenceService._wait_for_ready.
  replace (Z.to_nat max_retries)
    with ((k - 1) + S (Z.to_nat max_retries - k))%nat by lia.
  rewrite (ready_loop_skips self retry_interval Hint (k - 1) _ w Hbefore).
  rewrite (ready_loop_returns self retry_interval _ _ fields api).
  - now rewrite logged_logged.
  - now rewrite sent_count_rounds.
  - exact Hst.
  - exact Hapi.
Qed.

(** X3.  Waiting and then chatting: when the [k]-th poll is the first to
    report the service running, at the address [url], and the polls are
    apart by a length [time.sleep] takes (from 0 to [sleep_max]), the [chat]
    that follows goes to exactly that address, as the request after the [k]
    polls, and its JSON answer is what the caller gets; the service object
    is as before but for its [api_endpoint], which is [url]. *)
Theorem chat_after_wait_goes_to_reported_api :
  forall (py_str : value -> string) (self : InferenceService.t) (w : World)
         (max_retries retry_interval : Z) (k : nat) (fields : list (string * value))
         (url : string) (messages answer : value),
    let poll := request_of (InferenceService.client self) "GET" "/job/inference" [] in
    let name := InferenceService.service_name self in
    (1 <= k)%nat ->
    Z.of_nat k <= max_retries ->
    0 <= retry_interval ->
    retry_interval <= sleep_max ->
    (forall i, (i < k - 1)%nat -> still_starting name (net w (sent_count w + i) poll)) ->
    reported "data" "service_name" name (net w (sent_count w + (k - 1)) poll) fields ->
    assoc "status" fields = Some (VStr "running") ->
    assoc "api" fields = Some (VStr url) ->
    url <> "" ->
    delivers (net w (sent_count w + k) (chat_request url messages)) answer ->
    (InferenceService._wait_for_ready max_retries retry_interval ;;;
     InferenceService.chat py_str messages) (self, w)
    = (Ok answer,
       ({| InferenceService.client := InferenceService.client self;
           InferenceService.service_name := name;
           InferenceService.api_endpoint := VStr url |},
        logged (rounds poll retry_interval (k - 1)
                ++ [Sent poll; Sent (chat_request url messages)]) w)).
Proof.
  intros py_str self w max_retries retry_interval k fields url messages answer poll name
    Hk Hmax Hint Hfit Hbefore Hrun Hst Hapi Hurl Hans.
  rewrite (bind_ok _ _ _ _ _
             (wait_for_ready_run self w max_retries retry_interval k fields (VStr url)
                Hk Hmax (conj Hint Hfit) Hbefore Hrun Hst Hapi)).
  fold poll.
  rewrite (chat_run py_str (InferenceService.set_api_endpoint (VStr url) self) _
             messages url eq_refl Hurl). cbv zeta.
  assert (Hcount : sent_count (logged (rounds poll retry_interval (k - 1) ++ [Sent poll]) w)
                   = (sent_count w + k)%nat).
  { rewrite <- logged_logged, sent_count_logged, sent_count_rounds.
    cbn [List.filter is_sent length]. lia. }
  rewrite Hcount. cbn [net logged].
  destruct Hans as (code & -> & Hcode).
  rewrite raise_for_status_accepts by exact Hcode.
  unfold log. rewrite logged_logged, <- app_assoc. reflexivity.
Qed.

Lemma chat_after_wait_goes_to_reported_api_witness :
  let poll := request_of demo_client "GET" "/job/inference" [] in
  let w := fresh_world (KeyStr "k")
             [status_list [service_record "svc-1" "pending" ""];
              status_list [service_record "svc-1" "running" "http://10.0.0.1/v1/chat"];
              ok_json (VDict [("choices", VList [])])] in
  (InferenceService._wait_for_ready 60 30 ;;;
   InferenceService.chat (fun _ => "") (VList [])) (demo_service, w)
  = (Ok (VDict [("choices", VList [])]),
     ({| InferenceService.client := demo_client;
         InferenceService.service_name := VStr "svc-1";
         InferenceService.api_endpoint := VStr "http://10.0.0.1/v1/chat" |},
      logged [Sent poll; Slept 30; Sent poll;
              Sent (chat_request "http://10.0.0.1/v1/chat" (VList []))] w)).
Proof.
  apply (chat_after_wait_goes_to_reported_api (fun _ => "") demo_service
           (fresh_world (KeyStr "k")
              [status_list [service_record "svc-1" "pending" ""];
               status_list [service_record "svc-1" "running" "http://10.0.0.1/v1/chat"];
               ok_json (VDict [("choices", VList [])])])
           60 30 2 (service_record "svc-1" "running" "http://10.0.0.1/v1/chat")
           "http://10.0.0.1/v1/chat" (VList []) (VDict [("choices", VList [])])).
  - lia.
  - lia.
  - lia.
  - unfold sleep_max. lia.
  - intros i Hi. assert (i = 0)%nat as -> by lia.
    right. exists (service_record "svc-1" "pending" ""), (VStr "pending").
    split; [|split; [reflexivity | discriminate]].
    eexists. split; [is_listing|].
    exists [], [], (VStr "svc-1"); repeat split; constructor.
  - eexists. split; [is_listing|].
    exists [], [], (VStr "svc-1"); repeat split; constructor.
  - reflexivity.
  - reflexivity.
  - discriminate.
  - by_200.
Defined.

Lemma status_scan_prefix self pre rest :
  absent "service_name" (InferenceService.service_name self) pre ->
  InferenceService.status_scan self (pre ++ rest) = InferenceService.status_scan self rest.
Proof.
  induction 1 as [| item items (fields & name & -> & Hname & Hne) _ IH]; [reflexivity|].
  cbn [app InferenceService.status_scan getitem]. now rewrite Hname, Hne.
Qed.

Lemma output_scan_prefix self pre rest :
  absent "service_name" (InferenceService.service_name self) pre ->
  InferenceService.output_scan self (pre ++ rest) = InferenceService.output_scan self rest.
Proof.
  induction 1 as [| item items (fields & name & -> & Hname & Hne) _ IH]; [reflexivity|].
  cbn [app InferenceService.output_scan getitem]. now rewrite Hname, Hne.
Qed.

(** X4.  For a service that is listed, [status()] returns the status of its
    record as the server wrote it.  [output()] returns [{'chat_url': api}]
    when that status is ["running"] and [{'status': status}] otherwise; a
    running record without an [api] field makes it raise [KeyError].  Each
    call is one GET and leaves the service object as it was: in particular
    [output()] does not record the URL it reports. *)
Theorem status_and_output_of_listed_service :
  forall (self : InferenceService.t) (w : World) (fields : list (string * value))
         (st : value),
    let req := request_of (InferenceService.client self) "GET" "/job/inference" [] in
    let after := (self, log (Sent req) w) in
    reported "data" "service_name" (InferenceService.service_name self)
      (net w (sent_count w) req) fields ->
    assoc "status" fields = Some st ->
    InferenceService.status (self, w) = (Ok st, after)
    /\ (st <> VStr "running" ->
        InferenceService.output (self, w) = (Ok (VDict [("status", st)]), after))
    /\ (forall api, st = VStr "running" -> assoc "api" fields = Some api ->
        InferenceService.output (self, w) = (Ok (VDict [("chat_url", api)]), after))
    /\ (st = VStr "running" -> assoc "api" fields = None ->
        InferenceService.output (self, w) = (Raise (KeyError "api"), after)).
Proof.
  intros self w fields st req after (items & Hlist & Hrec) Hst.
  destruct (lists_delivers _ _ _ Hlist) as (body & Hd & Hget).
  destruct (make_request_delivers _ _ _ _ _ _ Hd) as (resp & Hreq & Hjson).
  destruct Hrec as (pre & post & nm & -> & Hpre & Hnm & Heq).
  assert (Hout : InferenceService.output (self, w)
                 = (InferenceService.output_scan self (VDict fields :: post), after)).
  { unfold InferenceService.output, bind, this, in_world, lift. cbn [fst snd].
    rewrite Hreq, Hjson, Hget. cbn [iter].
    now rewrite (output_scan_prefix _ _ _ Hpre). }
  split; [|split; [|split]].
  - unfold InferenceService.status, bind, this, in_world, lift. cbn [fst snd].
    rewrite Hreq, Hjson, Hget. cbn [iter].
    rewrite (status_scan_prefix _ _ _ Hpre).
    cbn [InferenceService.status_scan getitem]. now rewrite Hnm, Heq, Hst.
  - intros Hne. rewrite Hout.
    cbn [InferenceService.output_scan getitem]. rewrite Hnm, Heq, Hst.
    now rewrite (py_eq_str_false _ _ Hne).
  - intros api -> Hapi. rewrite Hout.
    cbn [InferenceService.output_scan getitem]. rewrite Hnm, Heq, Hst.
    cbn [py_eq]. rewrite String.eqb_refl. now rewrite Hapi.
  - intros -> Hapi. rewrite Hout.
    cbn [InferenceService.output_scan getitem]. rewrite Hnm, Heq, Hst.
    cbn [py_eq]. rewrite String.eqb_refl. now rewrite Hapi.
Qed.

Lemma status_and_output_of_listed_service_witness :
  let req := request_of demo_client "GET" "/job/inference" [] in
  let w := fresh_world (KeyStr "k")
             [status_list [service_record "svc-2" "running" "http://10.0.0.2/v1/chat";
                           service_record "svc-1" "deploying" ""]] in
  InferenceService.status (demo_service, w)
  = (Ok (VStr "deploying"), (demo_service, log (Sent req) w)).
Proof.
  refine (proj1 (status_and_output_of_listed_service demo_service
           (fresh_world (KeyStr "k")
              [status_list [service_record "svc-2" "running" "http://10.0.0.2/v1/chat";
                            service_record "svc-1" "deploying" ""]])
           (service_record "svc-1" "deploying" "") (VStr "deploying") _ _)).
  - eexists. split; [is_listing|].
    exists [VDict (service_record "svc-2" "running" "http://10.0.0.2/v1/chat")], [],
      (VStr "svc-1").
    split; [reflexivity|]. split; [|split; reflexivity].
    constructor; [is_other | constructor].
  - reflexivity.
Defined.

(** ** The polling loops against an arbitrary server *)

(** The scan of one answer assigns [api_endpoint] when it returns, and
    nothing otherwise; it never touches the world. *)
Lemma ready_scan_cases items : forall self w,
  exists out self',
    InferenceService.ready_scan items (self, w) = (out, (self', w))
    /\ ((exists api, out = Ok Return /\ self' = InferenceService.set_api_endpoint api self)
        \/ (out <> Ok Return /\ self' = self)).
Proof.
  induction items as [| item rest IH]; intros self w.
  - exists (Ok Next), self. split; [reflexivity|]. right. split; [discriminate | reflexivity].
  - cbn [InferenceService.ready_scan]. unfold bind at 1, this at 1. cbn [fst].
    unfold bind at 1, lift at 1.
    destruct (getitem item "service_name") as [nm | e].
    + destruct (py_eq nm (InferenceService.service_name self)); [|apply IH].
      unfold bind at 1, lift at 1.
      destruct (getitem item "status") as [st | e].
      * destruct (py_eq st (VStr "running")).
        -- unfold bind at 1, lift at 1.
           destruct (getitem item "api") as [api | e].
           ++ exists (Ok Return), (InferenceService.set_api_endpoint api self).
              split; [reflexivity|]. left. now exists api.
           ++ exists (Raise e), self. split; [reflexivity|].
              right. split; [discriminate | reflexivity].
        -- exists (Ok Break), self. split; [reflexivity|].
           right. split; [discriminate | reflexivity].
      * exists (Raise e), self. split; [reflexivity|].
        right. split; [discriminate | reflexivity].
    + exists (Raise e), self. split; [reflexivity|].
      right. split; [discriminate | reflexivity].
Qed.

(** One round of [_wait_for_ready], whatever the server does: it ends the
    loop after its request, or it goes on after a request and a sleep. *)
Lemma ready_loop_round_cases n interval self w :
  let req := request_of (InferenceService.client self) "GET" "/job/inference" [] in
  (exists outcome self',
      InferenceService.ready_loop (S n) interval (self, w)
      = (outcome, (self', logged [Sent req] w))
      /\ ((exists api, outcome = Ok tt /\ self' = InferenceService.set_api_endpoint api self)
          \/ (exists e, outcome = Raise e /\ self' = self)))
  \/ InferenceService.ready_loop (S n) interval (self, w)
     = InferenceService.ready_loop n interval (self, logged [Sent req; Slept interval] w).
Proof.
  intros req.
  remember (InferenceService.ready_loop (S n) interval (self, w)) as run eqn:Erun.
  cbn [InferenceService.ready_loop] in Erun. unfold bind at 1, this at 1 in Erun.
  cbn [fst] in Erun. unfold bind at 1, in_world at 1 in Erun. cbn [fst snd] in Erun.
  pose proof (make_request_logs (InferenceService.client self) "GET" "/job/inference" [] w)
    as Hlog. fold req in Hlog.
  assert (Hraise : forall e, run = (Raise e, (self, logged [Sent req] w)) ->
            exists outcome self',
              run = (outcome, (self', logged [Sent req] w))
              /\ ((exists api, outcome = Ok tt
                               /\ self' = InferenceService.set_api_endpoint api self)
                  \/ (exists e, outcome = Raise e /\ self' = self))).
  { intros e ->. exists (Raise e), self. split; [reflexivity | right; now exists e]. }
  destruct (SXWLClient._make_request _ _ _ _ w) as [[resp | e] w1];
    cbn [snd] in Hlog; subst w1; change (log (Sent req) w) with (logged [Sent req] w) in Erun;
    [|left; now apply (Hraise e)].
  unfold bind at 1, lift at 1 in Erun.
  destruct (json resp) as [body | e]; [|left; now apply (Hraise e)].
  unfold bind at 1, lift at 1 in Erun.
  destruct (dict_get body "data" (VList [])) as [data | e]; [|left; now apply (Hraise e)].
  unfold bind at 1, lift at 1 in Erun.
  destruct (iter data) as [items | e]; [|left; now apply (Hraise e)].
  unfold bind at 1 in Erun.
  destruct (ready_scan_cases items self (logged [Sent req] w))
    as (out & self' & Hscan & Hcases).
  rewrite Hscan in Erun.
  destruct Hcases as [(api & -> & ->) | (Hout & ->)].
  - left. exists (Ok tt), (InferenceService.set_api_endpoint api self).
    split; [exact Erun|]. left. now exists api.
  - assert (Hgo :
              (exists e,
                  (in_world (sleep interval) ;;; InferenceService.ready_loop n interval)
                    (self, logged [Sent req] w)
                  = (Raise e, (self, logged [Sent req] w)))
              \/ (in_world (sleep interval) ;;; InferenceService.ready_loop n interval)
                   (self, logged [Sent req] w)
                 = InferenceService.ready_loop n interval
                     (self, logged [Sent req; Slept interval] w)).
    { unfold bind, in_world. cbn [fst snd].
      destruct (sleep_cases interval (logged [Sent req] w)) as [(e & ->) | ->].
      - left. eexists. reflexivity.
      - right. unfold log. now rewrite logged_logged. }
    destruct out as [[| |] | e].
    + destruct Hgo as [(e & Hgo) | Hgo]; rewrite Hgo in Erun;
        [left; now apply (Hraise e) | right; exact Erun].
    + destruct Hgo as [(e & Hgo) | Hgo]; rewrite Hgo in Erun;
        [left; now apply (Hraise e) | right; exact Erun].
    + now destruct Hout.
    + left. now apply (Hraise e).
Qed.

Lemma rounds_sent_count req interval n :
  length (List.filter is_sent (rounds req interval n)) = n.
Proof.
  induction n as [| n IH]; [reflexivity|].
  cbn [rounds List.filter is_sent length]. now rewrite IH.
Qed.

Lemma ready_loop_shape interval self m : forall w,
  let req := request_of (InferenceService.client self) "GET" "/job/inference" [] in
  exists n outcome self' later,
    InferenceService.ready_loop m interval (self, w) = (outcome, (self', logged later w))
    /\ ((later = rounds req interval n /\ n = m
         /\ outcome = Raise (TimeoutError "服务启动超时") /\ self' = self)
        \/ (later = rounds req interval n ++ [Sent req] /\ (n < m)%nat
            /\ ((exists api, outcome = Ok tt
                             /\ self' = InferenceService.set_api_endpoint api self)
                \/ (exists e, outcome = Raise e /\ self' = self)))).
Proof.
  induction m as [| m IH]; intros w; cbv zeta;
    pose (req := request_of (InferenceService.client self) "GET" "/job/inference" []).
  - exists O, (Raise (TimeoutError "服务启动超时")), self, [].
    split; [cbn; now rewrite logged_nil|]. left. repeat split.
  - destruct (ready_loop_round_cases m interval self w)
      as [(outcome & self' & Hrun & Hcases) | Hgo].
    + exists O, outcome, self', [Sent req]. split; [exact Hrun|].
      right. split; [reflexivity|]. split; [lia | exact Hcases].
    + destruct (IH (logged [Sent req; Slept interval] w))
        as (n & outcome & self' & later & Hrun & Hcases).
      exists (S n), outcome, self', ([Sent req; Slept interval] ++ later).
      split; [etransitivity; [exact Hgo|]; etransitivity; [exact Hrun|];
              now rewrite logged_logged|].
      destruct Hcases as [(-> & -> & -> & ->) | (-> & Hn & Hout)].
      * left. repeat split.
      * right. split; [reflexivity|]. split; [lia | exact Hout].
Qed.

(** X5.  Every run of [_wait_for_ready], against any server and with any
    arguments, has one of three shapes.  It times out after exactly
    [max_retries] rounds of request and sleep; or it returns right after the
    request of some earlier round, with [api_endpoint] newly assigned; or it
    raises right after the request of some earlier round.  So it never sends
    more than [max_retries] requests, never sends anything but the GET of
    [/job/inference], never touches the cleanup registry, and leaves the
    service object as it was unless it returns. *)
Theorem wait_for_ready_run_shape :
  forall (self : InferenceService.t) (w : World) (max_retries retry_interval : Z),
    let req := request_of (InferenceService.client self) "GET" "/job/inference" [] in
    exists (n : nat) outcome self' later,
      InferenceService._wait_for_ready max_retries retry_interval (self, w)
      = (outcome, (self', logged later w))
      /\ ((later = rounds req retry_interval n /\ n = Z.to_nat max_retries
           /\ outcome = Raise (TimeoutError "服务启动超时") /\ self' = self)
          \/ (later = rounds req retry_interval n ++ [Sent req]
              /\ (n < Z.to_nat max_retries)%nat
              /\ ((exists api,
                      outcome = Ok tt
                      /\ self' = {| InferenceService.client := InferenceService.client self;
                                    InferenceService.service_name :=
                                      InferenceService.service_name self;
                                    InferenceService.api_endpoint := api |})
                  \/ (exists e, outcome = Raise e /\ self' = self))))
      /\ (sent_count (logged later w) <= sent_count w + Z.to_nat max_retries)%nat.
Proof.
  intros self w max_retries retry_interval req.
  destruct (ready_loop_shape retry_interval self (Z.to_nat max_retries) w)
    as (n & outcome & self' & later & Hrun & Hcases).
  exists n, outcome, self', later. split; [exact Hrun|]. split; [exact Hcases|].
  rewrite sent_count_logged.
  destruct Hcases as [(-> & -> & _) | (-> & Hn & _)].
  - rewrite rounds_sent_count. lia.
  - rewrite List.filter_app, List.length_app, rounds_sent_count.
    cbn [List.filter is_sent length]. lia.
Qed.

(** One round of [_wait_for_completion], whatever the server does.  The job
    object is never assigned to. *)
Lemma completion_loop_round_cases n interval self w :
  let req := request_of (FinetuneJob.client self) "GET" "/job/training"
               [("params", VDict [("current", VInt 1); ("size", VInt 1000)])] in
  (exists outcome,
      FinetuneJob.completion_loop (S n) interval (self, w)
      = (outcome, (self, logged [Sent req] w)))
  \/ FinetuneJob.completion_loop (S n) interval (self, w)
     = FinetuneJob.completion_loop n interval (self, logged [Sent req; Slept interval] w).
Proof.
  intros req.
  remember (FinetuneJob.completion_loop (S n) interval (self, w)) as run eqn:Erun.
  cbn [FinetuneJob.completion_loop] in Erun. unfold bind at 1, this at 1 in Erun.
  cbn [fst] in Erun. unfold bind at 1, in_world at 1 in Erun. cbn [fst snd] in Erun.
  pose proof (make_request_logs (FinetuneJob.client self) "GET" "/job/training"
                [("params", VDict [("current", VInt 1); ("size", VInt 1000)])] w)
    as Hlog. fold req in Hlog.
  destruct (SXWLClient._make_request _ _ _ _ w) as [[resp | e] w1];
    cbn [snd] in Hlog; subst w1; change (log (Sent req) w) with (logged [Sent req] w) in Erun;
    [|left; now exists (Raise e)].
  unfold bind at 1, lift at 1 in Erun.
  destruct (json resp) as [body | e]; [|left; now exists (Raise e)].
  unfold bind at 1, lift at 1 in Erun.
  unfold bind at 1, lift at 1 in Erun.
  destruct (dict_get body "content" (VList [])) as [content | e];
    [|left; now exists (Raise e)].
  unfold bind at 1, lift at 1 in Erun.
  destruct (iter content) as [jobs | e]; [|left; now exists (Raise e)].
  unfold bind at 1, lift at 1 in Erun.
  assert (Hgo :
            (exists e,
                (in_world (sleep interval) ;;; FinetuneJob.completion_loop n interval)
                  (self, logged [Sent req] w)
                = (Raise e, (self, logged [Sent req] w)))
            \/ (in_world (sleep interval) ;;; FinetuneJob.completion_loop n interval)
                 (self, logged [Sent req] w)
               = FinetuneJob.completion_loop n interval
                   (self, logged [Sent req; Slept interval] w)).
  { unfold bind, in_world. cbn [fst snd].
    destruct (sleep_cases interval (logged [Sent req] w)) as [(e & ->) | ->].
    - left. eexists. reflexivity.
    - right. unfold log. now rewrite logged_logged. }
  destruct (FinetuneJob.completion_scan self jobs) as [[| |] | e].
  - destruct Hgo as [(e & Hgo) | Hgo]; rewrite Hgo in Erun;
      [left; now exists (Raise e) | right; exact Erun].
  - destruct Hgo as [(e & Hgo) | Hgo]; rewrite Hgo in Erun;
      [left; now exists (Raise e) | right; exact Erun].
  - left. now exists (Ok tt).
  - left. now exists (Raise e).
Qed.

Lemma completion_loop_shape interval self m : forall w,
  exists n outcome later,
    FinetuneJob.completion_loop m interval (self, w) = (outcome, (self, logged later w))
    /\ ((later = rounds (request_of (FinetuneJob.client self) "GET" "/job/training"
                           [("params", VDict [("current", VInt 1); ("size", VInt 1000)])])
                   interval n
         /\ n = m /\ outcome = Raise (TimeoutError "微调任务超时"))
        \/ (later = rounds (request_of (FinetuneJob.client self) "GET" "/job/training"
                              [("params", VDict [("current", VInt 1); ("size", VInt 1000)])])
                      interval n
                    ++ [Sent (request_of (FinetuneJob.client self) "GET" "/job/training"
                                [("params", VDict [("current", VInt 1);
                                                   ("size", VInt 1000)])])]
            /\ (n < m)%nat)).
Proof.
  induction m as [| m IH]; intros w.
  - exists O, (Raise (TimeoutError "微调任务超时")), [].
    split; [cbn; now rewrite logged_nil|]. left. repeat split.
  - destruct (completion_loop_round_cases m interval self w) as [(outcome & Hrun) | Hgo].
    + exists O, outcome, [Sent (request_of (FinetuneJob.client self) "GET" "/job/training"
                                  [("params", VDict [("current", VInt 1);
                                                     ("size", VInt 1000)])])].
      split; [exact Hrun|]. right. split; [reflexivity | lia].
    + destruct (IH (logged [Sent (request_of (FinetuneJob.client self) "GET" "/job/training"
                                    [("params", VDict [("current", VInt 1);
                                                       ("size", VInt 1000)])]);
                            Slept interval] w))
        as (n & outcome & later & Hrun & Hcases).
      exists (S n), outcome,
        ([Sent (request_of (FinetuneJob.client self) "GET" "/job/training"
                  [("params", VDict [("current", VInt 1); ("size", VInt 1000)])]);
          Slept interval] ++ later).
      split; [etransitivity; [exact Hgo|]; etransitivity; [exact Hrun|];
              now rewrite logged_logged|].
      destruct Hcases as [(-> & -> & ->) | (-> & Hn)].
      * left. repeat split.
      * right. split; [reflexivity | lia].
Qed.

(** X6.  Every run of [_wait_for_completion], against any server and with
    any arguments: either it times out after exactly [max_retries] rounds of
    request and sleep, or it ends (returning or raising) right after the
    request of an earlier round.  It never sends more than [max_retries]
    requests, each one the GET of [/job/training] for page 1 of size 1000,
    it never touches the cleanup registry, and it never assigns to the job
    object: [adapter_id] is not its business. *)
Theorem wait_for_completion_run_shape :
  forall (self : FinetuneJob.t) (w : World) (max_retries retry_interval : Z),
    let req := request_of (FinetuneJob.client self) "GET" "/job/training"
                 [("params", VDict [("current", VInt 1); ("size", VInt 1000)])] in
    exists (n : nat) outcome later,
      FinetuneJob._wait_for_completion max_retries retry_interval (self, w)
      = (outcome, (self, logged later w))
      /\ ((later = rounds req retry_interval n /\ n = Z.to_nat max_retries
           /\ outcome = Raise (TimeoutError "微调任务超时"))
          \/ (later = rounds req retry_interval n ++ [Sent req]
              /\ (n < Z.to_nat max_retries)%nat))
      /\ (sent_count (logged later w) <= sent_count w + Z.to_nat max_retries)%nat.
Proof.
  intros self w max_retries retry_interval req.
  destruct (completion_loop_shape retry_interval self (Z.to_nat max_retries) w)
    as (n & outcome & later & Hrun & Hcases).
  exists n, outcome, later. split; [exact Hrun|]. split; [exact Hcases|].
  rewrite sent_count_logged.
  destruct Hcases as [(-> & -> & _) | (-> & Hn)].
  - rewrite rounds_sent_count. lia.
  - rewrite List.filter_app, List.length_app, rounds_sent_count.
    cbn [List.filter is_sent length]. lia.
Qed.

(** A poll that the transport refuses ends either loop with the transport's
    exception. *)
Lemma ready_loop_refused n interval self w e :
  SXWLClient._make_request (InferenceService.client self) "GET" "/job/inference" [] w
  = (Raise e, log (Sent (request_of (InferenceService.client self)
                           "GET" "/job/inference" [])) w) ->
  InferenceService.ready_loop (S n) interval (self, w)
  = (Raise e, (self, logged [Sent (request_of (InferenceService.client self)
                                     "GET" "/job/inference" [])] w)).
Proof.
  intros Hreq. cbn [InferenceService.ready_loop].
  unfold bind at 1, this at 1. cbn [fst].
  unfold bind at 1. now rewrite (in_world_eq _ _ _ _ _ Hreq).
Qed.

Lemma completion_loop_refused n interval self w e :
  SXWLClient._make_request (FinetuneJob.client self) "GET" "/job/training"
    [("params", VDict [("current", VInt 1); ("size", VInt 1000)])] w
  = (Raise e, log (Sent (request_of (FinetuneJob.client self) "GET" "/job/training"
                           [("params", VDict [("current", VInt 1); ("size", VInt 1000)])]))
                w) ->
  FinetuneJob.completion_loop (S n) interval (self, w)
  = (Raise e, (self, logged [Sent (request_of (FinetuneJob.client self) "GET" "/job/training"
                                     [("params", VDict [("current", VInt 1);
                                                        ("size", VInt 1000)])])] w)).
Proof.
  intros Hreq. cbn [FinetuneJob.completion_loop].
  unfold bind at 1, this at 1. cbn [fst].
  unfold bind at 1. now rewrite (in_world_eq _ _ _ _ _ Hreq).
Qed.

Lemma make_request_http_error c method endpoint kwargs w resp :
  net w (sent_count w) (request_of c method endpoint kwargs) = Answer resp ->
  400 <= status_code resp < 600 ->
  SXWLClient._make_request c method endpoint kwargs w
  = (Raise (HTTPError (status_code resp)), log (Sent (request_of c method endpoint kwargs)) w).
Proof.
  intros Hr Hcode. rewrite (make_request_answer _ _ _ _ _ _ Hr).
  now rewrite (raise_for_status_refuses _ Hcode).
Qed.

(** X7.  The loops do not retry a poll that fails.  When the polls before
    it only found the service starting, and were apart by a length
    [time.sleep] takes (from 0 to [sleep_max]), a poll of [_wait_for_ready]
    that is
    answered with an error status (400 to 599) ends the loop there with
    [HTTPError], and one that gets no answer ends it with the connection
    error: no sleep follows, the remaining attempts are not used, and
    [api_endpoint] is not assigned. *)
Theorem wait_for_ready_stops_at_failed_poll :
  forall (self : InferenceService.t) (w : World) (max_retries retry_interval : Z) (j : nat),
    let req := request_of (InferenceService.client self) "GET" "/job/inference" [] in
    let w' := logged (rounds req retry_interval j ++ [Sent req]) w in
    (j < Z.to_nat max_retries)%nat ->
    0 <= retry_interval ->
    retry_interval <= sleep_max ->
    (forall i, (i < j)%nat ->
               still_starting (InferenceService.service_name self)
                 (net w (sent_count w + i) req)) ->
    (forall resp,
        net w (sent_count w + j) req = Answer resp -> 400 <= status_code resp < 600 ->
        InferenceService._wait_for_ready max_retries retry_interval (self, w)
        = (Raise (HTTPError (status_code resp)), (self, w')))
    /\ (forall reason,
        net w (sent_count w + j) req = NoAnswer reason ->
        InferenceService._wait_for_ready max_retries retry_interval (self, w)
        = (Raise (ConnectionError reason), (self, w'))).
Proof.
  intros self w max_retries retry_interval j req w' Hj Hint Hfit Hbefore.
  assert (Hskip :
            InferenceService._wait_for_ready max_retries retry_interval (self, w)
            = InferenceService.ready_loop (S (Z.to_nat max_retries - S j)) retry_interval
                (self, logged (rounds req retry_interval j) w)).
  { unfold InferenceService._wait_for_ready.
    replace (Z.to_nat max_retries) with (j + S (Z.to_nat max_retries - S j))%nat at 1 by lia.
    exact (ready_loop_skips self retry_interval (conj Hint Hfit) j _ w Hbefore). }
  rewrite Hskip. split.
  - intros resp Hr Hcode.
    rewrite (ready_loop_refused _ _ _ _ (HTTPError (status_code resp))).
    + unfold w'. now rewrite logged_logged.
    + apply make_request_http_error; [|exact Hcode].
      now rewrite sent_count_rounds.
  - intros reason Hr.
    rewrite (ready_loop_refused _ _ _ _ (ConnectionError reason)).
    + unfold w'. now rewrite logged_logged.
    + apply make_request_no_answer. now rewrite sent_count_rounds.
Qed.

Lemma wait_for_ready_stops_at_failed_poll_witness :
  let req := request_of demo_client "GET" "/job/inference" [] in
  let w := fresh_world (KeyStr "k")
             [status_list [service_record "svc-1" "pending" ""];
              Answer {| status_code := 502; payload := None |};
              status_list [service_record "svc-1" "running" "http://10.0.0.1/v1/chat"]] in
  InferenceService._wait_for_ready 60 30 (demo_service, w)
  = (Raise (HTTPError 502), (demo_service, logged [Sent req; Slept 30; Sent req] w)).
Proof.
  refine (proj1 (wait_for_ready_stops_at_failed_poll demo_service
           (fresh_world (KeyStr "k")
              [status_list [service_record "svc-1" "pending" ""];
               Answer {| status_code := 502; payload := None |};
               status_list [service_record "svc-1" "running" "http://10.0.0.1/v1/chat"]])
           60 30 1 _ _ _ _) {| status_code := 502; payload := None |} _ _).
  - vm_compute. lia.
  - lia.
  - unfold sleep_max. lia.
  - intros i Hi. assert (i = 0)%nat as -> by lia.
    right. exists (service_record "svc-1" "pending" ""), (VStr "pending").
    split; [|split; [reflexivity | discriminate]].
    eexists. split; [is_listing|].
    exists [], [], (VStr "svc-1"); repeat split; constructor.
  - reflexivity.
  - cbn. lia.
Defined.

(** X8.  The same for [_wait_for_completion], the polls before being apart
    by a length [time.sleep] takes (from 0 to [sleep_max]): a poll answered
    with an error status, or not answered, ends the loop at once with that
    error, and the adapter listing is never asked for. *)
Theorem wait_for_completion_stops_at_failed_poll :
  forall (self : FinetuneJob.t) (w : World) (max_retries retry_interval : Z) (j : nat),
    let req := request_of (FinetuneJob.client self) "GET" "/job/training"
                 [("params", VDict [("current", VInt 1); ("size", VInt 1000)])] in
    let w' := logged (rounds req retry_interval j ++ [Sent req]) w in
    (j < Z.to_nat max_retries)%nat ->
    0 <= retry_interval ->
    retry_interval <= sleep_max ->
    (forall i, (i < j)%nat ->
               still_training (FinetuneJob.job_id self) (net w (sent_count w + i) req)) ->
    (forall resp,
        net w (sent_count w + j) req = Answer resp -> 400 <= status_code resp < 600 ->
        FinetuneJob._wait_for_completion max_retries retry_interval (self, w)
        = (Raise (HTTPError (status_code resp)), (self, w')))
    /\ (forall reason,
        net w (sent_count w + j) req = NoAnswer reason ->
        FinetuneJob._wait_for_completion max_retries retry_interval (self, w)
        = (Raise (ConnectionError reason), (self, w'))).
Proof.
  intros self w max_retries retry_interval j req w' Hj Hint Hfit Hbefore.
  assert (Hskip :
            FinetuneJob._wait_for_completion max_retries retry_interval (self, w)
            = FinetuneJob.completion_loop (S (Z.to_nat max_retries - S j)) retry_interval
                (self, logged (rounds req retry_interval j) w)).
  { unfold FinetuneJob._wait_for_completion.
    replace (Z.to_nat max_retries) with (j + S (Z.to_nat max_retries - S j))%nat at 1 by lia.
    exact (completion_loop_skips self retry_interval (conj Hint Hfit) j _ w Hbefore). }
  rewrite Hskip. split.
  - intros resp Hr Hcode.
    rewrite (completion_loop_refused _ _ _ _ (HTTPError (status_code resp))).
    + unfold w'. now rewrite logged_logged.
    + apply make_request_http_error; [|exact Hcode].
      now rewrite sent_count_rounds.
  - intros reason Hr.
    rewrite (completion_loop_refused _ _ _ _ (ConnectionError reason)).
    + unfold w'. now rewrite logged_logged.
    + apply make_request_no_answer. now rewrite sent_count_rounds.
Qed.

Lemma wait_for_completion_stops_at_failed_poll_witness :
  let req := request_of demo_client "GET" "/job/training"
               [("params", VDict [("current", VInt 1); ("size", VInt 1000)])] in
  let w := fresh_world (KeyStr "k") [training_list [job_record "ft-7" "running"]] in
  FinetuneJob._wait_for_completion 60 30 (demo_job, w)
  = (Raise (ConnectionError "connection refused"),
     (demo_job, logged [Sent req; Slept 30; Sent req] w)).
Proof.
  refine (proj2 (wait_for_completion_stops_at_failed_poll demo_job
           (fresh_world (KeyStr "k") [training_list [job_record "ft-7" "running"]])
           60 30 1 _ _ _ _) "connection refused" _).
  - vm_compute. lia.
  - lia.
  - unfold sleep_max. lia.
  - intros i Hi. assert (i = 0)%nat as -> by lia.
    right. exists (job_record "ft-7" "running"), (VStr "running").
    split; [|split; [reflexivity | repeat split; discriminate]].
    eexists. split; [is_listing|].
    exists [], [], (VStr "ft-7"); repeat split; constructor.
  - reflexivity.
Defined.

(** ** The facade from start to finish *)

Lemma sent_count_set_registry r w : sent_count (set_registry r w) = sent_count w.
Proof. reflexivity. Qed.



(** ** [FinetuneJob]: submission and the whole wait *)


(** The run of [_wait_for_completion] that ends on the [k]-th poll, by the
    status that poll reports. *)
Lemma wait_for_completion_run self w max_retries retry_interval k fields st :
  (1 <= k)%nat ->
  Z.of_nat k <= max_retries ->
  0 <= retry_interval <= sleep_max ->
  (forall i, (i < k - 1)%nat ->
             still_training (FinetuneJob.job_id self)
               (net w (sent_count w + i)
                  (request_of (FinetuneJob.client self) "GET" "/job/training"
                     [("params", VDict [("current", VInt 1); ("size", VInt 1000)])]))) ->
  reported "content" "jobName" (FinetuneJob.job_id self)
    (net w (sent_count w + (k - 1))
       (request_of (FinetuneJob.client self) "GET" "/job/training"
          [("params", VDict [("current", VInt 1); ("size", VInt 1000)])])) fields ->
  assoc "status" fields = Some st ->
  st = VStr "succeeded" \/ st = VStr "failed" \/ st = VStr "error" ->
  FinetuneJob._wait_for_completion max_retries retry_interval (self, w)
  = (if py_eq st (VStr "succeeded") then Ok tt else Raise (RuntimeError "微调任务失败"),
     (self,
      logged (rounds (request_of (FinetuneJob.client self) "GET" "/job/training"
                        [("params", VDict [("current", VInt 1); ("size", VInt 1000)])])
                retry_interval (k - 1)
              ++ [Sent (request_of (FinetuneJob.client self) "GET" "/job/training"
                          [("params", VDict [("current", VInt 1); ("size", VInt 1000)])])])
        w)).
Proof.
  intros Hk Hmax Hint Hbefore (jobs & Hlist & Hrec) Hst Hfinal.
  unfold FinetuneJob._wait_for_completion.
  replace (Z.to_nat max_retries)
    with ((k - 1) + S (Z.to_nat max_retries - k))%nat by lia.
  rewrite (completion_loop_skips self retry_interval Hint (k - 1) _ w Hbefore).
  rewrite (completion_loop_round self retry_interval Hint _ _ jobs).
  - rewrite (completion_scan_record self jobs fields st Hrec Hst).
    rewrite !logged_logged.
    destruct Hfinal as [-> | [-> | ->]]; reflexivity.
  - now rewrite sent_count_rounds.
Qed.

(** X11.  [FinetuneJob.wait_until_complete] as a whole, for a job that has
    an id.  When the [k]-th poll ([k] at most 60) is the first to report a
    final status: on ["succeeded"] the adapter listing is fetched with the
    next request and the result is [{job_id, adapter_id, status:
    "succeeded"}], [adapter_id] being the [id] of the first adapter that
    refers to the job; on ["failed"] or ["error"] the call raises
    [RuntimeError] and the adapter listing is never requested. *)
Theorem finetune_wait_until_complete_outcomes :
  forall (json_loads : string -> option value) (self : FinetuneJob.t) (w : World)
         (k : nat) (fields : list (string * value)) (st : value),
    let poll := request_of (FinetuneJob.client self) "GET" "/job/training"
                  [("params", VDict [("current", VInt 1); ("size", VInt 1000)])] in
    let listing := request_of (FinetuneJob.client self) "GET" "/resource/adapters" [] in
    let job := FinetuneJob.job_id self in
    job <> VNone ->
    (1 <= k <= 60)%nat ->
    (forall i, (i < k - 1)%nat -> still_training job (net w (sent_count w + i) poll)) ->
    reported "content" "jobName" job (net w (sent_count w + (k - 1)) poll) fields ->
    assoc "status" fields = Some st ->
    (st = VStr "succeeded" ->
     forall adapters pre adapter post id,
       lists "user_list" (net w (sent_count w + k) listing) adapters ->
       adapters = pre ++ VDict adapter :: post ->
       Forall (passed_over json_loads job) pre ->
       refers_to json_loads job (VDict adapter) ->
       assoc "id" adapter = Some id ->
       FinetuneJob.wait_until_complete json_loads (self, w)
       = (Ok (VDict [("job_id", job); ("adapter_id", id); ("status", VStr "succeeded")]),
          ({| FinetuneJob.client := FinetuneJob.client self;
              FinetuneJob.job_id := job;
              FinetuneJob.adapter_id := id |},
           logged (rounds poll 30 (k - 1) ++ [Sent poll; Sent listing]) w)))
    /\ (st = VStr "failed" \/ st = VStr "error" ->
        FinetuneJob.wait_until_complete json_loads (self, w)
        = (Raise (RuntimeError "微调任务失败"),
           (self, logged (rounds poll 30 (k - 1) ++ [Sent poll]) w))).
Proof.
  intros json_loads self w k fields st poll listing job Hjob Hk Hbefore Hrep Hst.
  assert (Hwait : st = VStr "succeeded" \/ st = VStr "failed" \/ st = VStr "error" ->
            FinetuneJob._wait_for_completion 60 30 (self, w)
            = (if py_eq st (VStr "succeeded") then Ok tt
               else Raise (RuntimeError "微调任务失败"),
               (self, logged (rounds poll 30 (k - 1) ++ [Sent poll]) w))).
  { intros Hfinal.
    apply (wait_for_completion_run self w 60 30 k fields st);
      try exact thirty_seconds_fit; try lia; assumption. }
  split.
  - intros -> adapters pre adapter post id Hlist -> Hpre Href Hid.
    specialize (Hwait (or_introl eq_refl)). cbn [py_eq String.eqb] in Hwait.
    unfold FinetuneJob.wait_until_complete.
    rewrite (bind_ok _ _ _ _ _ Hwait).
    set (w1 := logged (rounds poll 30 (k - 1) ++ [Sent poll]) w).
    assert (Hcount : sent_count w1 = (sent_count w + k)%nat).
    { unfold w1. rewrite <- logged_logged, sent_count_logged, sent_count_rounds.
      cbn [List.filter is_sent length]. lia. }
    assert (Hadapter :
              FinetuneJob._get_adapter_id json_loads (self, w1)
              = (Ok tt, (FinetuneJob.set_adapter_id id self, log (Sent listing) w1))).
    { assert (Hlist1 : lists "user_list" (net w1 (sent_count w1) listing)
                         (pre ++ VDict adapter :: post)).
      { rewrite Hcount. exact Hlist. }
      destruct (lists_delivers _ _ _ Hlist1) as (body & Hd & Hget).
      destruct (make_request_delivers _ _ _ _ _ _ Hd) as (resp & Hreq & Hjson).
      unfold FinetuneJob._get_adapter_id.
      unfold bind at 1, this at 1. cbn [fst].
      unfold bind at 1. rewrite (in_world_eq _ _ _ _ _ Hreq).
      unfold bind at 1, lift at 1. rewrite Hjson.
      unfold bind at 1, lift at 1. rewrite Hget.
      unfold bind at 1, lift at 1. cbn [iter].
      rewrite (adapter_scan_prefix json_loads self Hjob _ _ _ Hpre).
      rewrite (adapter_scan_match json_loads self adapter post _ Href).
      now rewrite Hid. }
    rewrite (bind_ok _ _ _ _ _ Hadapter).
    unfold bind, this, ret. cbn [fst].
    unfold w1, log. rewrite logged_logged, <- app_assoc. reflexivity.
  - intros Hfail.
    assert (Hne : py_eq st (VStr "succeeded") = false).
    { destruct Hfail as [-> | ->]; reflexivity. }
    specialize (Hwait (or_intror Hfail)). rewrite Hne in Hwait.
    unfold FinetuneJob.wait_until_complete.
    now rewrite (bind_raise _ _ _ _ _ Hwait).
Qed.

Lemma finetune_wait_until_complete_outcomes_witness :
  let poll := request_of demo_client "GET" "/job/training"
                [("params", VDict [("current", VInt 1); ("size", VInt 1000)])] in
  let listing := request_of demo_client "GET" "/resource/adapters" [] in
  let w := fresh_world (KeyStr "k")
             [training_list [job_record "ft-7" "running"];
              training_list [job_record "ft-7" "succeeded"];
              adapter_listing] in
  FinetuneJob.wait_until_complete Json.loads (demo_job, w)
  = (Ok (VDict [("job_id", VStr "ft-7"); ("adapter_id", VStr "a-2");
                ("status", VStr "succeeded")]),
     ({| FinetuneJob.client := demo_client;
         FinetuneJob.job_id := VStr "ft-7";
         FinetuneJob.adapter_id := VStr "a-2" |},
      logged [Sent poll; Slept 30; Sent poll; Sent listing] w)).
Proof.
  refine (proj1 (finetune_wait_until_complete_outcomes Json.loads demo_job
           (fresh_world (KeyStr "k")
              [training_list [job_record "ft-7" "running"];
               training_list [job_record "ft-7" "succeeded"];
               adapter_listing])
           2 (job_record "ft-7" "succeeded") (VStr "succeeded") _ _ _ _ _) eq_refl
           _
           [VDict (adapter_record "a-0" "{not json");
            VDict (adapter_record "a-1" (meta_about "ft-0"))]
           (adapter_record "a-2" (meta_about "ft-7"))
           [VDict (adapter_record "a-3" (meta_about "ft-7"))]
           (VStr "a-2") _ eq_refl _ _ _).
  - discriminate.
  - lia.
  - intros i Hi. assert (i = 0)%nat as -> by lia.
    right. exists (job_record "ft-7" "running"), (VStr "running").
    split; [|split; [reflexivity | repeat split; discriminate]].
    eexists. split; [is_listing|].
    exists [], [], (VStr "ft-7"); repeat split; constructor.
  - eexists. split; [is_listing|].
    exists [], [], (VStr "ft-7"); repeat split; constructor.
  - reflexivity.
  - is_listing.
  - constructor; [|constructor; [|constructor]].
    + left. exists (adapter_record "a-0" "{not json"), "{not json".
      repeat split; vm_compute; reflexivity.
    + right. exists (adapter_record "a-1" (meta_about "ft-0")), (meta_about "ft-0"),
        [("finetune_id", VStr "ft-0")].
      split; [reflexivity|]. split; [reflexivity|]. split; [vm_compute; reflexivity|].
      intros fid [= <-]. reflexivity.
  - exists (adapter_record "a-2" (meta_about "ft-7")), (meta_about "ft-7"),
      [("finetune_id", VStr "ft-7")], (VStr "ft-7").
    split; [reflexivity|]. split; [reflexivity|]. split; [vm_compute; reflexivity|].
    split; reflexivity.
  - reflexivity.
Defined.

(** ** The cleanup registry across calls *)

Lemma delete_inference_accepted c id w :
  accepted (net w (sent_count w)
              (request_of c "DELETE" "/job/inference"
                 [("params", VDict [("service_name", id)])])) ->
  SXWLClient.delete_inference_service c id w
  = (Ok tt,
     match to_hashable id with
     | Some h =>
         set_registry
           {| inference_services := inference_services (resources_to_cleanup w) ∖ {[ h ]};
              finetune_jobs := finetune_jobs (resources_to_cleanup w) |}
           (log (Sent (request_of c "DELETE" "/job/inference"
                         [("params", VDict [("service_name", id)])])) w)
     | None => log (Sent (request_of c "DELETE" "/job/inference"
                            [("params", VDict [("service_name", id)])])) w
     end).
Proof.
  intros (resp & Hr & Hcode).
  unfold SXWLClient.delete_inference_service, try_except, bind.
  rewrite (make_request_answer _ _ _ _ _ _ Hr), (raise_for_status_accepts _ Hcode).
  unfold on_inference_services, set_discard. cbn [resources_to_cleanup log logged].
  destruct (to_hashable id); reflexivity.
Qed.

Lemma delete_inference_refused c id w :
  refused (net w (sent_count w)
             (request_of c "DELETE" "/job/inference"
                [("params", VDict [("service_name", id)])])) ->
  SXWLClient.delete_inference_service c id w
  = (Ok tt, log (Sent (request_of c "DELETE" "/job/inference"
                         [("params", VDict [("service_name", id)])])) w).
Proof.
  intros Href. destruct (make_request_refused _ _ _ _ _ Href) as (e & Hreq).
  unfold SXWLClient.delete_inference_service, try_except, bind. now rewrite Hreq.
Qed.

(** X12.  Deploying and then deleting.  After a successful [deploy] the
    name the server gave is a member of [inference_services].  If the
    deletion of that name is then accepted, the set is the one from before
    the deployment without that name, so a name that was not tracked before
    leaves no trace; if the deletion is refused, nothing is raised and the
    name stays tracked.  [finetune_jobs] is the same throughout. *)
Theorem deploy_then_delete_registry :
  forall (self : InferenceService.t) (model_config : value) (w : World)
         (fields : list (string * value)) (name : value) (h : hashable),
    let post := request_of (InferenceService.client self) "POST" "/job/inference"
                  [("json", model_config)] in
    let del := request_of (InferenceService.client self) "DELETE" "/job/inference"
                 [("params", VDict [("service_name", name)])] in
    let before := resources_to_cleanup w in
    let deployed := snd (snd (InferenceService.deploy model_config (self, w))) in
    let deleted :=
      snd (SXWLClient.delete_inference_service (InferenceService.client self) name deployed) in
    delivers (net w (sent_count w) post) (VDict fields) ->
    assoc "service_name" fields = Some name ->
    to_hashable name = Some h ->
    h ∈ inference_services (resources_to_cleanup deployed)
    /\ fst (SXWLClient.delete_inference_service (InferenceService.client self) name deployed)
       = Ok tt
    /\ finetune_jobs (resources_to_cleanup deleted) = finetune_jobs before
    /\ (accepted (net w (sent_count w + 1) del) ->
        inference_services (resources_to_cleanup deleted)
        = inference_services before ∖ {[ h ]})
    /\ (accepted (net w (sent_count w + 1) del) ->
        h ∉ inference_services before ->
        inference_services (resources_to_cleanup deleted) = inference_services before)
    /\ (refused (net w (sent_count w + 1) del) ->
        h ∈ inference_services (resources_to_cleanup deleted)).
Proof.
  intros self model_config w fields name h post del before deployed deleted Hd Hname Hh.
  assert (Hdep : deployed
                 = set_registry
                     {| inference_services := inference_services before ∪ {[ h ]};
                        finetune_jobs := finetune_jobs before |}
                     (log (Sent post) w)).
  { unfold deployed.
    rewrite (deploy_registers model_config self w fields name Hd Hname)
      by (rewrite Hh; discriminate).
    cbn [snd]. unfold including. now rewrite Hh. }
  assert (Hnet : net deployed (sent_count deployed) del = net w (sent_count w + 1) del).
  { rewrite Hdep. rewrite sent_count_set_registry, sent_count_log_sent.
    cbn [net set_registry log logged]. f_equal. lia. }
  assert (Hcases : accepted (net w (sent_count w + 1) del)
                   \/ refused (net w (sent_count w + 1) del)).
  { destruct (net w (sent_count w + 1) del) as [reason | resp] eqn:E.
    - right. left. now exists reason.
    - destruct (Z_lt_le_dec (status_code resp) 400) as [Hlo | Hlo];
        [left; exists resp; split; [reflexivity | lia]|].
      destruct (Z_lt_le_dec (status_code resp) 600) as [Hhi | Hhi];
        [right; right; exists resp; split; [reflexivity | lia]
        |left; exists resp; split; [reflexivity | lia]]. }
  assert (Hacc : accepted (net w (sent_count w + 1) del) ->
            SXWLClient.delete_inference_service (InferenceService.client self) name deployed
            = (Ok tt,
               set_registry
                 {| inference_services :=
                      inference_services (resources_to_cleanup deployed) ∖ {[ h ]};
                    finetune_jobs := finetune_jobs (resources_to_cleanup deployed) |}
                 (log (Sent del) deployed))).
  { intros Ha. rewrite <- Hnet in Ha.
    rewrite (delete_inference_accepted _ _ _ Ha). now rewrite Hh. }
  assert (Href : refused (net w (sent_count w + 1) del) ->
            SXWLClient.delete_inference_service (InferenceService.client self) name deployed
            = (Ok tt, log (Sent del) deployed)).
  { intros Hr. rewrite <- Hnet in Hr. exact (delete_inference_refused _ _ _ Hr). }
  split; [rewrite Hdep; cbn; apply elem_of_union; right; now apply elem_of_singleton|].
  split; [destruct Hcases as [Ha | Hr]; [now rewrite (Hacc Ha) | now rewrite (Href Hr)]|].
  split.
  { unfold deleted. destruct Hcases as [Ha | Hr];
      [rewrite (Hacc Ha) | rewrite (Href Hr)]; rewrite Hdep; reflexivity. }
  split; [|split].
  - intros Ha. unfold deleted. rewrite (Hacc Ha), Hdep. cbn.
    apply set_eq. intros x.
    rewrite !elem_of_difference, elem_of_union, elem_of_singleton. tauto.
  - intros Ha Hnew. unfold deleted. rewrite (Hacc Ha), Hdep. cbn.
    apply set_eq. intros x.
    rewrite !elem_of_difference, elem_of_union, elem_of_singleton.
    split; [tauto|]. intros Hx. split; [now left|]. now intros ->.
  - intros Hr. unfold deleted. rewrite (Href Hr), Hdep. cbn.
    apply elem_of_union. right. now apply elem_of_singleton.
Qed.

Lemma deploy_then_delete_registry_witness :
  let w := fresh_world (KeyStr "k")
             [ok_json (VDict [("service_name", VStr "svc-9")]);
              Answer {| status_code := 200; payload := None |}] in
  let deployed := snd (snd (InferenceService.deploy (VDict []) (demo_service, w))) in
  inference_services
    (resources_to_cleanup
       (snd (SXWLClient.delete_inference_service demo_client (VStr "svc-9") deployed)))
  = ∅.
Proof.
  refine (proj1 (proj2 (proj2 (proj2 (proj2
           (deploy_then_delete_registry demo_service (VDict [])
              (fresh_world (KeyStr "k")
                 [ok_json (VDict [("service_name", VStr "svc-9")]);
                  Answer {| status_code := 200; payload := None |}])
              [("service_name", VStr "svc-9")] (VStr "svc-9") (HStr "svc-9") _ _ _)))))
           _ _).
  - by_200.
  - reflexivity.
  - reflexivity.
  - eexists. split; [reflexivity | cbn; lia].
  - cbn. apply not_elem_of_empty.
Defined.

(** ** Credentials: when they are read, and as what *)

Lemma create_default_undecodable w raw :
  api_key w = KeyBytes raw -> raw <> [] -> utf8_valid raw = false ->
  APIConfig.create_default w = (Raise UnicodeDecodeError, w).
Proof.
  intros Hkey Hne Hbad. unfold APIConfig.create_default, bytes_decode_utf8.
  rewrite Hkey. destruct raw as [| b raw]; [contradiction|]. now rewrite Hbad.
Qed.

(** X13.  The process-wide key is read again by every call of [run_sync],
    [health] and [purge_queue], and by the constructor, but not by [run].
    With a key given as non-empty bytes that are not UTF-8, those four raise
    [UnicodeDecodeError] before anything is sent ([health] and
    [purge_queue] too: the configuration is built outside their [try]),
    while [run] on an endpoint built earlier still sends its POST, with the
    endpoint's own configuration. *)
Theorem facade_rebuilds_configuration_except_run :
  forall (exn_message : exn -> string) (self : Endpoint.t)
         (request_input : list (string * value)) (timeout : Z) (id : string)
         (w : World) (raw : list byte),
    api_key w = KeyBytes raw ->
    raw <> [] ->
    utf8_valid raw = false ->
    Endpoint.run_sync self (VDict request_input) timeout w = (Raise UnicodeDecodeError, w)
    /\ Endpoint.health exn_message self timeout w = (Raise UnicodeDecodeError, w)
    /\ Endpoint.purge_queue exn_message self timeout w = (Raise UnicodeDecodeError, w)
    /\ Endpoint.init id w = (Raise UnicodeDecodeError, w)
    /\ exists outcome w' body,
         Endpoint.run self (VDict request_input) w = (outcome, w')
         /\ trace w' = trace w ++ [Sent (request_of (Endpoint.rp_client self)
                                           "POST" "/job/inference" [("json", body)])].
Proof.
  intros exn_message self request_input timeout id w raw Hkey Hne Hbad.
  pose proof (create_default_undecodable w raw Hkey Hne Hbad) as Hcfg.
  split; [|split; [|split; [|split]]].
  - unfold Endpoint.run_sync. unfold bind at 1, lift at 1. cbn [dict_get].
    unfold bind at 1. now rewrite Hcfg.
  - unfold Endpoint.health. unfold bind at 1. now rewrite Hcfg.
  - unfold Endpoint.purge_queue. unfold bind at 1. now rewrite Hcfg.
  - unfold Endpoint.init. unfold bind at 1. now rewrite Hcfg.
  - destruct (run_sends_one_post self request_input w) as (outcome & w' & Hrun & Ht).
    eexists outcome, w', _. split; [exact Hrun | exact Ht].
Qed.

Lemma facade_rebuilds_configuration_except_run_witness :
  Endpoint.health (fun _ => "") demo_endpoint 3 (fresh_world (KeyBytes [Byte.xff]) [])
  = (Raise UnicodeDecodeError, fresh_world (KeyBytes [Byte.xff]) []).
Proof.
  refine (proj1 (proj2 (facade_rebuilds_configuration_except_run (fun _ => "")
           demo_endpoint [] 3 "INFERENCE" (fresh_world (KeyBytes [Byte.xff]) [])
           [Byte.xff] _ _ _))).
  - reflexivity.
  - discriminate.
  - reflexivity.
Defined.

Lemma ascii_bytes_are_utf8 raw :
  Forall (fun b => (Byte.to_N b < 128)%N) raw -> utf8_valid raw = true.
Proof.
  induction 1 as [| b raw Hb _ IH]; [reflexivity|].
  cbn [utf8_valid].
  destruct (Z.of_N (Byte.to_N b) <? 128) eqn:E; [exact IH|]. lia.
Qed.

(** X14.  A key given as bytes that are all ASCII (as the tokens of the
    platform are) is always accepted: the configuration carries the same
    characters as text, and the header is [Authorization: Bearer] followed
    by them, exactly as if the key had been given as [str]. *)
Theorem create_default_accepts_ascii_bytes :
  forall (w : World) (raw : list byte),
    api_key w = KeyBytes raw ->
    raw <> [] ->
    Forall (fun b => (Byte.to_N b < 128)%N) raw ->
    APIConfig.create_default w
    = (Ok {| APIConfig.base_url := endpoint_url_base w;
             APIConfig.token := KeyStr (string_of_list_byte raw);
             APIConfig.headers :=
               default_headers (KeyStr (string_of_list_byte raw)) (endpoint_url_base w) |},
       w).
Proof.
  intros w raw Hkey Hne Hascii.
  unfold APIConfig.create_default, bytes_decode_utf8, default_headers. rewrite Hkey.
  destruct raw as [| b raw]; [contradiction|].
  now rewrite (ascii_bytes_are_utf8 _ Hascii).
Qed.

Lemma create_default_accepts_ascii_bytes_witness :
  APIConfig.create_default (fresh_world (KeyBytes [Byte.x6b; Byte.x31]) [])
  = (Ok {| APIConfig.base_url := "https://api.runpod.ai/v2";
           APIConfig.token := KeyStr "k1";
           APIConfig.headers := default_headers (KeyStr "k1") "https://api.runpod.ai/v2" |},
     fresh_world (KeyBytes [Byte.x6b; Byte.x31]) []).
Proof.
  apply (create_default_accepts_ascii_bytes
           (fresh_world (KeyBytes [Byte.x6b; Byte.x31]) []) [Byte.x6b; Byte.x31]).
  - reflexivity.
  - discriminate.
  - repeat constructor.
Defined.

(** ** [Endpoint.health] and [Endpoint.purge_queue] *)

(** The payload that stands for a failure. *)
Lemma best_effort_run (exn_message : exn -> string) c method endpoint kwargs w :
  try_except
    (response <- SXWLClient._make_request c method endpoint kwargs ;;
     lift (json response))
    is_Exception
    (fun e => ret (VDict [("status", VStr "error"); ("message", VStr (exn_message e))])) w
  = (Ok (match net w (sent_count w) (request_of c method endpoint kwargs) with
         | NoAnswer reason => error_payload (exn_message (ConnectionError reason))
         | Answer resp =>
             match raise_for_status resp with
             | Raise e => error_payload (exn_message e)
             | Ok _ =>
                 match payload resp with
                 | Some body => body
                 | None => error_payload (exn_message JSONDecodeError)
                 end
             end
         end),
     log (Sent (request_of c method endpoint kwargs)) w).
Proof.
  unfold try_except, bind.
  destruct (net w (sent_count w) (request_of c method endpoint kwargs))
    as [reason | resp] eqn:Hr.
  - now rewrite (make_request_no_answer _ _ _ _ _ _ Hr).
  - rewrite (make_request_answer _ _ _ _ _ _ Hr).
    destruct (raise_for_status resp); [|reflexivity].
    unfold lift, json. destruct (payload resp); reflexivity.
Qed.

(** X15.  [health], in a world whose key yields a configuration: it never
    raises and sends exactly one request, the GET of [/job/health] with the
    given [timeout], built from the configuration of that moment (the
    endpoint's own client is not used).  It returns the JSON body of a
    successful answer as it is; when there is no answer, the status is an
    error (400 to 599), or the body is not JSON, it returns
    [{"status": "error", "message": str(e)}] for the exception [e] that was
    raised.  The cleanup registry is not touched. *)
Theorem health_answers_or_describes_failure :
  forall (exn_message : exn -> string) (self : Endpoint.t) (timeout : Z) (w : World)
         (config : APIConfig.t),
    let req := request_of {| SXWLClient.config := config |} "GET" "/job/health"
                 [("timeout", VInt timeout)] in
    let reply := net w (sent_count w) req in
    let failed e :=
      Endpoint.health exn_message self timeout w
      = (Ok (VDict [("status", VStr "error"); ("message", VStr (exn_message e))]),
         log (Sent req) w) in
    APIConfig.create_default w = (Ok config, w) ->
    (exists result, Endpoint.health exn_message self timeout w = (Ok result, log (Sent req) w))
    /\ (forall body, delivers reply body ->
          Endpoint.health exn_message self timeout w = (Ok body, log (Sent req) w))
    /\ (forall reason, reply = NoAnswer reason -> failed (ConnectionError reason))
    /\ (forall resp, reply = Answer resp -> 400 <= status_code resp < 600 ->
          failed (HTTPError (status_code resp)))
    /\ (forall code, reply = Answer {| status_code := code; payload := None |} ->
          code < 400 \/ 600 <= code -> failed JSONDecodeError).
Proof.
  intros exn_message self timeout w config req reply failed Hcfg. unfold failed.
  assert (Hrun : Endpoint.health exn_message self timeout w
                 = (Ok (match reply with
                        | NoAnswer reason => error_payload (exn_message (ConnectionError reason))
                        | Answer resp =>
                            match raise_for_status resp with
                            | Raise e => error_payload (exn_message e)
                            | Ok _ =>
                                match payload resp with
                                | Some body => body
                                | None => error_payload (exn_message JSONDecodeError)
                                end
                            end
                        end), log (Sent req) w)).
  { unfold Endpoint.health. unfold bind at 1. rewrite Hcfg.
    exact (best_effort_run exn_message _ _ _ _ w). }
  rewrite Hrun. split; [|split; [|split; [|split]]].
  - eexists. reflexivity.
  - intros body (code & -> & Hcode).
    rewrite raise_for_status_accepts by exact Hcode. reflexivity.
  - intros reason ->. reflexivity.
  - intros resp -> Hcode. now rewrite (raise_for_status_refuses _ Hcode).
  - intros code -> Hcode.
    rewrite raise_for_status_accepts by exact Hcode. reflexivity.
Qed.

Lemma health_answers_or_describes_failure_witness :
  let config := {| APIConfig.base_url := "https://api.runpod.ai/v2";
                   APIConfig.token := KeyStr "k";
                   APIConfig.headers :=
                     default_headers (KeyStr "k") "https://api.runpod.ai/v2" |} in
  let w := fresh_world (KeyStr "k") [Answer {| status_code := 503; payload := None |}] in
  Endpoint.health (fun _ => "unavailable") demo_endpoint 3 w
  = (Ok (VDict [("status", VStr "error"); ("message", VStr "unavailable")]),
     log (Sent (request_of {| SXWLClient.config := config |} "GET" "/job/health"
                  [("timeout", VInt 3)])) w).
Proof.
  refine (proj1 (proj2 (proj2 (proj2
           (health_answers_or_describes_failure (fun _ => "unavailable") demo_endpoint 3
              (fresh_world (KeyStr "k") [Answer {| status_code := 503; payload := None |}])
              {| APIConfig.base_url := "https://api.runpod.ai/v2";
                 APIConfig.token := KeyStr "k";
                 APIConfig.headers :=
                   default_headers (KeyStr "k") "https://api.runpod.ai/v2" |} _))))
           {| status_code := 503; payload := None |} _ _).
  - reflexivity.
  - reflexivity.
  - cbn. lia.
Defined.

(** X16.  [purge_queue] behaves in the same way on the POST of
    [/job/purge-queue]: one request with the given [timeout], the JSON body
    of a successful answer returned as it is, and an error payload, never an
    exception, for a request that fails. *)
Theorem purge_queue_answers_or_describes_failure :
  forall (exn_message : exn -> string) (self : Endpoint.t) (timeout : Z) (w : World)
         (config : APIConfig.t),
    let req := request_of {| SXWLClient.config := config |} "POST" "/job/purge-queue"
                 [("timeout", VInt timeout)] in
    let reply := net w (sent_count w) req in
    let failed e :=
      Endpoint.purge_queue exn_message self timeout w
      = (Ok (VDict [("status", VStr "error"); ("message", VStr (exn_message e))]),
         log (Sent req) w) in
    APIConfig.create_default w = (Ok config, w) ->
    (exists result,
        Endpoint.purge_queue exn_message self timeout w = (Ok result, log (Sent req) w))
    /\ (forall body, delivers reply body ->
          Endpoint.purge_queue exn_message self timeout w = (Ok body, log (Sent req) w))
    /\ (forall reason, reply = NoAnswer reason -> failed (ConnectionError reason))
    /\ (forall resp, reply = Answer resp -> 400 <= status_code resp < 600 ->
          failed (HTTPError (status_code resp)))
    /\ (forall code, reply = Answer {| status_code := code; payload := None |} ->
          code < 400 \/ 600 <= code -> failed JSONDecodeError).
Proof.
  intros exn_message self timeout w config req reply failed Hcfg. unfold failed.
  assert (Hrun : Endpoint.purge_queue exn_message self timeout w
                 = (Ok (match reply with
                        | NoAnswer reason => error_payload (exn_message (ConnectionError reason))
                        | Answer resp =>
                            match raise_for_status resp with
                            | Raise e => error_payload (exn_message e)
                            | Ok _ =>
                                match payload resp with
                                | Some body => body
                                | None => error_payload (exn_message JSONDecodeError)
                                end
                            end
                        end), log (Sent req) w)).
  { unfold Endpoint.purge_queue. unfold bind at 1. rewrite Hcfg.
    exact (best_effort_run exn_message _ _ _ _ w). }
  rewrite Hrun. split; [|split; [|split; [|split]]].
  - eexists. reflexivity.
  - intros body (code & -> & Hcode).
    rewrite raise_for_status_accepts by exact Hcode. reflexivity.
  - intros reason ->. reflexivity.
  - intros resp -> Hcode. now rewrite (raise_for_status_refuses _ Hcode).
  - intros code -> Hcode.
    rewrite raise_for_status_accepts by exact Hcode. reflexivity.
Qed.

Lemma purge_queue_answers_or_describes_failure_witness :
  let config := {| APIConfig.base_url := "https://api.runpod.ai/v2";
                   APIConfig.token := KeyStr "k";
                   APIConfig.headers :=
                     default_headers (KeyStr "k") "https://api.runpod.ai/v2" |} in
  let w := fresh_world (KeyStr "k") [ok_json (VDict [("removed", VInt 2)])] in
  Endpoint.purge_queue (fun _ => "") demo_endpoint 3 w
  = (Ok (VDict [("removed", VInt 2)]),
     log (Sent (request_of {| SXWLClient.config := config |} "POST" "/job/purge-queue"
                  [("timeout", VInt 3)])) w).
Proof.
  refine (proj1 (proj2
           (purge_queue_answers_or_describes_failure (fun _ => "") demo_endpoint 3
              (fresh_world (KeyStr "k") [ok_json (VDict [("removed", VInt 2)])])
              {| APIConfig.base_url := "https://api.runpod.ai/v2";
                 APIConfig.token := KeyStr "k";
                 APIConfig.headers :=
                   default_headers (KeyStr "k") "https://api.runpod.ai/v2" |} _))
           (VDict [("removed", VInt 2)]) _).
  - reflexivity.
  - by_200.
Defined.

(** ** [_get_adapter_id] at its edges *)

Lemma get_adapter_id_fetch json_loads self w adapters :
  lists "user_list"
    (net w (sent_count w) (request_of (FinetuneJob.client self) "GET" "/resource/adapters" []))
    adapters ->
  FinetuneJob._get_adapter_id json_loads (self, w)
  = FinetuneJob.adapter_scan json_loads adapters
      (self, log (Sent (request_of (FinetuneJob.client self)
                          "GET" "/resource/adapters" [])) w).
Proof.
  intros Hlist.
  destruct (lists_delivers _ _ _ Hlist) as (body & Hd & Hget).
  destruct (make_request_delivers _ _ _ _ _ _ Hd) as (resp & Hreq & Hjson).
  unfold FinetuneJob._get_adapter_id.
  unfold bind at 1, this at 1. cbn [fst].
  unfold bind at 1. rewrite (in_world_eq _ _ _ _ _ Hreq).
  unfold bind at 1, lift at 1. rewrite Hjson.
  unfold bind at 1, lift at 1. rewrite Hget.
  unfold bind at 1, lift at 1. reflexivity.
Qed.

(** X17.  The first adapter that refers to the job decides, also when it is
    defective: if it has no [id] field, [_get_adapter_id] raises [KeyError]
    and [adapter_id] stays unassigned, whatever comes after it in the
    listing, a complete adapter for the same job included. *)
Theorem get_adapter_id_match_without_id :
  forall (json_loads : string -> option value) (self : FinetuneJob.t) (w : World)
         (adapters pre post : list value) (fields : list (string * value)),
    let req := request_of (FinetuneJob.client self) "GET" "/resource/adapters" [] in
    let job := FinetuneJob.job_id self in
    job <> VNone ->
    lists "user_list" (net w (sent_count w) req) adapters ->
    adapters = pre ++ VDict fields :: post ->
    Forall (passed_over json_loads job) pre ->
    refers_to json_loads job (VDict fields) ->
    assoc "id" fields = None ->
    FinetuneJob._get_adapter_id json_loads (self, w)
    = (Raise (KeyError "id"), (self, log (Sent req) w)).
Proof.
  intros json_loads self w adapters pre post fields req job Hjob Hlist -> Hpre Href Hid.
  rewrite (get_adapter_id_fetch json_loads self w _ Hlist).
  rewrite (adapter_scan_prefix json_loads self Hjob _ _ _ Hpre).
  rewrite (adapter_scan_match json_loads self fields post _ Href).
  now rewrite Hid.
Qed.

Lemma get_adapter_id_match_without_id_witness :
  let req := request_of demo_client "GET" "/resource/adapters" [] in
  let w := fresh_world (KeyStr "k")
             [ok_json (VDict [("user_list",
                               VList [VDict [("meta", VStr (meta_about "ft-7"))];
                                      VDict (adapter_record "a-3" (meta_about "ft-7"))])])] in
  FinetuneJob._get_adapter_id Json.loads (demo_job, w)
  = (Raise (KeyError "id"), (demo_job, log (Sent req) w)).
Proof.
  apply (get_adapter_id_match_without_id Json.loads demo_job
           (fresh_world (KeyStr "k")
              [ok_json (VDict [("user_list",
                                VList [VDict [("meta", VStr (meta_about "ft-7"))];
                                       VDict (adapter_record "a-3" (meta_about "ft-7"))])])])
           [VDict [("meta", VStr (meta_about "ft-7"))];
            VDict (adapter_record "a-3" (meta_about "ft-7"))]
           [] [VDict (adapter_record "a-3" (meta_about "ft-7"))]
           [("meta", VStr (meta_about "ft-7"))]).
  - discriminate.
  - is_listing.
  - reflexivity.
  - constructor.
  - exists [("meta", VStr (meta_about "ft-7"))], (meta_about "ft-7"),
      [("finetune_id", VStr "ft-7")], (VStr "ft-7").
    split; [reflexivity|]. split; [reflexivity|]. split; [vm_compute; reflexivity|].
    split; reflexivity.
  - reflexivity.
Defined.

(** X18.  On a job that was never started ([job_id] is [None]) the
    comparison [meta.get('finetune_id') == self.job_id] holds for metadata
    without a [finetune_id]: the first adapter of the listing whose metadata
    is such an object, for instance an adapter with no [meta] field when
    ["{}"] parses to the empty object, is taken as the job's adapter. *)
Theorem get_adapter_id_without_job_id :
  forall (json_loads : string -> option value) (self : FinetuneJob.t) (w : World)
         (fields : list (string * value)) (post : list value) (text : string)
         (meta : list (string * value)) (id : value),
    let req := request_of (FinetuneJob.client self) "GET" "/resource/adapters" [] in
    FinetuneJob.job_id self = VNone ->
    lists "user_list" (net w (sent_count w) req) (VDict fields :: post) ->
    meta_of fields = VStr text ->
    json_loads text = Some (VDict meta) ->
    assoc "finetune_id" meta = None ->
    assoc "id" fields = Some id ->
    FinetuneJob._get_adapter_id json_loads (self, w)
    = (Ok tt,
       ({| FinetuneJob.client := FinetuneJob.client self;
           FinetuneJob.job_id := VNone;
           FinetuneJob.adapter_id := id |}, log (Sent req) w)).
Proof.
  intros json_loads self w fields post text meta id req Hjob Hlist Hmeta Hload Hfid Hid.
  rewrite (get_adapter_id_fetch json_loads self w _ Hlist).
  cbn [FinetuneJob.adapter_scan].
  unfold bind, try_except, FinetuneJob.adapter_try, bind, this, lift, assign, ret.
  cbn [fst snd]. rewrite dict_get_meta, Hmeta. cbn [FinetuneJob.loads].
  rewrite Hload. cbn [dict_get]. rewrite Hfid, Hjob. cbn [py_eq getitem].
  rewrite Hid. unfold FinetuneJob.set_adapter_id. cbn [fst snd].
  now rewrite Hjob.
Qed.

Lemma get_adapter_id_without_job_id_witness :
  let req := request_of demo_client "GET" "/resource/adapters" [] in
  let job := FinetuneJob.init demo_client in
  let w := fresh_world (KeyStr "k")
             [ok_json (VDict [("user_list", VList [VDict [("id", VStr "a-9")]])])] in
  FinetuneJob._get_adapter_id Json.loads (job, w)
  = (Ok tt,
     ({| FinetuneJob.client := demo_client;
         FinetuneJob.job_id := VNone;
         FinetuneJob.adapter_id := VStr "a-9" |}, log (Sent req) w)).
Proof.
  apply (get_adapter_id_without_job_id Json.loads (FinetuneJob.init demo_client)
           (fresh_world (KeyStr "k")
              [ok_json (VDict [("user_list", VList [VDict [("id", VStr "a-9")]])])])
           [("id", VStr "a-9")] [] "{}" [] (VStr "a-9")).
  - reflexivity.
  - is_listing.
  - reflexivity.
  - vm_compute. reflexivity.
  - reflexivity.
  - reflexivity.
Defined.

(** ** Tracking follows success *)

(** X19.  Against any server, [deploy] and [start] track a resource exactly
    when they return.  If the call returns, the identifier now stored in
    the object is hashable and has been added to its set of the registry,
    the other set being untouched; if the call raises, for whatever reason,
    the registry is exactly as it was before. *)
Theorem tracked_exactly_when_created :
  forall (config : value) (w : World),
    let reg := resources_to_cleanup w in
    (forall (service : InferenceService.t),
        match InferenceService.deploy config (service, w) with
        | (Ok _, (service', w')) =>
            exists h,
              to_hashable (InferenceService.service_name service') = Some h
              /\ inference_services (resources_to_cleanup w')
                 = inference_services reg ∪ {[ h ]}
              /\ finetune_jobs (resources_to_cleanup w') = finetune_jobs reg
        | (Raise _, (_, w')) => resources_to_cleanup w' = reg
        end)
    /\ (forall (job : FinetuneJob.t),
        match FinetuneJob.start config (job, w) with
        | (Ok _, (job', w')) =>
            exists h,
              to_hashable (FinetuneJob.job_id job') = Some h
              /\ finetune_jobs (resources_to_cleanup w') = finetune_jobs reg ∪ {[ h ]}
              /\ inference_services (resources_to_cleanup w') = inference_services reg
        | (Raise _, (_, w')) => resources_to_cleanup w' = reg
        end).
Proof.
  intros config w reg. split.
  - intros service.
    unfold InferenceService.deploy, bind, this, in_world. cbn [fst snd].
    pose proof (make_request_logs (InferenceService.client service) "POST" "/job/inference"
                  [("json", config)] w) as Hlog.
    destruct (SXWLClient._make_request _ _ _ _ w) as [[resp | e] w1];
      cbn [snd] in Hlog; subst w1; [|reflexivity].
    unfold lift. destruct (json resp) as [body | e]; [|reflexivity].
    destruct (getitem body "service_name") as [name | e]; [|reflexivity].
    unfold assign, on_inference_services, set_add. cbn [fst snd].
    destruct (to_hashable name) as [h|] eqn:Hh; [|reflexivity].
    exists h. repeat split. exact Hh.
  - intros job.
    unfold FinetuneJob.start, bind, this, in_world. cbn [fst snd].
    pose proof (make_request_logs (FinetuneJob.client job) "POST" "/job/finetune"
                  [("json", config)] w) as Hlog.
    destruct (SXWLClient._make_request _ _ _ _ w) as [[resp | e] w1];
      cbn [snd] in Hlog; subst w1; [|reflexivity].
    unfold lift. destruct (json resp) as [body | e]; [|reflexivity].
    destruct (getitem body "job_id") as [id | e]; [|reflexivity].
    unfold assign, on_finetune_jobs, set_add. cbn [fst snd].
    destruct (to_hashable id) as [h|] eqn:Hh; [|reflexivity].
    exists h. repeat split. exact Hh.
Qed.
